(** * BlenderRenderers: frame loading, mesh updates and polling loops

    A shallow embedding of the render scripts of the repository
    (DAT/Multi-physics/run.py, DAT/bullet/load_frame.py,
    DAT/dropingBoxes/render_sequence.py, DAT/Twist_release/run.py,
    DAT/unroll/run.py, DAT/cloth_drop/run_slowmo_orbit.py and
    Scripts/M02_RenderScripts.py) together with the properties the
    specification states about them (C1 to C6, C8 and C9), and further
    properties of these scripts and of their helpers in
    DAT/bullet/add_velocity_overlay.py, DAT/bullet/run_bullet_sim.py,
    DAT/dropingBoxes/load_initial_meshes.py and
    DAT/dropingBoxes/load_frame.py (X1 to X26).

    Conventions of the embedding.
    - Python [int] is [Z]; lengths and counts that come out of [len] are
      [nat] and are injected into [Z] where the code compares them with
      an [int].
    - A floating-point value is the real number ([R]) it stands for.
      What the interpreter and the libraries compute from such values
      is an operation of the host, of which nothing is assumed but
      what is written with it: rounding to single precision
      ([astype(np.float32)], idempotent), the arithmetic on Python
      floats, [math.cos], [math.sin] and [math.radians], the
      entry-wise product and sum of numpy in the slow-motion script,
      and the vector arithmetic of mathutils. The scaling and the
      rigid-body transform of Multi-physics/run.py are written with
      the arithmetic of the real numbers and stand for their formulas.
      What the specification says on exact results of floating-point
      arithmetic in the slow-motion script (C7, C10) is not stated
      here; what that script computes is X25 and X26.
    - A numpy array is its shape together with its row-major data.
    - The host scene is a finite map from object names to objects; a
      Python reference to a scene object is the object's name, so two
      references to one object alias.
    - Python code runs in a state-and-exception monad over the host
      state: an exception keeps the state reached so far.
    - A Python [str] is a [string] of characters with code points
      below 256. *)

From Stdlib Require Import ZArith List Lia Reals Lra Ascii.
From Stdlib Require Import Decimal DecimalFacts DecimalPos DecimalN DecimalString.
From stdpp Require Import base gmap strings list.

Local Open Scope Z_scope.

(** ** Exceptions and the script monad *)

Inductive exn :=
| ValueError
| RuntimeError
| IndexError
| KeyError
| AttributeError
| TypeError
| ZeroDivisionError
| OSError.

Inductive result (A : Type) :=
| Ok (a : A)
| Raise (e : exn).
Arguments Ok {A} a.
Arguments Raise {A} e.

(** ** numpy arrays *)

Record ndarray := NdArray { shape : list nat; data : list R }.

Definition size_of (sh : list nat) : nat := fold_right Nat.mul 1%nat sh.

(** The invariant every array that [np.load] returns satisfies. *)
Definition wf_array (a : ndarray) : Prop :=
  length (data a) = size_of (shape a).

Definition ndim (a : ndarray) : nat := length (shape a).

(** [a.shape[i]]: a tuple index, [IndexError] when out of range. *)
Definition shape_at (a : ndarray) (i : nat) : result nat :=
  match shape a !! i with
  | Some n => Ok n
  | None => Raise IndexError
  end.

(** [a.reshape(-1)]: the row-major data as a flat array. *)
Definition reshape_flat (a : ndarray) : list R := data a.

Definition vec3 : Type := R * R * R.

(** Consecutive triples of a flat coordinate list. *)
Fixpoint triples (l : list R) : list vec3 :=
  match l with
  | x :: y :: z :: rest => (x, y, z) :: triples rest
  | _ => []
  end.

Definition flatten3 (vs : list vec3) : list R :=
  flat_map (fun v => match v with (x, y, z) => [x; y; z] end) vs.

(** The rows of an (N,3) array, as the host reads them from [co_flat]. *)
Definition rows3 (a : ndarray) : list vec3 := triples (data a).

Definition of_rows3 (vs : list vec3) : ndarray :=
  NdArray [length vs; 3%nat] (flatten3 vs).

(** Bounds of the Python slice [l[start:stop]] on a sequence of length
    [n]; [None] is an omitted bound. *)
Definition slice_bound (n : nat) (b : Z) : nat :=
  if b <? 0 then Z.to_nat (Z.max (b + Z.of_nat n) 0)
  else Z.to_nat (Z.min b (Z.of_nat n)).

Definition slice_lo (n : nat) (start : option Z) : nat :=
  match start with None => 0%nat | Some b => slice_bound n b end.

Definition slice_hi (n : nat) (stop : option Z) : nat :=
  match stop with None => n | Some b => slice_bound n b end.

(** [a[start:stop]], a slice along the first axis. *)
Definition slice0 (a : ndarray) (start stop : option Z) : result ndarray :=
  match shape a with
  | [] => Raise IndexError
  | n :: rest =>
      let lo := slice_lo n start in
      let hi := slice_hi n stop in
      let rs := size_of rest in
      Ok (NdArray ((hi - lo)%nat :: rest)
                  (take ((hi - lo) * rs)%nat (drop (lo * rs)%nat (data a))))
  end.

(** [a[i]] for an integer [i]: negative indices count from the end. *)
Definition getitem0 (a : ndarray) (i : Z) : result ndarray :=
  match shape a with
  | [] => Raise IndexError
  | n :: rest =>
      let j := if i <? 0 then i + Z.of_nat n else i in
      if (0 <=? j) && (j <? Z.of_nat n)
      then let rs := size_of rest in
           Ok (NdArray rest (take rs (drop (Z.to_nat j * rs)%nat (data a))))
      else Raise IndexError
  end.

(** A zero-dimensional array used as a Python float. *)
Definition item (a : ndarray) : result R :=
  match shape a, data a with
  | [], [x] => Ok x
  | _, _ => Raise TypeError
  end.

(** [len(a)]. *)
Definition np_len (a : ndarray) : result nat :=
  match shape a with
  | [] => Raise TypeError
  | n :: _ => Ok n
  end.

(** [a * c] for a Python float [c]. *)
Definition np_scale (a : ndarray) (c : R) : ndarray :=
  NdArray (shape a) (map (fun x => (x * c)%R) (data a)).

(** [f(x)] for every entry [x] of [a]. *)
Definition np_map (f : R -> R) (a : ndarray) : ndarray :=
  NdArray (shape a) (map f (data a)).

(** The shape two shapes broadcast to, both given with the last axis
    first: axes are paired from the last one, two lengths go together
    when they are equal or one of them is 1, and a missing axis counts
    as one of length 1. *)
Fixpoint broadcast_rev (s1 s2 : list nat) : option (list nat) :=
  match s1, s2 with
  | [], s => Some s
  | s, [] => Some s
  | m1 :: r1, m2 :: r2 =>
      match broadcast_rev r1 r2 with
      | Some r =>
          if (m1 =? m2)%nat then Some (m1 :: r)
          else if (m1 =? 1)%nat then Some (m2 :: r)
          else if (m2 =? 1)%nat then Some (m1 :: r)
          else None
      | None => None
      end
  end.

Definition broadcast_shapes (s1 s2 : list nat) : option (list nat) :=
  match broadcast_rev (rev s1) (rev s2) with
  | Some r => Some (rev r)
  | None => None
  end.

(** A shape with axes of length 1 put before it, up to [n] axes. *)
Definition pad_shape (n : nat) (s : list nat) : list nat :=
  replicate (n - length s) 1%nat ++ s.

(** The data of an array of shape [s] read as an array of shape [t]:
    [s] has as many axes as [t], and an axis of [s] that has length 1
    is repeated along the axis of [t]. *)
Fixpoint broadcast_data (t s : list nat) (d : list R) : list R :=
  match t, s with
  | mt :: t', ms :: s' =>
      let chunk := size_of s' in
      flat_map (fun i =>
                  let j := if (ms =? 1)%nat then 0%nat else i in
                  broadcast_data t' s' (take chunk (drop (j * chunk) d)))
               (seq 0 mt)
  | _, _ => d
  end.

(** [a (op) b] entry by entry, after the two arrays are broadcast to
    one shape; numpy raises [ValueError] when they cannot be. *)
Definition np_broadcast2 (f : R -> R -> R) (a b : ndarray) : result ndarray :=
  match broadcast_shapes (shape a) (shape b) with
  | Some t =>
      let n := length t in
      Ok (NdArray t (zip_with f (broadcast_data t (pad_shape n (shape a)) (data a))
                                (broadcast_data t (pad_shape n (shape b)) (data b))))
  | None => Raise ValueError
  end.

(** [a + p] for [a] of shape (N,3) and [p] of shape (3,): [p] is added
    to every row. *)
Definition np_add_row (a p : ndarray) : result ndarray :=
  match shape a, shape p, data p with
  | [n; 3%nat], [3%nat], [px; py; pz] =>
      Ok (NdArray [n; 3%nat]
            (flatten3 (map (fun v => match v with
                                     | (x, y, z) => (x + px, y + py, z + pz)%R
                                     end) (triples (data a)))))
  | _, _, _ => Raise ValueError
  end.

(** 3x3 matrices by rows, the value of [np.array(m.to_3x3())]. *)
Definition mat3 : Type := vec3 * vec3 * vec3.

(** [m.T]. *)
Definition mat3_T (m : mat3) : mat3 :=
  match m with
  | ((a00, a01, a02), (a10, a11, a12), (a20, a21, a22)) =>
      ((a00, a10, a20), (a01, a11, a21), (a02, a12, a22))
  end.

(** One row of [a @ m]: the row vector [v] times the matrix [m]. *)
Definition row_matmul (v : vec3) (m : mat3) : vec3 :=
  match v, m with
  | (x, y, z), ((a00, a01, a02), (a10, a11, a12), (a20, a21, a22)) =>
      (x * a00 + y * a10 + z * a20,
       x * a01 + y * a11 + z * a21,
       x * a02 + y * a12 + z * a22)%R
  end.

(** [a @ m] for [a] of shape (N,3) and a 3x3 matrix [m]; numpy refuses a
    two-dimensional [a] whose rows are not of length 3 with [ValueError]. *)
Definition np_matmul3 (a : ndarray) (m : mat3) : result ndarray :=
  match shape a with
  | [n; 3%nat] =>
      Ok (NdArray [n; 3%nat]
            (flatten3 (map (fun v => row_matmul v m) (triples (data a)))))
  | _ => Raise ValueError
  end.

(** Python list indexing [l[i]]. *)
Definition py_getitem {A} (l : list A) (i : Z) : result A :=
  let j := if i <? 0 then i + Z.of_nat (length l) else i in
  if 0 <=? j
  then match l !! Z.to_nat j with
       | Some x => Ok x
       | None => Raise IndexError
       end
  else Raise IndexError.

(** [range(n)]. *)
Definition py_range (n : Z) : list Z :=
  map Z.of_nat (seq 0 (Z.to_nat n)).

(** [range(start, stop, step)]; [step = 0] is a [ValueError]. *)
Definition py_range3 (start stop step : Z) : result (list Z) :=
  if step =? 0 then Raise ValueError
  else
    let len := if 0 <? step
               then (stop - start + step - 1) / step
               else (start - stop - step - 1) / (- step) in
    Ok (map (fun i => start + Z.of_nat i * step) (seq 0 (Z.to_nat len))).

(** ** Strings: [f"{n:06d}"] *)

(** Decimal digits of [n], zero-padded on the left to [width] digits. *)
Definition zero_padded (width : nat) (n : N) : Decimal.uint :=
  let d := N.to_uint n in
  Nat.iter (width - Decimal.nb_digits d) Decimal.D0 d.

(** The format specification [06d]: the sign counts towards the width. *)
Definition format_06d (n : Z) : string :=
  if n <? 0
  then "-" +:+ NilEmpty.string_of_uint (zero_padded 5 (Z.to_N (- n)))
  else NilEmpty.string_of_uint (zero_padded 6 (Z.to_N n)).

(** ** The host: scene, file system, path and math libraries *)

Record Quaternion := mkQuaternion { qw : R; qx : R; qy : R; qz : R }.

Record Vector := mkVector { vx : R; vy : R; vz : R }.

Inductive obj_data :=
| MeshData (vertices : list vec3)
| OtherData.

(** What a script lets the outside see: the messages that tell of a
    failure or of the end of the frames (progress messages are left
    out), sleeps, viewport redraws and rendered images. *)
Inductive event :=
| EvPrintError
| EvPrintWarning
| EvPrintEnd
| EvSleep (seconds : nat)
| EvRedraw
| EvRender (filepath : string).

Record camera_state := CameraState {
  location : Vector;
  rotation_euler : Vector
}.

(** The state a script acts on: the scene's objects by name, the scene
    camera, what the script has printed, slept and rendered so far, and
    the number of sleeps, which is the time at which the simulator's
    output folder is observed. *)
Record world := World {
  objects : gmap string obj_data;
  camera : camera_state;
  trace : list event;
  clock : nat
}.

(** What the scripts take from outside the repository. *)
Class Host := {
  (** the files of the simulator's output, by path, at each time *)
  disk : nat -> gmap string ndarray;
  (** [sorted(glob.glob(pattern))] at each time *)
  glob_sorted : string -> nat -> list string;
  (** [os.path.join] *)
  path_join : string -> string -> string;
  (** [Path(p).stem] *)
  path_stem : string -> string;
  (** [Quaternion.to_matrix().to_3x3()] *)
  to_matrix : Quaternion -> mat3;
  (** [Vector.to_track_quat('-Z', 'Y')] *)
  to_track_quat : Vector -> Quaternion;
  (** [Quaternion.to_euler()] *)
  to_euler : Quaternion -> Vector;
  (** the value [np.float32] stores for a number: rounding to single
      precision, which keeps what is in single precision already *)
  to_float32 : R -> R;
  to_float32_idem : forall x, to_float32 (to_float32 x) = to_float32 x;
  (** the vertices [foreach_set] leaves behind when the sequence it is
      given runs out before every coordinate is written *)
  foreach_set_short : list vec3 -> list R -> list vec3;
  (** Python's [float]: [x + y], [x - y], [x * y] and [x / y] *)
  float_add : R -> R -> R;
  float_sub : R -> R -> R;
  float_mul : R -> R -> R;
  float_div : R -> R -> R;
  (** [math.cos], [math.sin] and [math.radians] *)
  math_cos : R -> R;
  math_sin : R -> R;
  math_radians : R -> R;
  (** numpy, on the entries of the frames: [x * c] for a Python float
      [c], and [x + y] *)
  np_mul : R -> R -> R;
  np_plus : R -> R -> R;
  (** mathutils: [Vector((x, y, z))], [u + v] and [u - v] *)
  vector_xyz : R -> R -> R -> Vector;
  vector_add : Vector -> Vector -> Vector;
  vector_sub : Vector -> Vector -> Vector
}.

Definition M (A : Type) : Type := world -> result A * world.

Definition ret {A} (a : A) : M A := fun w => (Ok a, w).
Definition raise {A} (e : exn) : M A := fun w => (Raise e, w).
Definition bind {A B} (m : M A) (k : A -> M B) : M B :=
  fun w => match m w with
           | (Ok a, w') => k a w'
           | (Raise e, w') => (Raise e, w')
           end.
Definition lift {A} (r : result A) : M A := fun w => (r, w).

Notation "x <- m ;; k" := (bind m (fun x => k))
  (at level 100, m at next level, right associativity).
Notation "m ;;; k" := (bind m (fun _ => k))
  (at level 100, right associativity).

Definition emit (e : event) : M unit :=
  fun w => (Ok tt, World (objects w) (camera w) (trace w ++ [e]) (clock w)).

(** [time.sleep(seconds)]. *)
Definition sleep (seconds : nat) : M unit :=
  fun w => (Ok tt, World (objects w) (camera w)
                         (trace w ++ [EvSleep seconds]) (S (clock w))).

(** Setting [scene.render.filepath] and calling [bpy.ops.render.render]. *)
Definition render (filepath : string) : M unit := emit (EvRender filepath).

(** [try: m except RuntimeError as e: h]. *)
Definition try_except_RuntimeError {A} (m : M A) (h : M A) : M A :=
  fun w => match m w with
           | (Raise RuntimeError, w') => h w'
           | other => other
           end.

(** [for x in l: body(x)]. *)
Fixpoint for_ {A} (l : list A) (body : A -> M unit) : M unit :=
  match l with
  | [] => ret tt
  | x :: rest => body x ;;; for_ rest body
  end.

(** A [for] loop that updates local variables [s]. *)
Fixpoint for_fold {A S} (l : list A) (body : A -> S -> M S) (s : S) : M S :=
  match l with
  | [] => ret s
  | x :: rest => s' <- body x s ;; for_fold rest body s'
  end.

(** One pass through the body of a [while] loop over local variables
    [L]: go round again ([continue], or the end of the body) or leave
    (the condition is false, or [break]). *)
Inductive ctl (L : Type) :=
| Next (l : L)
| Stop (l : L).
Arguments Next {L} l.
Arguments Stop {L} l.

(** [while] with a bound on the number of passes: [None] when the bound
    is reached before the loop is left. *)
Fixpoint while {L} (fuel : nat) (body : L -> M (ctl L)) (l : L) (w : world)
  : option (result L * world) :=
  match fuel with
  | O => None
  | S fuel' =>
      match body l w with
      | (Ok (Next l'), w') => while fuel' body l' w'
      | (Ok (Stop l'), w') => Some (Ok l', w')
      | (Raise e, w') => Some (Raise e, w')
      end
  end.

Section HostOps.
Context `{Host}.

(** [np.load(path)]. *)
Definition np_load (path : string) : M ndarray :=
  fun w => match disk (clock w) !! path with
           | Some a => (Ok a, w)
           | None => (Raise OSError, w)
           end.

(** [os.path.exists(path)]. *)
Definition path_exists (path : string) : M bool :=
  fun w => (Ok (bool_decide (is_Some (disk (clock w) !! path))), w).

(** [sorted(glob.glob(pattern))]. *)
Definition glob (pattern : string) : M (list string) :=
  fun w => (Ok (glob_sorted pattern (clock w)), w).

(** [a.astype(np.float32)]: every entry is rounded to single
    precision. *)
Definition astype_float32 (a : ndarray) : ndarray :=
  NdArray (shape a) (map to_float32 (data a)).

(** A row of single-precision values. *)
Definition float32_vec (v : vec3) : vec3 :=
  match v with (x, y, z) => (to_float32 x, to_float32 y, to_float32 z) end.

(** [a / b] on Python integers: true division, for a quotient in the
    range of [float] (those of the scripts are at most 1). *)
Definition py_truediv (a b : Z) : result R :=
  if b =? 0 then Raise ZeroDivisionError else Ok (float_div (IZR a) (IZR b)).

End HostOps.

(** [scene.objects.get(name)]. *)
Definition objects_get (name : string) : M (option obj_data) :=
  fun w => (Ok (objects w !! name), w).

(** [scene.objects[name]]. *)
Definition objects_getitem (name : string) : M obj_data :=
  fun w => match objects w !! name with
           | Some o => (Ok o, w)
           | None => (Raise KeyError, w)
           end.

(** The name every script gives for the scene camera. *)
Definition cam_name : string := "Camera".

(** [obj.data.vertices] of a scene object reference. *)
Definition mesh_vertices (obj : string) : M (list vec3) :=
  fun w => match objects w !! obj with
           | Some (MeshData vs) => (Ok vs, w)
           | _ => (Raise AttributeError, w)
           end.

(** [mesh.vertices.foreach_set("co", co_flat)] on a mesh of N vertices:
    the host copies 3N values from the flat sequence, three to a
    vertex. Of a longer sequence it takes the first 3N values. A
    shorter sequence runs out while the host is writing: the call ends
    in [RuntimeError] and the vertices are as the host has left them. *)
Definition foreach_set_co `{Host} (obj : string) (co_flat : list R) : M unit :=
  fun w => match objects w !! obj with
           | Some (MeshData vs) =>
               let n := (3 * length vs)%nat in
               if (n <=? length co_flat)%nat
               then (Ok tt, World (<[obj := MeshData (triples (take n co_flat))]> (objects w))
                                  (camera w) (trace w) (clock w))
               else (Raise RuntimeError,
                     World (<[obj := MeshData (foreach_set_short vs co_flat)]> (objects w))
                           (camera w) (trace w) (clock w))
           | _ => (Raise AttributeError, w)
           end.

(** [get_mesh_obj], the same in every script that has it. *)
Definition get_mesh_obj (name : string) : M string :=
  o <- objects_get name ;;
  match o with
  | Some (MeshData _) => ret name
  | _ => raise RuntimeError
  end.

(** ** [update_mesh_vertices] *)

(** DAT/Multi-physics/run.py; Twist_release, unroll, dropingBoxes and
    cloth_drop have the same function with another message. *)
Module Strict.
Section Script.
Context `{Host}.

Definition update_mesh_vertices (obj : string) (V_np : ndarray) : M unit :=
  if negb (ndim V_np =? 2)%nat || negb (nth 1 (shape V_np) 0 =? 3)%nat
  then raise ValueError
  else
    vs <- mesh_vertices obj ;;
    let n_mesh := length vs in
    n_in <- lift (shape_at V_np 0) ;;
    if negb (n_in =? n_mesh)%nat
    then raise ValueError
    else
      let co_flat := reshape_flat (astype_float32 V_np) in
      foreach_set_co obj co_flat.

End Script.
End Strict.

(** ** DAT/bullet/load_frame.py *)
Module Bullet.
Section Script.
Context `{Host}.

Definition update_mesh_vertices (obj : string) (V_np : ndarray) : M bool :=
  vs <- mesh_vertices obj ;;
  n_in <- lift (shape_at V_np 0) ;;
  if negb (length vs =? n_in)%nat
  then emit EvPrintError ;;; ret false
  else
    let co_flat := reshape_flat (astype_float32 V_np) in
    foreach_set_co obj co_flat ;;;
    ret true.

Definition load_frame (frame_num : Z) (data_path mesh_name : string) : M bool :=
  let npy_file := path_join data_path ("frame_" +:+ format_06d frame_num +:+ ".npy") in
  found <- path_exists npy_file ;;
  if negb found
  then emit EvPrintError ;;; ret false
  else
    mesh_obj <- objects_get mesh_name ;;
    match mesh_obj with
    | None => emit EvPrintError ;;; ret false
    | Some _ =>
        V <- np_load npy_file ;;
        _ <- lift (shape_at V 0) ;;
        ok <- update_mesh_vertices mesh_name V ;;
        if ok then ret true else ret false
    end.

(** The script's main block, after the barrel display is set up. *)
Definition main (FRAME_NUMBER : Z) (DATA_PATH MESH_NAME : string) : M unit :=
  _ <- load_frame FRAME_NUMBER DATA_PATH MESH_NAME ;;
  ret tt.

End Script.
End Bullet.

(** ** DAT/Multi-physics/run.py *)
Module MultiPhysics.

Record soft_info := SoftInfo {
  si_name : string;
  si_particle_start : Z;
  si_num_vertices : Z
}.

Record rigid_info := RigidInfo {
  ri_name : string;
  ri_body_idx : Z
}.

(** [particle_start] is absent from older manifests. *)
Record cloth_info := ClothInfo {
  ci_name : string;
  ci_particle_start : option Z;
  ci_num_vertices : Z
}.

(** mesh_info.json. *)
Record mesh_info := MeshInfo {
  soft_bodies : list soft_info;
  rigid_bodies : list rigid_info;
  cloth : option cloth_info
}.

(** An entry of [soft_body_meshes], and [cloth_mesh]. *)
Record particle_mesh := ParticleMesh {
  pm_obj : string;
  pm_name : string;
  particle_start : Z;
  num_vertices : Z
}.

(** An entry of [rigid_body_meshes]. *)
Record rigid_mesh := RigidMesh {
  rm_obj : string;
  rm_name : string;
  body_idx : Z;
  local_verts : ndarray
}.

Record args := Args {
  inFolder : string;
  arg_outPath : option string;
  numFrames : Z;
  stride : Z;
  startFrame : Z;
  preview : bool;
  scale : R
}.

Section Script.
Context `{Host}.
Variable a : args.

(** [args.outPath if args.outPath else join(inFolder, "Rendering")]. *)
Definition outPath : string :=
  match arg_outPath a with
  | Some (String c p) => String c p
  | _ => path_join (inFolder a) "Rendering"
  end.

(** *** Build mesh mapping *)

Definition add_soft_body (acc : list particle_mesh) (sb_info : soft_info)
  : M (list particle_mesh) :=
  let name := si_name sb_info in
  try_except_RuntimeError
    (obj <- get_mesh_obj name ;;
     ret (acc ++ [ParticleMesh obj name (si_particle_start sb_info)
                               (si_num_vertices sb_info)]))
    (emit EvPrintWarning ;;; ret acc).

Definition build_soft_body_meshes (mi : mesh_info) : M (list particle_mesh) :=
  for_fold (soft_bodies mi) (fun sb_info acc => add_soft_body acc sb_info) [].

Definition add_rigid_body (acc : list rigid_mesh) (rb_info : rigid_info)
  : M (list rigid_mesh) :=
  let name := ri_name rb_info in
  try_except_RuntimeError
    (obj <- get_mesh_obj name ;;
     lv <- np_load (path_join (path_join (inFolder a) "initial_meshes")
                              (name +:+ "_vertices_local.npy")) ;;
     ret (acc ++ [RigidMesh obj name (ri_body_idx rb_info) lv]))
    (emit EvPrintWarning ;;; ret acc).

Definition build_rigid_body_meshes (mi : mesh_info) : M (list rigid_mesh) :=
  for_fold (rigid_bodies mi) (fun rb_info acc => add_rigid_body acc rb_info) [].

(** The cloth starts after all soft bodies when the manifest has no
    [particle_start] for it. *)
Definition cloth_start_after (soft_body_meshes : list particle_mesh) : Z :=
  fold_left (fun ps sb =>
               let end_ := particle_start sb + num_vertices sb in
               if ps <? end_ then end_ else ps)
            soft_body_meshes 0.

Definition build_cloth_mesh (mi : mesh_info) (soft_body_meshes : list particle_mesh)
  : M (option particle_mesh) :=
  match cloth mi with
  | None => ret None
  | Some cloth_info =>
      let name := ci_name cloth_info in
      try_except_RuntimeError
        (obj <- get_mesh_obj name ;;
         let ps := match ci_particle_start cloth_info with
                   | Some ps => ps
                   | None => cloth_start_after soft_body_meshes
                   end in
         ret (Some (ParticleMesh obj name ps (ci_num_vertices cloth_info))))
        (emit EvPrintWarning ;;; ret None)
  end.

(** *** One frame *)

(** The body of the soft-body loop, and the cloth update. *)
Definition update_particle_mesh (particle_q : ndarray) (sb : particle_mesh) : M unit :=
  let start := particle_start sb in
  let end_ := start + num_vertices sb in
  V <- lift (slice0 particle_q (Some start) (Some end_)) ;;
  Strict.update_mesh_vertices (pm_obj sb) V.

(** [x[i]] as a Python float, for a one-dimensional [x]. *)
Definition float_at (x : ndarray) (i : Z) : result R :=
  match getitem0 x i with
  | Ok e => item e
  | Raise e => Raise e
  end.

(** The body of the rigid-body loop. A [local_verts] that is not of
    shape (N,3) ends in [ValueError] whichever of [@] and
    [update_mesh_vertices] refuses it, with the scene untouched. *)
Definition update_rigid_mesh (body_q : ndarray) (rb : rigid_mesh) : M unit :=
  n <- lift (np_len body_q) ;;
  if body_idx rb <? Z.of_nat n
  then
    transform <- lift (getitem0 body_q (body_idx rb)) ;;
    position <- lift (slice0 transform None (Some 3)) ;;
    quat_xyzw <- lift (slice0 transform (Some 3) (Some 7)) ;;
    q3 <- lift (float_at quat_xyzw 3) ;;
    q0 <- lift (float_at quat_xyzw 0) ;;
    q1 <- lift (float_at quat_xyzw 1) ;;
    q2 <- lift (float_at quat_xyzw 2) ;;
    let quat_blender := mkQuaternion q3 q0 q1 q2 in
    let rot_matrix := to_matrix quat_blender in
    rotated <- lift (np_matmul3 (local_verts rb) (mat3_T rot_matrix)) ;;
    world_verts <- lift (np_add_row rotated position) ;;
    let world_verts := astype_float32 (np_scale world_verts (scale a)) in
    Strict.update_mesh_vertices (rm_obj rb) world_verts
  else ret tt.

Definition npy_pattern : string := path_join (inFolder a) "frame_*.npy".
Definition body_q_pattern : string := path_join (inFolder a) "body_q_*.npy".

(** The local variables of the main loop. *)
Record locals := Locals {
  fileId : Z;
  npy_files : list string;
  body_q_files : list string
}.

Definition process_frame (soft_body_meshes : list particle_mesh)
    (cloth_mesh : option particle_mesh) (rigid_body_meshes : list rigid_mesh)
    (l : locals) : M unit :=
  npy_path <- lift (py_getitem (npy_files l) (fileId l)) ;;
  let frame_name := path_stem npy_path in
  particle_q <- np_load npy_path ;;
  let particle_q := np_scale particle_q (scale a) in
  for_ soft_body_meshes (update_particle_mesh particle_q) ;;;
  match cloth_mesh with
  | Some cm => update_particle_mesh particle_q cm
  | None => ret tt
  end ;;;
  (if (fileId l <? Z.of_nat (length (body_q_files l)))
      && (0 <? length rigid_body_meshes)%nat
   then
     body_q_path <- lift (py_getitem (body_q_files l) (fileId l)) ;;
     body_q <- np_load body_q_path ;;
     for_ rigid_body_meshes (update_rigid_mesh body_q)
   else ret tt) ;;;
  if negb (preview a)
  then render (path_join outPath (frame_name +:+ ".png"))
  else emit EvRedraw.

(** One pass of [while fileId < startFrame + numFrames]. *)
Definition loop_body (soft_body_meshes : list particle_mesh)
    (cloth_mesh : option particle_mesh) (rigid_body_meshes : list rigid_mesh)
    (l : locals) : M (ctl locals) :=
  if negb (fileId l <? startFrame a + numFrames a) then ret (Stop l)
  else if Z.of_nat (length (npy_files l)) <=? fileId l
  then
    if preview a
    then emit EvPrintEnd ;;; ret (Stop l)
    else
      sleep 60 ;;;
      files <- glob npy_pattern ;;
      q_files <- glob body_q_pattern ;;
      ret (Next (Locals (fileId l) files q_files))
  else
    process_frame soft_body_meshes cloth_mesh rigid_body_meshes l ;;;
    ret (Next (Locals (fileId l + stride a) (npy_files l) (body_q_files l))).

(** The script from the mesh mapping to the end of the main loop. *)
Definition main (fuel : nat) (mi : mesh_info) (w : world)
  : option (result locals * world) :=
  match (soft <- build_soft_body_meshes mi ;;
         rigid <- build_rigid_body_meshes mi ;;
         cloth_mesh <- build_cloth_mesh mi soft ;;
         files <- glob npy_pattern ;;
         q_files <- glob body_q_pattern ;;
         ret (soft, rigid, cloth_mesh, Locals (startFrame a) files q_files)) w with
  | (Ok (soft, rigid, cloth_mesh, l0), w') =>
      while fuel (loop_body soft cloth_mesh rigid) l0 w'
  | (Raise e, w') => Some (Raise e, w')
  end.

End Script.
End MultiPhysics.

(** ** DAT/dropingBoxes/render_sequence.py *)
Module DropingBoxes.

Record args := Args {
  inFolder : string;
  arg_outPath : option string;
  numFrames : Z;
  stride : Z;
  startFrame : Z
}.

(** Scene object name -> subfolder with npy files, in the order of the
    dictionary. *)
Definition mesh_components : list (string * string) :=
  [("Box1", "box1"); ("Box2", "box2"); ("Box3", "box3");
   ("Box4", "box4"); ("Cloth1", "cloth1"); ("Cloth2", "cloth2")].

Section Script.
Context `{Host}.
Variable a : args.

Definition outPath : string :=
  match arg_outPath a with
  | Some (String c p) => String c p
  | _ => path_join (inFolder a) "renders"
  end.

(** [join(inFolder, component_folder, name)] joins from the left. *)
Definition get_frame_path (component_folder : string) (frame_num : Z) : string :=
  path_join (path_join (inFolder a) component_folder)
            ("frame_" +:+ format_06d frame_num +:+ ".npy").

(** The loop of [frame_exists] over the items of a dictionary. *)
Fixpoint frame_exists_in (components : list (string * string)) (frame_num : Z)
  : M bool :=
  match components with
  | [] => ret true
  | (obj_name, folder) :: rest =>
      found <- path_exists (get_frame_path folder frame_num) ;;
      if negb found then ret false else frame_exists_in rest frame_num
  end.

Definition frame_exists (frame_num : Z) : M bool :=
  frame_exists_in mesh_components frame_num.

Definition load_frame (frame_num : Z) (mesh_objs : gmap string string) : M unit :=
  for_ mesh_components
       (fun item =>
          let npy_path := get_frame_path (snd item) frame_num in
          V <- np_load npy_path ;;
          match mesh_objs !! fst item with
          | Some obj => Strict.update_mesh_vertices obj V
          | None => raise KeyError
          end).

(** "Get all mesh objects". *)
Definition collect_mesh_objs : M (gmap string string) :=
  for_fold (map fst mesh_components)
           (fun obj_name mesh_objs =>
              obj <- get_mesh_obj obj_name ;;
              ret (<[obj_name := obj]> mesh_objs))
           ∅.

Record locals := Locals { frame_num : Z; rendered_count : Z }.

(** One pass of [while rendered_count < numFrames]. *)
Definition loop_body (mesh_objs : gmap string string) (l : locals) : M (ctl locals) :=
  if negb (rendered_count l <? numFrames a) then ret (Stop l)
  else
    found <- frame_exists (frame_num l) ;;
    if negb found
    then sleep 60 ;;; ret (Next l)
    else
      load_frame (frame_num l) mesh_objs ;;;
      let output_file :=
        path_join outPath ("frame_" +:+ format_06d (frame_num l) +:+ ".png") in
      render output_file ;;;
      ret (Next (Locals (frame_num l + stride a) (rendered_count l + 1))).

(** The script from "Set camera" to the end of the render loop. *)
Definition main (fuel : nat) (w : world) : option (result locals * world) :=
  match (_ <- objects_getitem cam_name ;; collect_mesh_objs) w with
  | (Ok mesh_objs, w') =>
      while fuel (loop_body mesh_objs) (Locals (startFrame a) 0) w'
  | (Raise e, w') => Some (Raise e, w')
  end.

End Script.
End DropingBoxes.

(** ** DAT/Twist_release/run.py and DAT/unroll/run.py

    The two scripts share their main loop; unroll drops the collider
    rows of every frame and takes its folders, frame count and stride
    from the command line. *)
Module SingleMesh.

Record config := Config {
  inFolder : string;
  outPath : string;
  target_obj_name : string;
  stride : Z;
  numFrames : Z;
  wait_seconds : nat;
  (** the rows of a loaded frame that are kept: [None] for all of
      them, [Some k] for [np.load(npy_path)[k:]] *)
  skip_rows : option Z
}.

Section Script.
Context `{Host}.
Variable c : config.

Definition npy_pattern : string := path_join (inFolder c) "*.npy".

Record locals := Locals { fileId : Z; npy_files : list string }.

Definition load_vertices (npy_path : string) : M ndarray :=
  V <- np_load npy_path ;;
  match skip_rows c with
  | None => ret V
  | Some k => lift (slice0 V (Some k) None)
  end.

(** One pass of [while fileId < numFrames]. *)
Definition loop_body (obj : string) (l : locals) : M (ctl locals) :=
  if negb (fileId l <? numFrames c) then ret (Stop l)
  else if Z.of_nat (length (npy_files l)) <=? fileId l
  then
    sleep (wait_seconds c) ;;;
    files <- glob npy_pattern ;;
    ret (Next (Locals (fileId l) files))
  else
    npy_path <- lift (py_getitem (npy_files l) (fileId l)) ;;
    V <- load_vertices npy_path ;;
    Strict.update_mesh_vertices obj V ;;;
    render (path_join (outPath c) (path_stem npy_path +:+ ".png")) ;;;
    ret (Next (Locals (fileId l + stride c) (npy_files l))).

(** The script from the choice of the camera to the end of the loop;
    the material of the target is the host's business. *)
Definition main (fuel : nat) (w : world) : option (result locals * world) :=
  match (_ <- objects_getitem cam_name ;;
         obj <- get_mesh_obj (target_obj_name c) ;;
         files <- glob npy_pattern ;;
         ret (obj, files)) w with
  | (Ok (obj, files), w') => while fuel (loop_body obj) (Locals 0 files) w'
  | (Raise e, w') => Some (Raise e, w')
  end.

End Script.
End SingleMesh.

Module TwistRelease.

Definition inFolder : string :=
  "D:\Data\DAT_Sim\cloth_twist_release\truncation_1_iter_100_20260105_123906".

Definition config : SingleMesh.config :=
  SingleMesh.Config inFolder (inFolder +:+ "\Rendering_subdiv") "initial_mesh"
                    1 1000 360 None.

End TwistRelease.

Module Unroll.

Record args := Args {
  inFolder : string;
  arg_outPath : option string;
  numFrames : Z;
  stride : Z
}.

Definition config (a : args) : SingleMesh.config :=
  SingleMesh.Config
    (inFolder a)
    (match arg_outPath a with
     | Some (String ch p) => String ch p
     | _ => inFolder a +:+ "/Rendering_subdiv"
     end)
    "initial_cloth" (stride a) (numFrames a) 360 (Some 66).

End Unroll.

(** ** Scripts/M02_RenderScripts.py: [BWrapper.batchedRendering] *)
Module RenderScripts.

Record BWrapper := MkBWrapper {
  renderStride : Z;
  waitForNewFrames : bool;
  fileId : Z
}.

Section Script.
Context `{Host}.

(** One pass of the [while True] loop: the two statements that advance
    [s.fileId] and pick the file stand after the loop, not in it. *)
Definition loop_body (pattern : string) (numFrames : Z)
    (l : BWrapper * list string) : M (ctl (BWrapper * list string)) :=
  let (s, inModelFiles) := l in
  if numFrames <=? fileId s then ret (Stop l)
  else if Z.of_nat (length inModelFiles) <=? fileId s
  then
    emit EvPrintEnd ;;;
    if waitForNewFrames s
    then
      sleep 60 ;;;
      files <- glob pattern ;;
      ret (Next (s, files))
    else ret (Stop l)
  else ret (Next l).

(** [batchedRendering], for a wrapper without camera rotation, in a
    file whose scene has the default name [Scene]. *)
Definition batchedRendering (fuel : nat) (s : BWrapper) (inFolder : string)
    (numFrames : Z) (cam_name inModelExt : string) (w : world)
  : option (result BWrapper * world) :=
  let pattern := path_join inFolder ("*." +:+ inModelExt) in
  match (_ <- objects_getitem cam_name ;; glob pattern) w with
  | (Ok inModelFiles, w0) =>
      let s0 := MkBWrapper (renderStride s) (waitForNewFrames s) 0 in
      match while fuel (loop_body pattern numFrames) (s0, inModelFiles) w0 with
      | None => None
      | Some (Ok (s1, files), w1) =>
          let s2 := MkBWrapper (renderStride s1) (waitForNewFrames s1)
                               (fileId s1 + renderStride s1) in
          match py_getitem files (fileId s2) with
          | Ok _ => Some (Ok s2, w1)
          | Raise e => Some (Raise e, w1)
          end
      | Some (Raise e, w1) => Some (Raise e, w1)
      end
  | (Raise e, w0) => Some (Raise e, w0)
  end.

End Script.
End RenderScripts.

(** ** DAT/cloth_drop/run_slowmo_orbit.py *)
Module SlowmoOrbit.

Record args := Args {
  inFolder : string;
  outPath : string;
  startFrame : Z;
  endFrame : Z;
  stride : Z;
  slowdown : Z;
  orbitDegrees : R;
  orbitCenter : Vector;
  lookAt : Vector
}.

(** The objects [orbit_camera] is handed: it returns them as they are
    when the call ends. *)
Record orbit_objects := OrbitObjects {
  oo_camera : camera_state;
  orbit_center : Vector;
  look_at : Vector;
  initial_location : Vector
}.

Section Script.
Context `{Host}.

(** [v0 * (1.0 - t) + v1 * t]. *)
Definition lerp_vertices (v0 v1 : ndarray) (t : R) : result ndarray :=
  np_broadcast2 np_plus
                (np_map (fun x => np_mul x (float_sub 1 t)) v0)
                (np_map (fun x => np_mul x t) v1).

Definition orbit_camera (o : orbit_objects) (angle_rad : R) : orbit_objects :=
  let offset := vector_sub (initial_location o) (orbit_center o) in
  let cos_a := math_cos angle_rad in
  let sin_a := math_sin angle_rad in
  let new_offset :=
    vector_xyz (float_sub (float_mul (vx offset) cos_a) (float_mul (vy offset) sin_a))
               (float_add (float_mul (vx offset) sin_a) (float_mul (vy offset) cos_a))
               (vz offset) in
  let camera_location := vector_add (orbit_center o) new_offset in
  let direction := vector_sub (look_at o) camera_location in
  let rot_quat := to_track_quat direction in
  OrbitObjects (CameraState camera_location (to_euler rot_quat))
               (orbit_center o) (look_at o) (initial_location o).

Variable a : args.

Definition npy_pattern : string := path_join (inFolder a) "*.npy".

(** "Update all meshes": consecutive row ranges of the interpolated
    frame, one per layer. *)
Definition update_all_meshes (V_interp : ndarray) (mesh_objs : list string)
    (mesh_vertex_counts : list nat) : M Z :=
  for_fold (zip (py_range (Z.of_nat (length mesh_objs))) mesh_objs)
           (fun item start_v =>
              n <- lift (py_getitem mesh_vertex_counts (fst item)) ;;
              let end_v := start_v + Z.of_nat n in
              V <- lift (slice0 V_interp (Some start_v) (Some end_v)) ;;
              Strict.update_mesh_vertices (snd item) V ;;;
              ret end_v)
           0.

Definition set_camera (c : camera_state) : M unit :=
  fun w => (Ok tt, World (objects w) c (trace w) (clock w)).

Definition get_camera : M camera_state :=
  fun w => (Ok (camera w), w).

(** The body of [for sub_idx in range(slowdown)]; it returns the next
    [output_idx]. *)
Definition render_sub_frame (mesh_objs : list string) (mesh_vertex_counts : list nat)
    (initial_cam_location : Vector) (total_output_frames : Z)
    (frame_a frame_b : ndarray) (sub_idx : Z) (output_idx : Z) : M Z :=
  t <- lift (py_truediv sub_idx (slowdown a)) ;;
  V_interp <- lift (lerp_vertices frame_a frame_b t) ;;
  update_all_meshes V_interp mesh_objs mesh_vertex_counts ;;;
  progress <- lift (py_truediv output_idx total_output_frames) ;;
  let angle_rad := math_radians (float_mul (orbitDegrees a) progress) in
  cam <- get_camera ;;
  let o := orbit_camera (OrbitObjects cam (orbitCenter a) (lookAt a)
                                      initial_cam_location) angle_rad in
  set_camera (oo_camera o) ;;;
  render (path_join (outPath a) ("frame_" +:+ format_06d output_idx +:+ ".png")) ;;;
  ret (output_idx + 1).

(** The body of [for pair_idx in range(num_source_pairs)]. *)
Definition render_pair (mesh_objs : list string) (mesh_vertex_counts : list nat)
    (initial_cam_location : Vector) (total_output_frames : Z)
    (source_indices : list Z) (loaded_frames : gmap Z ndarray)
    (pair_idx : Z) (output_idx : Z) : M Z :=
  src_idx_a <- lift (py_getitem source_indices pair_idx) ;;
  src_idx_b <- lift (py_getitem source_indices (pair_idx + 1)) ;;
  match loaded_frames !! src_idx_a, loaded_frames !! src_idx_b with
  | Some frame_a, Some frame_b =>
      for_fold (py_range (slowdown a))
               (render_sub_frame mesh_objs mesh_vertex_counts initial_cam_location
                                 total_output_frames frame_a frame_b)
               output_idx
  | _, _ => raise KeyError
  end.

(** "Pre-load frames for interpolation". *)
Definition load_frames (npy_files : list string) (source_indices : list Z)
  : M (gmap Z ndarray) :=
  for_fold source_indices
           (fun i loaded_frames =>
              path <- lift (py_getitem npy_files i) ;;
              V <- np_load path ;;
              ret (<[i := V]> loaded_frames))
           ∅.

(** The list of source frame indices, after [end_frame] is clamped to
    the last available frame. *)
Definition source_indices_of (n_files : nat) : result (list Z) :=
  let end_frame := if Z.of_nat n_files <=? endFrame a
                   then Z.of_nat n_files - 1 else endFrame a in
  py_range3 (startFrame a) (end_frame + 1) (stride a).

(** The script from "Get camera" on; the result is the final
    [output_idx]. *)
Definition main (mesh_names : list string) : M Z :=
  _ <- objects_getitem cam_name ;;
  cam <- get_camera ;;
  let initial_cam_location := location cam in
  mesh_objs <- for_fold mesh_names
                        (fun name acc => obj <- get_mesh_obj name ;; ret (acc ++ [obj]))
                        [] ;;
  mesh_vertex_counts <- for_fold mesh_objs
                                 (fun obj acc => vs <- mesh_vertices obj ;;
                                                 ret (acc ++ [length vs]))
                                 [] ;;
  npy_files <- glob npy_pattern ;;
  source_indices <- lift (source_indices_of (length npy_files)) ;;
  let num_source_pairs := Z.of_nat (length source_indices) - 1 in
  let total_output_frames := num_source_pairs * slowdown a in
  loaded_frames <- load_frames npy_files source_indices ;;
  for_fold (py_range num_source_pairs)
           (render_pair mesh_objs mesh_vertex_counts initial_cam_location
                        total_output_frames source_indices loaded_frames)
           0.

End Script.
End SlowmoOrbit.

(** ** Python strings

    A string is a sequence of characters with code points below 256. *)

(** [c.isspace()]. *)
Definition is_space (c : ascii) : bool :=
  let n := nat_of_ascii c in
  ((9 <=? n) && (n <=? 13) || (28 <=? n) && (n <=? 32) || (n =? 133) || (n =? 160))%nat.

Fixpoint py_lstrip (s : string) : string :=
  match s with
  | EmptyString => EmptyString
  | String c rest => if is_space c then py_lstrip rest else s
  end.

Fixpoint py_rstrip (s : string) : string :=
  match s with
  | EmptyString => EmptyString
  | String c rest =>
      match py_rstrip rest with
      | EmptyString => if is_space c then EmptyString else String c EmptyString
      | kept => String c kept
      end
  end.

(** [s.strip()]. *)
Definition py_strip (s : string) : string := py_rstrip (py_lstrip s).

(** [s.split()], with [cur] the word that is being read. *)
Fixpoint py_split_from (cur : string) (s : string) : list string :=
  match s with
  | EmptyString => match cur with EmptyString => [] | _ => [cur] end
  | String c rest =>
      if is_space c
      then match cur with
           | EmptyString => py_split_from EmptyString rest
           | _ => cur :: py_split_from EmptyString rest
           end
      else py_split_from (cur +:+ String c EmptyString) rest
  end.

Definition py_split (s : string) : list string := py_split_from EmptyString s.

(** [s.split(sep)] for a separator of one character. *)
Fixpoint py_split_on_from (sep : ascii) (cur : string) (s : string) : list string :=
  match s with
  | EmptyString => [cur]
  | String c rest =>
      if Ascii.eqb c sep
      then cur :: py_split_on_from sep EmptyString rest
      else py_split_on_from sep (cur +:+ String c EmptyString) rest
  end.

Definition py_split_on (sep : ascii) (s : string) : list string :=
  py_split_on_from sep EmptyString s.

(** [s.startswith(prefix)]. *)
Definition py_startswith (s prefix : string) : bool := String.prefix prefix s.

Definition digit_of (c : ascii) : option Z :=
  let n := nat_of_ascii c in
  if ((48 <=? n) && (n <=? 57))%nat then Some (Z.of_nat (n - 48)) else None.

(** The value of [digit (["_"] digit)*], with [after_digit] telling
    whether the character before was a digit. *)
Fixpoint digits_value (acc : Z) (after_digit : bool) (s : string) : option Z :=
  match s with
  | EmptyString => if after_digit then Some acc else None
  | String c rest =>
      match digit_of c with
      | Some d => digits_value (10 * acc + d) true rest
      | None =>
          if Ascii.eqb c "_" && after_digit
          then digits_value acc false rest
          else None
      end
  end.

(** The white space [int] skips around a number: of the characters
    below U+0080 those of C's [isspace], which leaves out the
    separators U+001C to U+001F that [str.isspace] has. *)
Definition is_int_space (c : ascii) : bool :=
  let n := nat_of_ascii c in
  ((9 <=? n) && (n <=? 13) || (n =? 32) || (n =? 133) || (n =? 160))%nat.

Fixpoint int_lstrip (s : string) : string :=
  match s with
  | EmptyString => EmptyString
  | String c rest => if is_int_space c then int_lstrip rest else s
  end.

Fixpoint int_rstrip (s : string) : string :=
  match s with
  | EmptyString => EmptyString
  | String c rest =>
      match int_rstrip rest with
      | EmptyString => if is_int_space c then EmptyString else String c EmptyString
      | kept => String c kept
      end
  end.

(** [int(s)] for a string [s]: white space around, a sign, decimal
    digits with single underscores between them. The interpreter's
    bound on the number of digits is not modelled. *)
Definition py_int (s : string) : result Z :=
  let t := int_rstrip (int_lstrip s) in
  let '(negative, body) :=
    match t with
    | String "-" rest => (true, rest)
    | String "+" rest => (false, rest)
    | _ => (false, t)
    end in
  match digits_value 0 false body with
  | Some n => Ok (if negative : bool then - n else n)
  | None => Raise ValueError
  end.

(** ** DAT/bullet/add_velocity_overlay.py *)
Module VelocityOverlay.
Section Script.
Context `{Host}.

Definition extract_frame_number (filepath : string) : result Z :=
  let stem := path_stem filepath in
  let parts := py_split_on "_" stem in
  match py_getitem parts (-1) with
  | Ok last_part => py_int last_part
  | Raise e => Raise e
  end.

End Script.
End VelocityOverlay.

(** ** Scripts/M02_RenderScripts.py: selecting objects, one image per camera *)
Module RenderTools.

(** An object of [bpy.context.scene.objects]: the scene is the list of
    its objects in the order in which the host iterates over them. *)
Record scene_object := SceneObject {
  so_name : string;
  so_type : string;
  so_selected : bool
}.

(** [bpy.ops.object.select_all(action='DESELECT')]. *)
Definition deselect_all (objects : list scene_object) : list scene_object :=
  map (fun o => SceneObject (so_name o) (so_type o) false) objects.

(** [obj.select_set(state=True)] for the object at position [i]. *)
Definition select_set (i : nat) (objects : list scene_object) : list scene_object :=
  alter (fun o => SceneObject (so_name o) (so_type o) true) i objects.

(** [checkNameByPrefix], on the name of the object. *)
Definition checkNameByPrefix (name prefix : string) : bool :=
  if (String.length prefix <=? String.length name)%nat
  then if String.eqb (String.substring 0 (String.length prefix) name) prefix
       then true
       else false
  else false.

(** The loop of [selectObjByName] from position [i] on: the position of
    the object that is returned, [None] when the loop ends without a
    [return]. *)
Fixpoint find_by_name (name type : string) (i : nat) (objects : list scene_object)
  : option nat :=
  match objects with
  | [] => None
  | obj :: rest =>
      if String.eqb (so_type obj) type && String.eqb (so_name obj) name
      then Some i
      else find_by_name name type (S i) rest
  end.

Definition selectObjByName (name type : string) (objects : list scene_object)
  : option nat * list scene_object :=
  let objects := deselect_all objects in
  match find_by_name name type 0 objects with
  | Some i => (Some i, select_set i objects)
  | None => (None, objects)
  end.

Fixpoint find_by_prefix (prefix type : string) (i : nat) (objects : list scene_object)
  : option nat :=
  match objects with
  | [] => None
  | obj :: rest =>
      if (String.length prefix <=? String.length (so_name obj))%nat
      then if String.eqb (so_type obj) type
              && String.eqb (String.substring 0 (String.length prefix) (so_name obj)) prefix
           then Some i
           else find_by_prefix prefix type (S i) rest
      else find_by_prefix prefix type (S i) rest
  end.

Definition selectObjByPrefix (prefix type : string) (objects : list scene_object)
  : option nat * list scene_object :=
  let objects := deselect_all objects in
  match find_by_prefix prefix type 0 objects with
  | Some i => (Some i, select_set i objects)
  | None => (None, objects)
  end.

Section Script.
Context `{Host}.

(** [renderImages]: the folder is made by the host. *)
Definition renderImages (camNamesSelected : list string) (fileName output_path : string)
  : M unit :=
  for_ camNamesSelected
       (fun cam_idx =>
          let cam_name := cam_idx in
          _ <- objects_getitem cam_name ;;
          render (path_join output_path (fileName +:+ "_" +:+ cam_name))).

End Script.
End RenderTools.

(** ** [setup_optix], the same in every script that renders *)
Module Optix.

(** An entry of [prefs.devices]. *)
Record device := Device {
  dev_name : string;
  dev_type : string;
  dev_use : bool
}.

(** What [setup_optix] writes: the Cycles preferences, with the devices
    as [prefs.get_devices()] has refreshed them, and the device setting
    of the scene. *)
Record render_settings := RenderSettings {
  compute_device_type : string;
  devices : list device;
  scene_device : string
}.

Definition set_use (b : bool) (d : device) : device :=
  Device (dev_name d) (dev_type d) b.

(** [[d for d in prefs.devices if d.type == type]], each device given by
    its position in [prefs.devices], from position [i] on. *)
Fixpoint devices_of_type (type : string) (i : nat) (ds : list device) : list nat :=
  match ds with
  | [] => []
  | d :: rest =>
      if String.eqb (dev_type d) type
      then i :: devices_of_type type (S i) rest
      else devices_of_type type (S i) rest
  end.

(** [setup_optix] in a Blender that has the Cycles add-on: the result,
    the settings and what was printed as a warning. *)
Definition setup_optix (gpu_index : Z) (s : render_settings)
  : result unit * render_settings * list event :=
  let ds := map (set_use false) (devices s) in
  let gpu_devices := devices_of_type "OPTIX" 0 ds in
  if gpu_index <? Z.of_nat (length gpu_devices)
  then
    match py_getitem gpu_devices gpu_index with
    | Ok i => (Ok tt, RenderSettings "OPTIX" (alter (set_use true) i ds) "GPU", [])
    | Raise e => (Raise e, RenderSettings "OPTIX" ds (scene_device s), [])
    end
  else
    let ds := match gpu_devices with
              | i :: _ => alter (set_use true) i ds
              | [] => ds
              end in
    (Ok tt, RenderSettings "OPTIX" ds "GPU", [EvPrintWarning]).

End Optix.

(** ** DAT/bullet/load_frame.py: [setup_barrel_mode] *)
Module BarrelDisplay.

Record visibility := Visibility {
  hide_render : bool;
  hide_viewport : bool
}.

(** [bpy.data.objects] and [bpy.data.collections]; a collection holds
    references to objects, which are names here. *)
Record display := Display {
  data_objects : gmap string visibility;
  data_collections : gmap string (list string)
}.

(** [obj.hide_render = h; obj.hide_viewport = h] for the object of that
    name. *)
Definition set_hidden (h : bool) (name : string) (objs : gmap string visibility)
  : gmap string visibility :=
  alter (fun _ => Visibility h h) name objs.

(** The two branches differ in the value written: [barrel_hidden] for
    the rifled barrel, its negation for the objects of the section. *)
Definition show_barrel (barrel_hidden : bool) (s : display) : display :=
  let rifled_barrel := data_objects s !! "rifled_barrel" in
  let barrel_section := data_collections s !! "barrel side section" in
  let objs := match rifled_barrel with
              | Some _ => set_hidden barrel_hidden "rifled_barrel" (data_objects s)
              | None => data_objects s
              end in
  let objs := match barrel_section with
              | Some members =>
                  fold_left (fun objs obj => set_hidden (negb barrel_hidden) obj objs)
                            members objs
              | None => objs
              end in
  Display objs (data_collections s).

Definition setup_barrel_mode (mode : string) (s : display) : display :=
  if String.eqb mode "transparent" then show_barrel false s
  else if String.eqb mode "crosssection" then show_barrel true s
  else s.

End BarrelDisplay.

(** ** DAT/dropingBoxes/load_initial_meshes.py: the command line *)
Module LoadInitialMeshes.

Definition DEFAULT_INPUT_PATH : string := "D:\Data\DAT_sim\falling_gift_comparison".

(** [l.index(x)], [None] for its [ValueError]. *)
Fixpoint py_index (x : string) (l : list string) : option nat :=
  match l with
  | [] => None
  | y :: rest => if String.eqb y x then Some 0%nat else S <$> py_index x rest
  end.

(** The arguments after ["--"], as every script takes them from
    [sys.argv]. *)
Definition script_argv (argv : list string) : list string :=
  if existsb (fun y => String.eqb y "--") argv
  then match py_index "--" argv with
       | Some i => drop (i + 1) argv
       | None => []
       end
  else [].

(** The loop of [main] over [enumerate(argv)]. *)
Definition input_path_of (argv : list string) : string :=
  fold_left (fun input_path item =>
               let i := fst item in
               let arg := snd item in
               if (String.eqb arg "--input" || String.eqb arg "-i")
                  && (i + 1 <? length argv)%nat
               then match argv !! (i + 1)%nat with
                    | Some next => next
                    | None => input_path
                    end
               else input_path)
            (zip (seq 0 (length argv)) argv)
            DEFAULT_INPUT_PATH.

(** The path [main] hands to [load_falling_gift_meshes]. *)
Definition main (sys_argv : list string) : string :=
  input_path_of (script_argv sys_argv).

End LoadInitialMeshes.

(** [[f(x) for x in xs]] for an [f] that may raise. *)
Fixpoint list_comp {A B} (f : A -> result B) (xs : list A) : result (list B) :=
  match xs with
  | [] => Ok []
  | x :: rest =>
      match f x with
      | Ok y => match list_comp f rest with
                | Ok ys => Ok (y :: ys)
                | Raise e => Raise e
                end
      | Raise e => Raise e
      end
  end.

(** ** DAT/dropingBoxes/load_frame.py: [load_ply_topology] *)
Module LoadFrame.
Section Parser.

(** Python's [float] on a string. *)
Variable py_float : string -> result R.

(** The local variables of the loop over the lines of the file. *)
Record ply_state := PlyState {
  num_vertices : Z;
  num_faces : Z;
  in_header : bool;
  vertices : list (list R);
  faces : list (list Z)
}.

(** [int(line.split()[-1])]. *)
Definition last_int (line : string) : result Z :=
  match py_getitem (py_split line) (-1) with
  | Ok word => py_int word
  | Raise e => Raise e
  end.

(** The body of [for line in f]. *)
Definition ply_line (st : ply_state) (raw_line : string) : result ply_state :=
  let line := py_strip raw_line in
  if in_header st
  then
    if py_startswith line "element vertex"
    then match last_int line with
         | Ok n => Ok (PlyState n (num_faces st) (in_header st) (vertices st) (faces st))
         | Raise e => Raise e
         end
    else if py_startswith line "element face"
    then match last_int line with
         | Ok n => Ok (PlyState (num_vertices st) n (in_header st) (vertices st) (faces st))
         | Raise e => Raise e
         end
    else if String.eqb line "end_header"
    then Ok (PlyState (num_vertices st) (num_faces st) false (vertices st) (faces st))
    else Ok st
  else
    let parts := py_split line in
    if Z.of_nat (length (vertices st)) <? num_vertices st
    then match list_comp py_float (take 3 parts) with
         | Ok row => Ok (PlyState (num_vertices st) (num_faces st) (in_header st)
                                  (vertices st ++ [row]) (faces st))
         | Raise e => Raise e
         end
    else if Z.of_nat (length (faces st)) <? num_faces st
    then match list_comp py_int (take 3 (drop 1 parts)) with
         | Ok row => Ok (PlyState (num_vertices st) (num_faces st) (in_header st)
                                  (vertices st) (faces st ++ [row]))
         | Raise e => Raise e
         end
    else Ok st.

Fixpoint ply_lines (st : ply_state) (lines : list string) : result ply_state :=
  match lines with
  | [] => Ok st
  | line :: rest =>
      match ply_line st line with
      | Ok st' => ply_lines st' rest
      | Raise e => Raise e
      end
  end.

(** [np.array(rows)] on a list of lists of numbers, as the rows of the
    array: numpy refuses rows of different lengths. *)
Definition np_array_rows {A} (rows : list (list A)) : result (list (list A)) :=
  match rows with
  | [] => Ok []
  | row :: rest =>
      if forallb (fun r => (length r =? length row)%nat) rest
      then Ok rows
      else Raise ValueError
  end.

(** [load_ply_topology] on the lines of the file. *)
Definition load_ply_topology (lines : list string)
  : result (list (list R) * list (list Z)) :=
  match ply_lines (PlyState 0 0 true [] []) lines with
  | Ok st =>
      match np_array_rows (vertices st) with
      | Ok vs =>
          match np_array_rows (faces st) with
          | Ok fs => Ok (vs, fs)
          | Raise e => Raise e
          end
      | Raise e => Raise e
      end
  | Raise e => Raise e
  end.

End Parser.
End LoadFrame.

(** ** Vocabulary of the properties *)

(** The world after the host has overwritten the vertices of [obj]. *)
Definition set_mesh (w : world) (obj : string) (vs : list vec3) : world :=
  World (<[obj := MeshData vs]> (objects w)) (camera w) (trace w) (clock w).

(** The world after one more event. *)
Definition add_event (w : world) (e : event) : world :=
  World (objects w) (camera w) (trace w ++ [e]) (clock w).

(** The world after [k] warnings have been printed. *)
Definition add_warnings (w : world) (k : nat) : world :=
  World (objects w) (camera w) (trace w ++ replicate k EvPrintWarning) (clock w).

(** The world after [k] sleeps of [seconds] each and nothing else. *)
Definition slept (w : world) (seconds : nat) (k : nat) : world :=
  World (objects w) (camera w) (trace w ++ replicate k (EvSleep seconds))
        (k + clock w)%nat.

(** Whether the scene has a mesh object of that name. *)
Definition has_mesh (w : world) (name : string) : bool :=
  match objects w !! name with
  | Some (MeshData _) => true
  | _ => false
  end.

(** The entry [soft_body_meshes] gets for a manifest entry. *)
Definition soft_entry (i : MultiPhysics.soft_info) : MultiPhysics.particle_mesh :=
  MultiPhysics.ParticleMesh (MultiPhysics.si_name i) (MultiPhysics.si_name i)
                            (MultiPhysics.si_particle_start i)
                            (MultiPhysics.si_num_vertices i).

(** The manifest entries whose object is a mesh of the scene, and the
    number of the others. *)
Definition present_soft (w : world) (infos : list MultiPhysics.soft_info)
  : list MultiPhysics.soft_info :=
  List.filter (fun i => has_mesh w (MultiPhysics.si_name i)) infos.

Definition absent_soft (w : world) (infos : list MultiPhysics.soft_info) : nat :=
  length (List.filter (fun i => negb (has_mesh w (MultiPhysics.si_name i))) infos).

(** The file of a rigid body's local vertices. *)
Definition local_verts_path `{Host} (a : MultiPhysics.args) (name : string) : string :=
  path_join (path_join (MultiPhysics.inFolder a) "initial_meshes")
            (name +:+ "_vertices_local.npy").

(** The entry of a rigid body whose local vertices are [lv]. *)
Definition rigid_entry (i : MultiPhysics.rigid_info) (lv : ndarray)
  : MultiPhysics.rigid_mesh :=
  MultiPhysics.RigidMesh (MultiPhysics.ri_name i) (MultiPhysics.ri_name i)
                         (MultiPhysics.ri_body_idx i) lv.

Definition present_rigid (w : world) (infos : list MultiPhysics.rigid_info)
  : list MultiPhysics.rigid_info :=
  List.filter (fun i => has_mesh w (MultiPhysics.ri_name i)) infos.

Definition absent_rigid (w : world) (infos : list MultiPhysics.rigid_info) : nat :=
  length (List.filter (fun i => negb (has_mesh w (MultiPhysics.ri_name i))) infos).


(** The images rendered so far, in the order they were written. *)
Definition rendered_files (tr : list event) : list string :=
  omap (fun e => match e with EvRender filepath => Some filepath | _ => None end) tr.

(** A computation that lets no time pass: it does not sleep. *)
Definition keeps_clock {A} (m : M A) : Prop :=
  forall w, clock (snd (m w)) = clock w.

(** A computation that prints, sleeps and renders nothing. *)
Definition keeps_trace {A} (m : M A) : Prop :=
  forall w, trace (snd (m w)) = trace w.

(** A computation that only reads the world. *)
Definition keeps_world {A} (m : M A) : Prop :=
  forall w, snd (m w) = w.

(** A computation that, run at time [t], loads no file that is not on
    the disk, and does not sleep. *)
Definition loads_present `{Host} {A} (t : nat) (m : M A) : Prop :=
  forall w, clock w = t ->
    fst (m w) <> Raise OSError /\ clock (snd (m w)) = t.

(** The loop after [k] passes that all went round again: the local
    variables and the world it has reached. *)
Fixpoint passes {L} (k : nat) (body : L -> M (ctl L)) (l : L) (w : world)
  : option (L * world) :=
  match k with
  | O => Some (l, w)
  | S k' =>
      match body l w with
      | (Ok (Next l'), w') => passes k' body l' w'
      | _ => None
      end
  end.

(** The local variables of the single-mesh loop after [k] passes that
    waited and rescanned the folder. *)
Definition rescanned `{Host} (c : SingleMesh.config) (l : SingleMesh.locals)
    (w : world) (k : nat) : SingleMesh.locals :=
  match k with
  | O => l
  | S _ => SingleMesh.Locals (SingleMesh.fileId l)
                             (glob_sorted (SingleMesh.npy_pattern c) (k + clock w))
  end.

(** The number of frames rendered so far. *)
Definition count_renders (tr : list event) : nat :=
  length (List.filter (fun e => match e with EvRender _ => true | _ => false end) tr).

(** A run of [k] characters ["0"]. *)
Fixpoint zeros (k : nat) : string :=
  match k with
  | O => EmptyString
  | S k' => String "0"%char (zeros k')
  end.





(** The entry-wise interpolation [a * (1 - t) + b * t] of two frames of
    one shape, in the arithmetic of the interpreter and of numpy. *)
Definition lerp_array `{Host} (v0 v1 : ndarray) (t : R) : ndarray :=
  NdArray (shape v0)
          (zip_with (fun x y => np_plus (np_mul x (float_sub 1 t)) (np_mul y t))
                    (data v0) (data v1)).

(** A computation that adds to the trace only events that [ok] accepts. *)
Definition emits_only (ok : event -> bool) {A} (m : M A) : Prop :=
  forall w, exists evs, trace (snd (m w)) = trace w ++ evs /\ forallb ok evs = true.

(** Events other than a finished render and a sleep. *)
Definition is_quiet (e : event) : bool :=
  match e with
  | EvRender _ | EvSleep _ => false
  | _ => true
  end.

(** A computation that never ends in the exception [e]. *)
Definition never_raises (e : exn) {A} (m : M A) : Prop :=
  forall w, fst (m w) <> Raise e.

(** A header line of a PLY file that is none of the three the parser
    looks for. *)
Definition other_header_line (l : string) : Prop :=
  py_startswith (py_strip l) "element vertex" = false /\
  py_startswith (py_strip l) "element face" = false /\
  py_strip l <> "end_header".

(** What a run of the loop keeps: nothing is stored while the header is
    read, rows are short, and each line adds at most one row. *)
Definition ply_inv (st : LoadFrame.ply_state) : Prop :=
  (LoadFrame.in_header st = true ->
   LoadFrame.vertices st = [] /\ LoadFrame.faces st = []) /\
  Z.of_nat (length (LoadFrame.vertices st)) <= Z.max 0 (LoadFrame.num_vertices st) /\
  Z.of_nat (length (LoadFrame.faces st)) <= Z.max 0 (LoadFrame.num_faces st) /\
  Forall (fun row => (length row <= 3)%nat) (LoadFrame.vertices st) /\
  Forall (fun row => (length row <= 3)%nat) (LoadFrame.faces st).

(** ** Hosts and scenes on which the properties are exercised *)
Module Examples.

Fixpoint contains (c : ascii) (s : string) : bool :=
  match s with
  | EmptyString => false
  | String x rest => Ascii.eqb x c || contains c rest
  end.

Fixpoint ends_with_sep (s : string) : bool :=
  match s with
  | EmptyString => false
  | String c EmptyString => Ascii.eqb c "/"%char
  | String _ rest => ends_with_sep rest
  end.

(** [posixpath.join] of two components. *)
Definition posix_join (a b : string) : string :=
  match b with
  | String "/"%char _ => b
  | _ => match a with
         | EmptyString => b
         | _ => if ends_with_sep a then a +:+ b else a +:+ "/" +:+ b
         end
  end.

(** The part of a path after its last separator. *)
Fixpoint basename (s : string) : string :=
  match s with
  | EmptyString => EmptyString
  | String c rest =>
      if contains "/"%char rest then basename rest
      else if Ascii.eqb c "/"%char then rest else s
  end.

(** A file name without its last suffix. *)
Fixpoint drop_suffix (s : string) : string :=
  match s with
  | EmptyString => EmptyString
  | String c rest =>
      if contains "."%char rest then String c (drop_suffix rest)
      else if Ascii.eqb c "."%char then EmptyString else s
  end.

Definition posix_stem (p : string) : string := drop_suffix (basename p).

Definition origin : Vector := mkVector 0 0 0.

Definition identity3 : mat3 := ((1, 0, 0), (0, 1, 0), (0, 0, 1))%R.

Definition still_camera : camera_state := CameraState origin origin.

(** A host with POSIX paths whose folder holds the same files at all
    times, whose rotation matrix is the identity, and whose arithmetic
    is that of the real numbers: the frames of the examples hold small
    integers, which single precision keeps and on which the sums and
    products of floating point are exact. *)
Definition static_host (files : gmap string ndarray) (listing : list string) : Host := {|
  disk := fun _ => files;
  glob_sorted := fun _ _ => listing;
  path_join := posix_join;
  path_stem := posix_stem;
  to_matrix := fun _ => identity3;
  to_track_quat := fun _ => mkQuaternion 1 0 0 0;
  to_euler := fun _ => origin;
  to_float32 := fun x => x;
  to_float32_idem := fun _ => eq_refl;
  foreach_set_short := fun vs _ => vs;
  float_add := Rplus;
  float_sub := Rminus;
  float_mul := Rmult;
  float_div := Rdiv;
  math_cos := cos;
  math_sin := sin;
  math_radians := fun deg => (deg * PI / 180)%R;
  np_mul := Rmult;
  np_plus := Rplus;
  vector_xyz := mkVector;
  vector_add := fun u v => mkVector (vx u + vx v) (vy u + vy v) (vz u + vz v);
  vector_sub := fun u v => mkVector (vx u - vx v) (vy u - vy v) (vz u - vz v)
|}.

(** A scene with a camera and one mesh. *)
Definition scene_with (name : string) (vs : list vec3) : world :=
  World (<[name := MeshData vs]> {[ cam_name := OtherData ]}) still_camera [] 0.

Definition two_rows : ndarray := of_rows3 [(1, 2, 3); (4, 5, 6)]%R.

Definition three_rows : ndarray := of_rows3 [(1, 2, 3); (4, 5, 6); (7, 8, 9)]%R.

Definition moved_rows : ndarray := of_rows3 [(3, 2, 1); (6, 5, 4)]%R.

(** A folder in which no frame is ever written, and a scene without
    objects. *)
Definition empty_host : Host := static_host ∅ [].

Definition empty_scene : world := World ∅ still_camera [] 0.

(** A folder that holds a single frame of two rows, and a scene whose
    mesh [initial_mesh] has three vertices. *)
Definition one_frame_host : Host :=
  static_host {[ "data/frame_000000.npy" := two_rows ]} ["data/frame_000000.npy"].

Definition bullet_scene : world :=
  scene_with "initial_mesh" [(0, 0, 0); (0, 0, 0); (0, 0, 0)]%R.

(** Multi-physics: a manifest that names one soft body, in a scene that
    has no such object. *)
Definition manifest_ball : MultiPhysics.mesh_info :=
  MultiPhysics.MeshInfo [MultiPhysics.SoftInfo "ball" 0 8] [] None.

Definition preview_args : MultiPhysics.args :=
  MultiPhysics.Args "data" None 1 1 0 true (1 / 100).

Definition batch_args : MultiPhysics.args :=
  MultiPhysics.Args "data" None 1 1 0 false (1 / 100).


Definition ball_scene : world := scene_with "ball" [(0, 0, 0); (0, 0, 0)]%R.


(** Multi-physics: one rigid body at position (1,2,3) with the identity
    orientation. *)
Definition one_pose : ndarray := NdArray [1%nat; 7%nat] [1; 2; 3; 0; 0; 0; 1]%R.

Definition crate : MultiPhysics.rigid_mesh :=
  MultiPhysics.RigidMesh "crate" "crate" 0 three_rows.

Definition crate_scene : world :=
  scene_with "crate" [(0, 0, 0); (0, 0, 0); (0, 0, 0)]%R.

(** unroll: a frame of 66 collider rows and one cloth row, and a scene
    whose mesh [initial_cloth] has one vertex. *)
Definition unroll_frame : ndarray :=
  of_rows3 (replicate 66 (0, 0, 0)%R ++ [(1, 2, 3)%R]).

Definition unroll_host : Host :=
  static_host {[ "data/frame_000000.npy" := unroll_frame ]} ["data/frame_000000.npy"].

Definition unroll_scene : world := scene_with "initial_cloth" [(0, 0, 0)%R].

Definition unroll_args : Unroll.args := Unroll.Args "data" None 1 1.

(** cloth_drop: a folder with two frames of two rows, one mesh layer of
    two vertices, and a slowdown factor of 2. *)
Definition two_frame_host : Host :=
  static_host {[ "data/a.npy" := two_rows; "data/b.npy" := moved_rows ]}
              ["data/a.npy"; "data/b.npy"].

Definition layer_scene : world := scene_with "layer0" [(0, 0, 0); (0, 0, 0)]%R.

Definition slowmo_args : SlowmoOrbit.args :=
  SlowmoOrbit.Args "data" "out" 0 100 1 2 360 origin origin.

(** dropingBoxes: a folder that holds frame 0 of the six components, and
    a scene with the six meshes of two vertices each. *)
Definition gift_files : gmap string ndarray :=
  list_to_map (map (fun c => ("data/" +:+ c +:+ "/frame_000000.npy", two_rows))
                   (map snd DropingBoxes.mesh_components)).

Definition gift_host : Host := static_host gift_files [].

Definition gift_scene : world :=
  World (list_to_map ((cam_name, OtherData)
                      :: map (fun n => (n, MeshData [(0, 0, 0); (0, 0, 0)]%R))
                             (map fst DropingBoxes.mesh_components)))
        still_camera [] 0.

Definition gift_args : DropingBoxes.args := DropingBoxes.Args "data" None 1 1 0.

(** bullet/load_frame.py: the rifled barrel, shown, and a side section
    of one object, hidden. *)
Definition barrel_display : BarrelDisplay.display :=
  BarrelDisplay.Display
    {[ "rifled_barrel" := BarrelDisplay.Visibility false false;
       "side" := BarrelDisplay.Visibility true true ]}
    {[ "barrel side section" := ["side"] ]}.

(** A PLY file of one triangle, read with a [float] that knows the
    integer literals only. *)
Definition newline : string := String (ascii_of_nat 10) EmptyString.

Definition int_float (s : string) : result R :=
  match py_int s with
  | Ok z => Ok (IZR z)
  | Raise e => Raise e
  end.

Definition ply_header_start : list string :=
  map (fun l => l +:+ newline) ["ply"; "format ascii 1.0"].

Definition ply_vertex_properties : list string :=
  map (fun l => l +:+ newline) ["property float x"; "property float y"; "property float z"].

Definition ply_face_properties : list string :=
  map (fun l => l +:+ newline) ["property list uchar int vertex_indices"].

Definition ply_vertex_lines : list string :=
  map (fun l => l +:+ newline) ["0 0 0"; "1 0 0"; "0 1 0"].

Definition ply_face_lines : list string :=
  map (fun l => l +:+ newline) ["3 0 1 2"].

Definition triangle_ply : list string :=
  ply_header_start ++ ("element vertex 3" +:+ newline)
    :: ply_vertex_properties ++ ("element face 1" +:+ newline)
    :: ply_face_properties ++ ("end_header" +:+ newline)
    :: ply_vertex_lines ++ ply_face_lines ++ [].

End Examples.

(** * Properties *)

(** ** Arrays and rows *)

Lemma flatten3_cons (x y z : R) (vs : list vec3) :
  flatten3 ((x, y, z) :: vs) = x :: y :: z :: flatten3 vs.
Proof. reflexivity. Qed.


Lemma length_flatten3 (vs : list vec3) : length (flatten3 vs) = (3 * length vs)%nat.
Proof.
  induction vs as [|[[x y] z] vs IH]; [reflexivity|].
  rewrite flatten3_cons. simpl. rewrite IH. lia.
Qed.

(** A strong induction three elements at a time. *)
Lemma list_ind3 {A} (P : list A -> Prop) :
  P [] -> (forall x, P [x]) -> (forall x y, P [x; y]) ->
  (forall x y z l, P l -> P (x :: y :: z :: l)) ->
  forall l, P l.
Proof.
  intros H0 H1 H2 H3.
  fix IH 1.
  intros [|x [|y [|z l]]];
    [exact H0 | exact (H1 x) | exact (H2 x y) | exact (H3 x y z l (IH l))].
Qed.

Lemma length_triples (l : list R) (n : nat) :
  length l = (3 * n)%nat -> length (triples l) = n.
Proof.
  revert n. induction l as [| x | x y | x y z l IH] using list_ind3;
    intros n Hn; simpl in *; try lia.
  destruct n as [|n]; [lia|]. f_equal. apply IH. lia.
Qed.

Lemma flatten3_triples (l : list R) (n : nat) :
  length l = (3 * n)%nat -> flatten3 (triples l) = l.
Proof.
  revert n. induction l as [| x | x y | x y z l IH] using list_ind3;
    intros n Hn; simpl in Hn; try lia; try reflexivity.
  destruct n as [|n]; [lia|].
  cbn [triples]. rewrite flatten3_cons, (IH n) by lia. reflexivity.
Qed.

Lemma triples_drop (l : list R) (k : nat) :
  triples (drop (k * 3) l) = drop k (triples l).
Proof.
  revert l. induction k as [|k IH]; intros l; [reflexivity|].
  destruct l as [|x [|y [|z l]]]; simpl; try reflexivity.
  apply IH.
Qed.

Lemma triples_take (l : list R) (k : nat) :
  triples (take (k * 3) l) = take k (triples l).
Proof.
  revert l. induction k as [|k IH]; intros l; [reflexivity|].
  destruct l as [|x [|y [|z l]]]; simpl; try reflexivity.
  f_equal. apply IH.
Qed.

Lemma wf_of_rows3 (vs : list vec3) : wf_array (of_rows3 vs).
Proof. unfold wf_array; simpl. rewrite length_flatten3. lia. Qed.

Lemma length_rows3 (V : ndarray) (n : nat) :
  wf_array V -> shape V = [n; 3%nat] -> length (rows3 V) = n.
Proof.
  unfold wf_array, rows3. intros Hwf Hs. rewrite Hs in Hwf. simpl in Hwf.
  apply length_triples. lia.
Qed.

(** ** Rounding to single precision *)

Lemma triples_map_float32 `{Host} (l : list R) :
  triples (map to_float32 l) = map float32_vec (triples l).
Proof.
  induction l as [| x | x y | x y z l IH] using list_ind3; try reflexivity.
  cbn [map triples float32_vec]. now rewrite IH.
Qed.

Lemma rows3_astype_float32 `{Host} (V : ndarray) :
  rows3 (astype_float32 V) = map float32_vec (rows3 V).
Proof. unfold rows3, astype_float32. cbn [data]. apply triples_map_float32. Qed.



(** ** [update_mesh_vertices]: what is written, and when *)

Lemma foreach_set_co_fits `{Host} (obj : string) (co_flat : list R) (w : world)
    (vs : list vec3) :
  objects w !! obj = Some (MeshData vs) ->
  length co_flat = (3 * length vs)%nat ->
  foreach_set_co obj co_flat w = (Ok tt, set_mesh w obj (triples co_flat)).
Proof.
  intros Hobj Hlen. unfold foreach_set_co. rewrite Hobj. cbv zeta.
  destruct (Nat.leb_spec (3 * length vs) (length co_flat)); [|lia].
  now rewrite <- Hlen, firstn_all.
Qed.

Lemma strict_update_accept `{Host} (obj : string) (V : ndarray) (w : world)
    (vs : list vec3) :
  objects w !! obj = Some (MeshData vs) ->
  wf_array V ->
  shape V = [length vs; 3%nat] ->
  Strict.update_mesh_vertices obj V w
  = (Ok tt, set_mesh w obj (rows3 (astype_float32 V))).
Proof.
  intros Hobj Hwf Hs.
  unfold Strict.update_mesh_vertices, ndim, shape_at. rewrite Hs. simpl.
  unfold bind, mesh_vertices, lift. rewrite Hobj. simpl.
  rewrite Nat.eqb_refl. simpl.
  apply (foreach_set_co_fits obj _ w vs Hobj).
  unfold reshape_flat, astype_float32. cbn [data]. rewrite length_map.
  unfold wf_array in Hwf. rewrite Hs in Hwf. simpl in Hwf. lia.
Qed.

Lemma strict_update_reject `{Host} (obj : string) (V : ndarray) (w : world)
    (vs : list vec3) :
  objects w !! obj = Some (MeshData vs) ->
  shape V <> [length vs; 3%nat] ->
  Strict.update_mesh_vertices obj V w = (Raise ValueError, w).
Proof.
  intros Hobj Hs.
  unfold Strict.update_mesh_vertices, ndim, shape_at.
  destruct (shape V) as [|n [|k [|? ?]]] eqn:E; simpl; try reflexivity.
  destruct (Nat.eqb_spec k 3) as [->|Hk]; simpl; [|reflexivity].
  unfold bind, mesh_vertices, lift. rewrite Hobj. simpl.
  destruct (Nat.eqb_spec n (length vs)) as [->|Hn]; simpl; [|reflexivity].
  congruence.
Qed.

(** bullet/load_frame.py looks at the row count only: what has that
    many rows goes to the host, which reads three values per vertex. *)
Lemma bullet_update_accept `{Host} (obj : string) (V : ndarray) (w : world)
    (vs : list vec3) :
  objects w !! obj = Some (MeshData vs) ->
  shape_at V 0 = Ok (length vs) ->
  (3 * length vs <= length (data V))%nat ->
  Bullet.update_mesh_vertices obj V w
  = (Ok true,
     set_mesh w obj (triples (take (3 * length vs) (data (astype_float32 V))))).
Proof.
  intros Hobj Hn Hlen.
  unfold Bullet.update_mesh_vertices, bind, mesh_vertices, lift, foreach_set_co.
  rewrite Hobj, Hn. simpl. rewrite Nat.eqb_refl. simpl. rewrite Hobj.
  unfold reshape_flat, astype_float32. cbn [data]. rewrite length_map. cbv zeta.
  destruct (Nat.leb_spec (length vs + (length vs + (length vs + 0))) (length (data V)));
    [reflexivity | lia].
Qed.

Lemma bullet_update_rows `{Host} (obj : string) (V : ndarray) (w : world)
    (vs : list vec3) :
  objects w !! obj = Some (MeshData vs) ->
  wf_array V ->
  shape V = [length vs; 3%nat] ->
  Bullet.update_mesh_vertices obj V w
  = (Ok true, set_mesh w obj (rows3 (astype_float32 V))).
Proof.
  intros Hobj Hwf Hs.
  assert (Hlen : length (data V) = (3 * length vs)%nat).
  { unfold wf_array in Hwf. rewrite Hs in Hwf. simpl in Hwf. lia. }
  rewrite (bullet_update_accept obj V w vs Hobj) by (unfold shape_at; rewrite ?Hs; (reflexivity || lia)).
  unfold rows3. do 3 f_equal. apply firstn_all2.
  unfold astype_float32. cbn [data]. rewrite length_map. lia.
Qed.


Lemma bullet_update_objects `{Host} (obj : string) (V : ndarray) (w w' : world) :
  Bullet.update_mesh_vertices obj V w = (Ok false, w') ->
  objects w' = objects w.
Proof.
  unfold Bullet.update_mesh_vertices, bind, mesh_vertices, lift, foreach_set_co.
  destruct (objects w !! obj) as [[vs|]|] eqn:Hobj; simpl; try discriminate.
  destruct (shape_at V 0) as [n|e]; simpl; [|discriminate].
  destruct (negb _); simpl; [intros [= <-]; reflexivity|].
  rewrite Hobj. cbv zeta. destruct (_ <=? _)%nat; simpl; discriminate.
Qed.




(** ** Missing scene objects *)

Lemma get_mesh_obj_spec (name : string) (w : world) :
  get_mesh_obj name w =
  (if has_mesh w name then Ok name else Raise RuntimeError, w).
Proof.
  unfold get_mesh_obj, bind, objects_get, has_mesh.
  destruct (objects w !! name) as [[vs|]|]; reflexivity.
Qed.

Lemma add_soft_body_spec (acc : list MultiPhysics.particle_mesh)
    (i : MultiPhysics.soft_info) (w : world) :
  MultiPhysics.add_soft_body acc i w =
  if has_mesh w (MultiPhysics.si_name i)
  then (Ok (acc ++ [soft_entry i]), w)
  else (Ok acc, add_event w EvPrintWarning).
Proof.
  unfold MultiPhysics.add_soft_body, try_except_RuntimeError, bind.
  rewrite get_mesh_obj_spec.
  destruct (has_mesh w _); reflexivity.
Qed.

Lemma add_warnings_event (w : world) (k : nat) :
  add_warnings (add_event w EvPrintWarning) k = add_warnings w (S k).
Proof.
  unfold add_warnings, add_event. simpl. f_equal.
  now rewrite <- app_assoc.
Qed.

Lemma add_warnings_0 (w : world) : add_warnings w 0 = w.
Proof. destruct w. unfold add_warnings. simpl. now rewrite app_nil_r. Qed.

Lemma build_soft_from (infos : list MultiPhysics.soft_info)
    (acc : list MultiPhysics.particle_mesh) (w : world) :
  for_fold infos (fun sb_info acc => MultiPhysics.add_soft_body acc sb_info) acc w =
  (Ok (acc ++ map soft_entry (present_soft w infos)),
   add_warnings w (absent_soft w infos)).
Proof.
  revert acc w. induction infos as [|i infos IH]; intros acc w.
  - simpl. unfold ret. now rewrite app_nil_r, add_warnings_0.
  - cbn [for_fold]. unfold bind at 1. rewrite add_soft_body_spec.
    unfold present_soft, absent_soft in *. cbn [List.filter].
    destruct (has_mesh w (MultiPhysics.si_name i)) eqn:E; cbn [negb].
    + rewrite IH. cbn [map]. now rewrite <- app_assoc.
    + rewrite IH. cbn [length].
      rewrite add_warnings_event. reflexivity.
Qed.

Lemma build_soft_body_meshes_spec (mi : MultiPhysics.mesh_info) (w : world) :
  MultiPhysics.build_soft_body_meshes mi w =
  (Ok (map soft_entry (present_soft w (MultiPhysics.soft_bodies mi))),
   add_warnings w (absent_soft w (MultiPhysics.soft_bodies mi))).
Proof. unfold MultiPhysics.build_soft_body_meshes. now rewrite build_soft_from. Qed.

Lemma build_cloth_mesh_spec (mi : MultiPhysics.mesh_info)
    (soft : list MultiPhysics.particle_mesh) (w : world) :
  MultiPhysics.build_cloth_mesh mi soft w =
  match MultiPhysics.cloth mi with
  | None => (Ok None, w)
  | Some ci =>
      if has_mesh w (MultiPhysics.ci_name ci)
      then (Ok (Some (MultiPhysics.ParticleMesh
                        (MultiPhysics.ci_name ci) (MultiPhysics.ci_name ci)
                        (match MultiPhysics.ci_particle_start ci with
                         | Some ps => ps
                         | None => MultiPhysics.cloth_start_after soft
                         end)
                        (MultiPhysics.ci_num_vertices ci))), w)
      else (Ok None, add_event w EvPrintWarning)
  end.
Proof.
  unfold MultiPhysics.build_cloth_mesh.
  destruct (MultiPhysics.cloth mi) as [ci|]; [|reflexivity].
  unfold try_except_RuntimeError, bind. rewrite get_mesh_obj_spec.
  destruct (has_mesh w _); reflexivity.
Qed.

(** One rigid body of the manifest: entered with its local vertices,
    skipped with a warning when its object is missing, and the end of
    the run when the object is there and the file is not. *)
Lemma add_rigid_body_spec `{Host} (a : MultiPhysics.args)
    (acc : list MultiPhysics.rigid_mesh) (i : MultiPhysics.rigid_info) (w : world) :
  MultiPhysics.add_rigid_body a acc i w =
  if has_mesh w (MultiPhysics.ri_name i)
  then match disk (clock w) !! local_verts_path a (MultiPhysics.ri_name i) with
       | Some lv => (Ok (acc ++ [rigid_entry i lv]), w)
       | None => (Raise OSError, w)
       end
  else (Ok acc, add_event w EvPrintWarning).
Proof.
  unfold MultiPhysics.add_rigid_body, try_except_RuntimeError, bind.
  rewrite get_mesh_obj_spec.
  destruct (has_mesh w _); [|reflexivity].
  unfold np_load, local_verts_path. now destruct (disk (clock w) !! _).
Qed.

Lemma add_rigid_body_no_RuntimeError `{Host} (a : MultiPhysics.args)
    (acc : list MultiPhysics.rigid_mesh) (i : MultiPhysics.rigid_info) (w : world) :
  fst (MultiPhysics.add_rigid_body a acc i w) <> Raise RuntimeError.
Proof.
  rewrite add_rigid_body_spec.
  destruct (has_mesh w _); [|discriminate].
  destruct (disk (clock w) !! _); discriminate.
Qed.

Lemma build_rigid_from `{Host} (a : MultiPhysics.args)
    (infos : list MultiPhysics.rigid_info) (acc entries : list MultiPhysics.rigid_mesh)
    (w : world) :
  Forall2 (fun i e => exists lv,
             disk (clock w) !! local_verts_path a (MultiPhysics.ri_name i) = Some lv /\
             e = rigid_entry i lv)
          (present_rigid w infos) entries ->
  for_fold infos (fun rb_info acc => MultiPhysics.add_rigid_body a acc rb_info) acc w =
  (Ok (acc ++ entries), add_warnings w (absent_rigid w infos)).
Proof.
  revert acc entries w. induction infos as [|i infos IH]; intros acc entries w Hall.
  - cbn in Hall. inversion Hall. subst. cbn. unfold ret.
    now rewrite app_nil_r, add_warnings_0.
  - cbn [for_fold]. unfold bind at 1. rewrite add_rigid_body_spec.
    unfold present_rigid, absent_rigid in *. cbn [List.filter] in *.
    destruct (has_mesh w (MultiPhysics.ri_name i)) eqn:E; cbn [negb].
    + inversion Hall as [|i0 e0 l0 rest [lv [Hlv ->]] Hrest]; subst.
      rewrite Hlv. rewrite (IH _ rest) by exact Hrest.
      now rewrite <- app_assoc.
    + rewrite (IH acc entries (add_event w EvPrintWarning)) by exact Hall.
      cbn [length]. rewrite add_warnings_event. reflexivity.
Qed.

Lemma build_rigid_body_meshes_spec `{Host} (a : MultiPhysics.args)
    (mi : MultiPhysics.mesh_info) (entries : list MultiPhysics.rigid_mesh) (w : world) :
  Forall2 (fun i e => exists lv,
             disk (clock w) !! local_verts_path a (MultiPhysics.ri_name i) = Some lv /\
             e = rigid_entry i lv)
          (present_rigid w (MultiPhysics.rigid_bodies mi)) entries ->
  MultiPhysics.build_rigid_body_meshes a mi w =
  (Ok entries, add_warnings w (absent_rigid w (MultiPhysics.rigid_bodies mi))).
Proof.
  intros Hall. unfold MultiPhysics.build_rigid_body_meshes.
  now rewrite (build_rigid_from a _ [] entries w Hall).
Qed.

Lemma build_rigid_body_meshes_no_RuntimeError `{Host} (a : MultiPhysics.args)
    (mi : MultiPhysics.mesh_info) (w : world) :
  fst (MultiPhysics.build_rigid_body_meshes a mi w) <> Raise RuntimeError.
Proof.
  unfold MultiPhysics.build_rigid_body_meshes.
  generalize (@nil MultiPhysics.rigid_mesh) as acc. revert w.
  induction (MultiPhysics.rigid_bodies mi) as [|i infos IH]; intros w acc.
  - discriminate.
  - cbn [for_fold]. unfold bind at 1.
    pose proof (add_rigid_body_no_RuntimeError a acc i w) as Hone.
    destruct (MultiPhysics.add_rigid_body a acc i w) as [[acc'|e] w']; [apply IH|].
    exact Hone.
Qed.

Lemma collect_raises (names : list string) (acc : gmap string string) (w : world) :
  (exists name, In name names /\ has_mesh w name = false) ->
  for_fold names
           (fun obj_name mesh_objs =>
              obj <- get_mesh_obj obj_name ;;
              ret (<[obj_name := obj]> mesh_objs)) acc w
  = (Raise RuntimeError, w).
Proof.
  revert acc. induction names as [|n names IH]; intros acc [name [Hin Hmiss]].
  - destruct Hin.
  - cbn [for_fold]. unfold bind at 1 2. rewrite get_mesh_obj_spec.
    destruct (has_mesh w n) eqn:E; [|reflexivity].
    unfold ret at 1. apply IH. exists name. split; [|assumption].
    destruct Hin as [->|Hin]; [congruence | assumption].
Qed.

Lemma objects_getitem_present (name : string) (w : world) :
  is_Some (objects w !! name) ->
  exists o, objects_getitem name w = (Ok o, w).
Proof.
  intros [o Ho]. exists o. unfold objects_getitem. now rewrite Ho.
Qed.

Lemma single_mesh_main_missing `{Host} (c : SingleMesh.config) (fuel : nat) (w : world) :
  is_Some (objects w !! cam_name) ->
  has_mesh w (SingleMesh.target_obj_name c) = false ->
  SingleMesh.main c fuel w = Some (Raise RuntimeError, w).
Proof.
  intros Hcam Hmiss. destruct (objects_getitem_present _ _ Hcam) as [o Ho].
  unfold SingleMesh.main, bind. rewrite Ho, get_mesh_obj_spec, Hmiss.
  reflexivity.
Qed.

Lemma droping_boxes_main_missing `{Host} (a : DropingBoxes.args) (fuel : nat) (w : world) :
  is_Some (objects w !! cam_name) ->
  (exists name, In name (map fst DropingBoxes.mesh_components) /\ has_mesh w name = false) ->
  DropingBoxes.main a fuel w = Some (Raise RuntimeError, w).
Proof.
  intros Hcam Hmiss. destruct (objects_getitem_present _ _ Hcam) as [o Ho].
  unfold DropingBoxes.main, DropingBoxes.collect_mesh_objs. unfold bind at 1.
  rewrite Ho. now rewrite collect_raises.
Qed.

Lemma bullet_load_frame_missing `{Host} (frame_num : Z) (data_path mesh_name : string)
    (w : world) :
  objects w !! mesh_name = None ->
  fst (Bullet.load_frame frame_num data_path mesh_name w) = Ok false /\
  snd (Bullet.load_frame frame_num data_path mesh_name w) = add_event w EvPrintError.
Proof.
  intros Hnone. unfold Bullet.load_frame, bind, path_exists.
  destruct (bool_decide _); simpl; [|now split].
  unfold objects_get. rewrite Hnone. now split.
Qed.

(** C3 (amended). [get_mesh_obj] raises [RuntimeError] exactly when the
    named object is missing from the scene or is not a mesh. The render
    targets of Twist_release, unroll and dropingBoxes are fetched
    without a handler, so the run (of a scene that has its camera)
    ends there with the scene untouched.
    In Multi-physics/run.py the soft bodies, rigid bodies and cloth of
    the manifest are fetched under [except RuntimeError]: one that is
    missing or not a mesh is skipped with a printed warning and the
    mapping is built from the others, a rigid body among them with the
    local vertices its file holds. bullet/load_frame.py prints an
    error and returns [False] when its mesh is missing. *)
Theorem missing_object_handling `{Host} :
  (forall name w,
     get_mesh_obj name w = (if has_mesh w name then Ok name else Raise RuntimeError, w)) /\
  (forall c fuel w,
     is_Some (objects w !! cam_name) ->
     has_mesh w (SingleMesh.target_obj_name c) = false ->
     SingleMesh.main c fuel w = Some (Raise RuntimeError, w)) /\
  (forall a fuel w,
     is_Some (objects w !! cam_name) ->
     (exists name, In name (map fst DropingBoxes.mesh_components) /\
                   has_mesh w name = false) ->
     DropingBoxes.main a fuel w = Some (Raise RuntimeError, w)) /\
  (forall mi w,
     MultiPhysics.build_soft_body_meshes mi w =
     (Ok (map soft_entry (present_soft w (MultiPhysics.soft_bodies mi))),
      add_warnings w (absent_soft w (MultiPhysics.soft_bodies mi)))) /\
  (forall a acc i w,
     MultiPhysics.add_rigid_body a acc i w =
     if has_mesh w (MultiPhysics.ri_name i)
     then match disk (clock w) !! local_verts_path a (MultiPhysics.ri_name i) with
          | Some lv => (Ok (acc ++ [rigid_entry i lv]), w)
          | None => (Raise OSError, w)
          end
     else (Ok acc, add_event w EvPrintWarning)) /\
  (forall a mi w entries,
     Forall2 (fun i e => exists lv,
                disk (clock w) !! local_verts_path a (MultiPhysics.ri_name i) = Some lv /\
                e = rigid_entry i lv)
             (present_rigid w (MultiPhysics.rigid_bodies mi)) entries ->
     MultiPhysics.build_rigid_body_meshes a mi w =
     (Ok entries, add_warnings w (absent_rigid w (MultiPhysics.rigid_bodies mi)))) /\
  (forall a mi w,
     fst (MultiPhysics.build_rigid_body_meshes a mi w) <> Raise RuntimeError) /\
  (forall mi soft w,
     MultiPhysics.build_cloth_mesh mi soft w =
     match MultiPhysics.cloth mi with
     | None => (Ok None, w)
     | Some ci =>
         if has_mesh w (MultiPhysics.ci_name ci)
         then (Ok (Some (MultiPhysics.ParticleMesh
                           (MultiPhysics.ci_name ci) (MultiPhysics.ci_name ci)
                           (match MultiPhysics.ci_particle_start ci with
                            | Some ps => ps
                            | None => MultiPhysics.cloth_start_after soft
                            end)
                           (MultiPhysics.ci_num_vertices ci))), w)
         else (Ok None, add_event w EvPrintWarning)
     end) /\
  (forall frame_num data_path mesh_name w,
     objects w !! mesh_name = None ->
     fst (Bullet.load_frame frame_num data_path mesh_name w) = Ok false /\
     snd (Bullet.load_frame frame_num data_path mesh_name w) = add_event w EvPrintError).
Proof.
  repeat split.
  - apply get_mesh_obj_spec.
  - intros c fuel w. apply single_mesh_main_missing.
  - intros a fuel w. apply droping_boxes_main_missing.
  - apply build_soft_body_meshes_spec.
  - apply add_rigid_body_spec.
  - intros a mi w entries. apply build_rigid_body_meshes_spec.
  - apply build_rigid_body_meshes_no_RuntimeError.
  - apply build_cloth_mesh_spec.
  - now apply bullet_load_frame_missing.
  - now apply bullet_load_frame_missing.
Qed.

(** C3 as stated fails: with a manifest that names the soft body
    [ball] and a scene without it, Multi-physics/run.py builds an empty
    mapping after a warning and runs its main loop to the end. *)
Lemma missing_soft_body_is_skipped :
  MultiPhysics.build_soft_body_meshes Examples.manifest_ball Examples.empty_scene
  = (Ok [], add_event Examples.empty_scene EvPrintWarning) /\
  @MultiPhysics.main Examples.empty_host Examples.preview_args 1
                     Examples.manifest_ball Examples.empty_scene
  = Some (Ok (MultiPhysics.Locals 0 [] []),
          add_event (add_event Examples.empty_scene EvPrintWarning) EvPrintEnd).
Proof. split; reflexivity. Qed.

(** ** Loops: passes, fuel and variants *)

(** A pass that goes round again and changes nothing repeats for ever. *)
Lemma while_spins {L} (body : L -> M (ctl L)) (l : L) (w : world) :
  body l w = (Ok (Next l), w) ->
  forall fuel, while fuel body l w = None.
Proof.
  intros Hpass fuel. induction fuel as [|fuel IH]; [reflexivity|].
  simpl. now rewrite Hpass.
Qed.

(** More fuel does not change the outcome of a loop that was left. *)
Lemma while_more_fuel {L} (body : L -> M (ctl L)) (k f : nat) (l : L) (w : world)
    (r : result L * world) :
  while f body l w = Some r -> while (f + k) body l w = Some r.
Proof.
  revert l w. induction f as [|f IHf]; intros l w; [discriminate|].
  cbn [while Nat.add]. destruct (body l w) as [[[l1|l1]|e1] w1]; auto.
Qed.

(** A loop whose passes keep an invariant and decrease a variant is
    left within as many passes as the variant allows. *)
Lemma while_variant {L} (body : L -> M (ctl L))
    (Inv : L -> world -> Prop) (variant : L -> world -> nat) :
  (forall l w l' w',
     Inv l w -> body l w = (Ok (Next l'), w') ->
     Inv l' w' /\ (variant l' w' < variant l w)%nat) ->
  forall l w, Inv l w ->
  exists r, while (S (variant l w)) body l w = Some r.
Proof.
  intros Hstep l w.
  remember (variant l w) as n eqn:Hn.
  revert l w Hn. induction n as [n IH] using lt_wf_ind. intros l w Hn Hinv.
  cbn [while].
  destruct (body l w) as [[[l'|l']|e] w'] eqn:Hb; [|eauto..].
  destruct (Hstep l w l' w' Hinv Hb) as [Hinv' Hlt].
  destruct n as [|n]; [lia|].
  destruct (IH (variant l' w') ltac:(lia) l' w' eq_refl Hinv') as [r Hr].
  exists r.
  replace (S n) with (S (variant l' w') + (n - variant l' w'))%nat by lia.
  now apply while_more_fuel.
Qed.

(** ** Scripts/M02_RenderScripts.py: the loop of [batchedRendering] *)

Lemma batched_pass_is_idle `{Host} (pattern : string) (numFrames : Z)
    (s : RenderScripts.BWrapper) (files : list string) (w : world) :
  RenderScripts.fileId s < numFrames ->
  RenderScripts.fileId s < Z.of_nat (length files) ->
  RenderScripts.loop_body pattern numFrames (s, files) w = (Ok (Next (s, files)), w).
Proof.
  intros Hn Hf. unfold RenderScripts.loop_body.
  destruct (Z.leb_spec numFrames (RenderScripts.fileId s)); [lia|].
  destruct (Z.leb_spec (Z.of_nat (length files)) (RenderScripts.fileId s)); [lia|].
  reflexivity.
Qed.

(** C2, the defect. With a target of at least one frame and an input
    folder that holds at least one model file, [batchedRendering] (in
    a scene that has the camera it is given) never leaves its loop: no
    pass changes [s.fileId], which is advanced only after the loop. *)
Theorem batchedRendering_never_returns `{Host}
    (s : RenderScripts.BWrapper) (inFolder : string) (numFrames : Z)
    (cam inModelExt : string) (w : world) :
  is_Some (objects w !! cam) ->
  1 <= numFrames ->
  glob_sorted (path_join inFolder ("*." +:+ inModelExt)) (clock w) <> [] ->
  forall fuel,
    RenderScripts.batchedRendering fuel s inFolder numFrames cam inModelExt w = None.
Proof.
  intros Hcam Hn Hfiles fuel. destruct (objects_getitem_present _ _ Hcam) as [o Ho].
  unfold RenderScripts.batchedRendering, bind, glob. rewrite Ho.
  rewrite while_spins; [reflexivity|].
  apply batched_pass_is_idle; simpl; [lia|].
  destruct (glob_sorted _ _); [contradiction | simpl; lia].
Qed.

(** The defect at a folder of one file and a target of one frame. *)
Lemma batchedRendering_never_returns_witness :
  @RenderScripts.batchedRendering Examples.one_frame_host 1000
    (RenderScripts.MkBWrapper 1 false 0) "data" 1 "Camera" "npy" Examples.bullet_scene
  = None.
Proof.
  apply (@batchedRendering_never_returns Examples.one_frame_host);
    [now eexists | lia | discriminate].
Defined.

(** ** Computations that do not sleep *)

Lemma keeps_clock_ret {A} (x : A) : keeps_clock (ret x).
Proof. intros w. reflexivity. Qed.

Lemma keeps_clock_raise {A} (e : exn) : keeps_clock (@raise A e).
Proof. intros w. reflexivity. Qed.

Lemma keeps_clock_lift {A} (r : result A) : keeps_clock (lift r).
Proof. intros w. reflexivity. Qed.

Lemma keeps_clock_emit (e : event) : keeps_clock (emit e).
Proof. intros w. reflexivity. Qed.

Lemma keeps_clock_render (p : string) : keeps_clock (render p).
Proof. intros w. reflexivity. Qed.

Lemma keeps_clock_bind {A B} (m : M A) (k : A -> M B) :
  keeps_clock m -> (forall x, keeps_clock (k x)) -> keeps_clock (bind m k).
Proof.
  intros Hm Hk w. unfold bind. specialize (Hm w).
  destruct (m w) as [[x|e] w']; simpl in *; [|assumption].
  now rewrite Hk.
Qed.

Lemma keeps_clock_np_load `{Host} (p : string) : keeps_clock (np_load p).
Proof. intros w. unfold np_load. now destruct (disk (clock w) !! p). Qed.

Lemma keeps_clock_path_exists `{Host} (p : string) : keeps_clock (path_exists p).
Proof. intros w. reflexivity. Qed.

Lemma keeps_clock_mesh_vertices (obj : string) : keeps_clock (mesh_vertices obj).
Proof. intros w. unfold mesh_vertices. now destruct (objects w !! obj) as [[?|]|]. Qed.

Lemma keeps_clock_foreach_set_co `{Host} (obj : string) (co : list R) :
  keeps_clock (foreach_set_co obj co).
Proof.
  intros w. unfold foreach_set_co.
  destruct (objects w !! obj) as [[?|]|]; try reflexivity.
  cbv zeta. now destruct (_ <=? _)%nat.
Qed.

Lemma keeps_clock_for_ {A} (l : list A) (body : A -> M unit) :
  (forall x, keeps_clock (body x)) -> keeps_clock (for_ l body).
Proof.
  intros Hb. induction l as [|x l IH]; simpl.
  - apply keeps_clock_ret.
  - apply keeps_clock_bind; auto.
Qed.

Create HintDb clock.
#[export] Hint Resolve keeps_clock_ret keeps_clock_raise keeps_clock_lift
  keeps_clock_emit keeps_clock_render keeps_clock_np_load keeps_clock_path_exists
  keeps_clock_mesh_vertices keeps_clock_foreach_set_co : clock.

(** Splits a computation at its binds and branches. *)
Ltac clock_step :=
  match goal with
  | |- keeps_clock (bind _ _) => apply keeps_clock_bind; [|intros ?]
  | |- keeps_clock (for_ _ _) => apply keeps_clock_for_; intros ?
  | |- keeps_clock (if ?b then _ else _) => destruct b
  | |- keeps_clock (match ?x with _ => _ end) => destruct x
  | |- keeps_clock (let _ := _ in _) => cbv zeta
  | |- keeps_clock _ => solve [auto with clock]
  end.

Lemma keeps_clock_update_mesh_vertices `{Host} (obj : string) (V : ndarray) :
  keeps_clock (Strict.update_mesh_vertices obj V).
Proof. unfold Strict.update_mesh_vertices. repeat clock_step. Qed.

#[export] Hint Resolve keeps_clock_update_mesh_vertices : clock.

Lemma keeps_clock_update_particle_mesh `{Host} (P : ndarray) (sb : MultiPhysics.particle_mesh) :
  keeps_clock (MultiPhysics.update_particle_mesh P sb).
Proof. unfold MultiPhysics.update_particle_mesh. repeat clock_step. Qed.

Lemma keeps_clock_update_rigid_mesh `{Host} (a : MultiPhysics.args) (body_q : ndarray)
    (rb : MultiPhysics.rigid_mesh) :
  keeps_clock (MultiPhysics.update_rigid_mesh a body_q rb).
Proof. unfold MultiPhysics.update_rigid_mesh. repeat clock_step. Qed.

#[export] Hint Resolve keeps_clock_update_particle_mesh
  keeps_clock_update_rigid_mesh : clock.

Lemma keeps_clock_process_frame `{Host} (a : MultiPhysics.args)
    (soft : list MultiPhysics.particle_mesh) (cloth : option MultiPhysics.particle_mesh)
    (rigid : list MultiPhysics.rigid_mesh) (l : MultiPhysics.locals) :
  keeps_clock (MultiPhysics.process_frame a soft cloth rigid l).
Proof. unfold MultiPhysics.process_frame. repeat clock_step. Qed.

(** ** The main loop of Multi-physics/run.py is left *)

(** In batch mode: once the folder holds [startFrame + numFrames]
    frames from some time [T] on. In preview mode: always. *)
Lemma multiphysics_loop_terminates `{Host} (a : MultiPhysics.args)
    (soft : list MultiPhysics.particle_mesh) (cloth : option MultiPhysics.particle_mesh)
    (rigid : list MultiPhysics.rigid_mesh) (T : nat)
    (l : MultiPhysics.locals) (w : world) :
  1 <= MultiPhysics.stride a ->
  (MultiPhysics.preview a = false ->
   forall t, (T <= t)%nat ->
     MultiPhysics.startFrame a + MultiPhysics.numFrames a
     <= Z.of_nat (length (glob_sorted (MultiPhysics.npy_pattern a) t))) ->
  (MultiPhysics.preview a = false ->
   MultiPhysics.npy_files l = glob_sorted (MultiPhysics.npy_pattern a) (clock w)) ->
  exists fuel r,
    while fuel (MultiPhysics.loop_body a soft cloth rigid) l w = Some r.
Proof.
  intros Hstride Henough Hinit.
  set (bound := MultiPhysics.startFrame a + MultiPhysics.numFrames a) in *.
  set (Inv := fun (l : MultiPhysics.locals) (w : world) =>
                MultiPhysics.preview a = false ->
                MultiPhysics.npy_files l
                = glob_sorted (MultiPhysics.npy_pattern a) (clock w)).
  set (variant := fun (l : MultiPhysics.locals) (w : world) =>
                    ((T - clock w) + Z.to_nat (bound - MultiPhysics.fileId l))%nat).
  destruct (while_variant (MultiPhysics.loop_body a soft cloth rigid) Inv variant)
    with (l := l) (w := w) as [r Hr]; [| exact Hinit | eauto].
  clear l w Hinit. intros l w l' w' Hinv.
  unfold MultiPhysics.loop_body. fold bound.
  destruct (Z.ltb_spec (MultiPhysics.fileId l) bound) as [Hlt|Hge]; cbn [negb];
    [|intros [=]].
  destruct (Z.leb_spec (Z.of_nat (length (MultiPhysics.npy_files l)))
                       (MultiPhysics.fileId l)) as [Hshort|Hhave].
  - destruct (MultiPhysics.preview a) eqn:Hprev; [intros [=]|].
    unfold bind, sleep, glob. cbn. intros [= <- <-].
    split; [intros _; reflexivity|].
    unfold variant. cbn.
    assert (clock w < T)%nat; [|lia].
    destruct (Nat.lt_ge_cases (clock w) T) as [|Hlate]; [assumption|].
    specialize (Henough eq_refl (clock w) Hlate).
    rewrite <- (Hinv eq_refl) in Henough. lia.
  - unfold bind at 1.
    pose proof (keeps_clock_process_frame a soft cloth rigid l w) as Hclock.
    destruct (MultiPhysics.process_frame a soft cloth rigid l w) as [[[]|e] w1];
      [|intros [=]].
    unfold ret. intros [= <- <-]. cbn in Hclock.
    split.
    + unfold Inv. cbn. rewrite Hclock. exact Hinv.
    + unfold variant. cbn. rewrite Hclock. lia.
Qed.

(** ** dropingBoxes/render_sequence.py: [frame_exists] and the render loop *)

Lemma frame_exists_in_spec `{Host} (a : DropingBoxes.args)
    (components : list (string * string)) (frame_num : Z) (w : world) :
  DropingBoxes.frame_exists_in a components frame_num w =
  (Ok (forallb (fun item =>
                  bool_decide (is_Some (disk (clock w)
                                          !! DropingBoxes.get_frame_path a (snd item) frame_num)))
               components), w).
Proof.
  induction components as [|[obj_name folder] rest IH]; [reflexivity|].
  cbn [DropingBoxes.frame_exists_in forallb snd].
  unfold bind, path_exists.
  destruct (bool_decide _); cbn [negb andb]; [exact IH | reflexivity].
Qed.

Lemma keeps_clock_load_frame `{Host} (a : DropingBoxes.args) (frame_num : Z)
    (mesh_objs : gmap string string) :
  keeps_clock (DropingBoxes.load_frame a frame_num mesh_objs).
Proof. unfold DropingBoxes.load_frame. repeat clock_step. Qed.

(** The render loop is left once, from some time [T] on, the folder
    holds the six files of each of the [numFrames] frames it is to
    render. *)
Lemma droping_boxes_loop_terminates `{Host} (a : DropingBoxes.args)
    (mesh_objs : gmap string string) (T : nat) (l : DropingBoxes.locals) (w : world) :
  (forall t k item, (T <= t)%nat -> 0 <= k < DropingBoxes.numFrames a ->
     In item DropingBoxes.mesh_components ->
     is_Some (disk t !! DropingBoxes.get_frame_path a (snd item)
                          (DropingBoxes.startFrame a + k * DropingBoxes.stride a))) ->
  DropingBoxes.frame_num l
  = DropingBoxes.startFrame a + DropingBoxes.rendered_count l * DropingBoxes.stride a ->
  0 <= DropingBoxes.rendered_count l ->
  exists fuel r, while fuel (DropingBoxes.loop_body a mesh_objs) l w = Some r.
Proof.
  intros Henough Hfn Hrc.
  set (Inv := fun (l : DropingBoxes.locals) (w : world) =>
                DropingBoxes.frame_num l
                = DropingBoxes.startFrame a
                  + DropingBoxes.rendered_count l * DropingBoxes.stride a
                /\ 0 <= DropingBoxes.rendered_count l).
  set (variant := fun (l : DropingBoxes.locals) (w : world) =>
                    ((T - clock w)
                     + Z.to_nat (DropingBoxes.numFrames a - DropingBoxes.rendered_count l))%nat).
  destruct (while_variant (DropingBoxes.loop_body a mesh_objs) Inv variant)
    with (l := l) (w := w) as [r Hr]; [| now split | eauto].
  clear l w Hfn Hrc. intros l w l' w' [Hfn Hrc].
  unfold DropingBoxes.loop_body.
  destruct (Z.ltb_spec (DropingBoxes.rendered_count l) (DropingBoxes.numFrames a))
    as [Hlt|Hge]; cbn [negb]; [|intros [=]].
  unfold bind at 1. unfold DropingBoxes.frame_exists. rewrite frame_exists_in_spec.
  destruct (forallb _ _) eqn:Hall; cbn [negb].
  - unfold bind at 1.
    pose proof (keeps_clock_load_frame a (DropingBoxes.frame_num l) mesh_objs w) as Hclock.
    destruct (DropingBoxes.load_frame a _ mesh_objs w) as [[[]|e] w1]; [|intros [=]].
    cbn. intros [= <- <-]. cbn in Hclock. split.
    + split; cbn; [rewrite Hfn|]; lia.
    + unfold variant. cbn. rewrite Hclock. lia.
  - cbn. intros [= <- <-]. split; [now split|].
    unfold variant. cbn.
    assert (clock w < T)%nat; [|lia].
    destruct (Nat.lt_ge_cases (clock w) T) as [|Hlate]; [assumption|].
    exfalso. apply Bool.not_true_iff_false in Hall. apply Hall.
    apply forallb_forall. intros item Hin. apply bool_decide_eq_true.
    rewrite Hfn. apply Henough; [assumption | lia | assumption].
Qed.

(** ** Waiting for a frame that is not written yet *)

Lemma slept_0 (w : world) (s : nat) : slept w s 0 = w.
Proof.
  destruct w. unfold slept. cbn. now rewrite app_nil_r.
Qed.

Lemma slept_slept (w : world) (s j k : nat) :
  slept (slept w s j) s k = slept w s (j + k).
Proof.
  unfold slept. cbn. rewrite <- app_assoc, replicate_add. f_equal. lia.
Qed.

Section LoadsPresent.
Context `{Host}.

Lemma loads_present_pure {A} (t : nat) (r : result A) :
  r <> Raise OSError -> loads_present t (lift r).
Proof. intros Hr w Hw. now split. Qed.

Lemma loads_present_ret {A} (t : nat) (x : A) : loads_present t (ret x).
Proof. intros w Hw. now split. Qed.

Lemma loads_present_render (t : nat) (p : string) : loads_present t (render p).
Proof. intros w Hw. now split. Qed.

Lemma loads_present_bind {A B} (t : nat) (m : M A) (k : A -> M B) :
  loads_present t m -> (forall x, loads_present t (k x)) ->
  loads_present t (bind m k).
Proof.
  intros Hm Hk w Hw. unfold bind. destruct (Hm w Hw) as [Hr Hc].
  destruct (m w) as [[x|e] w']; cbn [fst snd] in *; [exact (Hk x w' Hc)|].
  split; [|assumption]. intros [= ->]. now apply Hr.
Qed.

Lemma loads_present_np_load (t : nat) (p : string) :
  is_Some (disk t !! p) -> loads_present t (np_load p).
Proof.
  intros [V HV] w Hw. unfold np_load. rewrite Hw, HV. now split.
Qed.

Lemma loads_present_for_ {A} (t : nat) (l : list A) (body : A -> M unit) :
  (forall x, In x l -> loads_present t (body x)) -> loads_present t (for_ l body).
Proof.
  induction l as [|x l IH]; intros Hb; cbn [for_].
  - apply loads_present_ret.
  - apply loads_present_bind; [apply Hb; now left|].
    intros _. apply IH. intros y Hy. apply Hb. now right.
Qed.

Lemma loads_present_update_mesh_vertices (t : nat) (obj : string) (V : ndarray) :
  loads_present t (Strict.update_mesh_vertices obj V).
Proof.
  intros w Hw. split.
  - unfold Strict.update_mesh_vertices, bind, mesh_vertices, lift, foreach_set_co, raise.
    destruct (_ || _); [discriminate|].
    destruct (objects w !! obj) as [[vs|]|] eqn:Hobj; try discriminate.
    destruct (shape_at V 0) as [n|e] eqn:Hs; cbn.
    + destruct (negb _); [discriminate|]. rewrite Hobj.
      cbv zeta. destruct (_ <=? _)%nat; discriminate.
    + unfold shape_at in Hs. destruct (shape V !! 0%nat); [discriminate|].
      injection Hs as <-. discriminate.
  - rewrite keeps_clock_update_mesh_vertices. exact Hw.
Qed.

Lemma shape_at_not_OSError (V : ndarray) (i : nat) : shape_at V i <> Raise OSError.
Proof. unfold shape_at. destruct (shape V !! i); discriminate. Qed.

Lemma py_getitem_not_OSError {A} (l : list A) (i : Z) : py_getitem l i <> Raise OSError.
Proof.
  unfold py_getitem. destruct (0 <=? _); [|discriminate].
  destruct (l !! _); discriminate.
Qed.

Lemma py_getitem_In {A} (l : list A) (i : Z) (x : A) :
  py_getitem l i = Ok x -> In x l.
Proof.
  unfold py_getitem. destruct (0 <=? _); [|discriminate].
  destruct (l !! _) as [y|] eqn:E; [|discriminate].
  intros [= <-]. apply list_elem_of_In. eapply list_elem_of_lookup_2; eassumption.
Qed.

Lemma slice0_not_OSError (V : ndarray) (lo hi : option Z) :
  slice0 V lo hi <> Raise OSError.
Proof. unfold slice0. destruct (shape V); discriminate. Qed.

End LoadsPresent.

(** *** dropingBoxes *)

Lemma droping_boxes_absent_pass `{Host} (a : DropingBoxes.args)
    (mesh_objs : gmap string string) (l : DropingBoxes.locals) (w : world) :
  DropingBoxes.rendered_count l < DropingBoxes.numFrames a ->
  fst (DropingBoxes.frame_exists a (DropingBoxes.frame_num l) w) = Ok false ->
  DropingBoxes.loop_body a mesh_objs l w = (Ok (Next l), slept w 60 1).
Proof.
  intros Hlt Habs. unfold DropingBoxes.loop_body.
  destruct (Z.ltb_spec (DropingBoxes.rendered_count l) (DropingBoxes.numFrames a));
    [|lia]. cbn [negb].
  unfold bind at 1. unfold DropingBoxes.frame_exists in *.
  rewrite frame_exists_in_spec in Habs |- *. revert Habs.
  destruct (forallb _ _); [discriminate | intros _; reflexivity].
Qed.

Lemma droping_boxes_retries `{Host} (a : DropingBoxes.args)
    (mesh_objs : gmap string string) (l : DropingBoxes.locals) (w : world) (k : nat) :
  DropingBoxes.rendered_count l < DropingBoxes.numFrames a ->
  (forall j, (j < k)%nat ->
     fst (DropingBoxes.frame_exists a (DropingBoxes.frame_num l) (slept w 60 j))
     = Ok false) ->
  passes k (DropingBoxes.loop_body a mesh_objs) l w = Some (l, slept w 60 k).
Proof.
  intros Hlt. revert w. induction k as [|k IH]; intros w Habs.
  - cbn. now rewrite slept_0.
  - cbn [passes]. rewrite droping_boxes_absent_pass; [|assumption|].
    + rewrite IH; [now rewrite slept_slept|].
      intros j Hj. rewrite slept_slept. apply Habs. lia.
    + specialize (Habs 0%nat ltac:(lia)). now rewrite slept_0 in Habs.
Qed.

Lemma droping_boxes_pass_loads_present `{Host} (a : DropingBoxes.args)
    (mesh_objs : gmap string string) (l : DropingBoxes.locals) (w : world) :
  fst (DropingBoxes.loop_body a mesh_objs l w) <> Raise OSError.
Proof.
  unfold DropingBoxes.loop_body.
  destruct (negb _); [discriminate|].
  unfold bind at 1. unfold DropingBoxes.frame_exists. rewrite frame_exists_in_spec.
  destruct (forallb _ _) eqn:Hall; cbn [negb]; [|discriminate].
  assert (Hload : loads_present (clock w)
                    (DropingBoxes.load_frame a (DropingBoxes.frame_num l) mesh_objs)).
  { unfold DropingBoxes.load_frame. apply loads_present_for_. intros item Hin.
    apply loads_present_bind.
    - apply loads_present_np_load.
      rewrite forallb_forall in Hall. specialize (Hall item Hin).
      now apply bool_decide_eq_true in Hall.
    - intros V. destruct (mesh_objs !! item.1).
      + apply loads_present_update_mesh_vertices.
      + intros w1 Hw1. now split. }
  destruct (Hload w eq_refl) as [Hr _]. unfold bind at 1.
  destruct (DropingBoxes.load_frame a _ mesh_objs w) as [[[]|e] w1];
    cbn [fst] in Hr |- *; [discriminate|].
  intros [= ->]. now apply Hr.
Qed.

Lemma while_never_raises {L} (body : L -> M (ctl L)) (e : exn) :
  (forall l w, fst (body l w) <> Raise e) ->
  forall fuel l w r w', while fuel body l w = Some (r, w') -> r <> Raise e.
Proof.
  intros Hb fuel. induction fuel as [|fuel IH]; intros l w r w'; [discriminate|].
  cbn [while]. specialize (Hb l w).
  destruct (body l w) as [[[l1|l1]|e1] w1]; cbn in Hb.
  - apply IH.
  - intros [= <- <-]. discriminate.
  - intros [= <- <-] [= ->]. now apply Hb.
Qed.

Lemma while_invariant_never_raises {L} (body : L -> M (ctl L)) (e : exn)
    (Inv : L -> world -> Prop) :
  (forall l w, Inv l w ->
     fst (body l w) <> Raise e /\
     forall l' w', body l w = (Ok (Next l'), w') -> Inv l' w') ->
  forall fuel l w r w',
    Inv l w -> while fuel body l w = Some (r, w') -> r <> Raise e.
Proof.
  intros Hb fuel. induction fuel as [|fuel IH]; intros l w r w' Hinv; [discriminate|].
  cbn [while]. destruct (Hb l w Hinv) as [Hne Hnext].
  destruct (body l w) as [[[l1|l1]|e1] w1]; cbn [fst] in Hne.
  - apply IH. now apply Hnext.
  - intros [= <- <-]. discriminate.
  - intros [= <- <-] [= ->]. now apply Hne.
Qed.

(** *** Twist_release and unroll *)

Lemma single_mesh_absent_pass `{Host} (c : SingleMesh.config) (obj : string)
    (l : SingleMesh.locals) (w : world) :
  SingleMesh.fileId l < SingleMesh.numFrames c ->
  Z.of_nat (length (SingleMesh.npy_files l)) <= SingleMesh.fileId l ->
  SingleMesh.loop_body c obj l w
  = (Ok (Next (rescanned c l w 1)), slept w (SingleMesh.wait_seconds c) 1).
Proof.
  intros Hlt Hshort. unfold SingleMesh.loop_body.
  destruct (Z.ltb_spec (SingleMesh.fileId l) (SingleMesh.numFrames c)); [|lia].
  destruct (Z.leb_spec (Z.of_nat (length (SingleMesh.npy_files l)))
                       (SingleMesh.fileId l)); [|lia].
  reflexivity.
Qed.

Lemma single_mesh_retries `{Host} (c : SingleMesh.config) (obj : string)
    (l : SingleMesh.locals) (w : world) (k : nat) :
  SingleMesh.fileId l < SingleMesh.numFrames c ->
  ((0 < k)%nat ->
   Z.of_nat (length (SingleMesh.npy_files l)) <= SingleMesh.fileId l) ->
  (forall j, (1 <= j < k)%nat ->
     Z.of_nat (length (glob_sorted (SingleMesh.npy_pattern c) (j + clock w)))
     <= SingleMesh.fileId l) ->
  passes k (SingleMesh.loop_body c obj) l w
  = Some (rescanned c l w k, slept w (SingleMesh.wait_seconds c) k).
Proof.
  revert l w. induction k as [|k IH]; intros l w Hlt Hnow Hlater.
  - cbn. now rewrite slept_0.
  - cbn [passes]. rewrite single_mesh_absent_pass; [|assumption | apply Hnow; lia].
    rewrite IH.
    + rewrite slept_slept. f_equal. f_equal.
      destruct k as [|k]; [reflexivity|].
      unfold rescanned. cbn [SingleMesh.fileId slept clock].
      do 2 f_equal. lia.
    + exact Hlt.
    + intros Hk. cbn. apply (Hlater 1%nat). lia.
    + intros j Hj. cbn [slept clock]. cbn [SingleMesh.fileId rescanned].
      replace (j + (1 + clock w))%nat with (S j + clock w)%nat by lia.
      apply Hlater. lia.
Qed.

Lemma single_mesh_pass_loads_present `{Host} (c : SingleMesh.config) (obj : string)
    (l : SingleMesh.locals) (w : world) :
  (forall pattern t p, In p (glob_sorted pattern t) -> is_Some (disk t !! p)) ->
  (forall p, In p (SingleMesh.npy_files l) -> is_Some (disk (clock w) !! p)) ->
  fst (SingleMesh.loop_body c obj l w) <> Raise OSError /\
  forall l' w', SingleMesh.loop_body c obj l w = (Ok (Next l'), w') ->
    forall p, In p (SingleMesh.npy_files l') -> is_Some (disk (clock w') !! p).
Proof.
  intros Hglob Hinv. unfold SingleMesh.loop_body.
  destruct (negb _); [split; [discriminate | intros ? ? [=]]|].
  destruct (_ <=? _).
  - split; [discriminate|]. cbn. intros l' w' [= <- <-]. cbn. intros p. apply Hglob.
  - set (work := fun npy_path : string =>
                   V <- SingleMesh.load_vertices c npy_path ;;
                   Strict.update_mesh_vertices obj V ;;;
                   render (path_join (SingleMesh.outPath c)
                                     (path_stem npy_path +:+ ".png")) ;;;
                   ret (Next (SingleMesh.Locals (SingleMesh.fileId l + SingleMesh.stride c)
                                                (SingleMesh.npy_files l)))).
    change (fst (bind (lift (py_getitem (SingleMesh.npy_files l) (SingleMesh.fileId l)))
                      work w) <> Raise OSError /\
            forall l' w',
              bind (lift (py_getitem (SingleMesh.npy_files l) (SingleMesh.fileId l)))
                   work w = (Ok (Next l'), w') ->
              forall p, In p (SingleMesh.npy_files l') -> is_Some (disk (clock w') !! p)).
    unfold bind at 1 2, lift.
    destruct (py_getitem _ _) as [npy_path|e] eqn:Hget.
    + assert (Hwork : loads_present (clock w) (work npy_path)).
      { unfold work, SingleMesh.load_vertices.
        apply py_getitem_In in Hget. pose proof (Hinv _ Hget) as Hpresent.
        repeat first
          [ apply loads_present_bind; [|intros ?]
          | apply loads_present_np_load; assumption
          | apply loads_present_update_mesh_vertices
          | apply loads_present_render
          | apply loads_present_ret ].
        destruct (SingleMesh.skip_rows c);
          [apply loads_present_pure, slice0_not_OSError | apply loads_present_ret]. }
      destruct (Hwork w eq_refl) as [Hr Hc]. split; [exact Hr|].
      intros l' w' Hrun. rewrite Hrun in Hc. cbn [snd] in Hc. rewrite Hc.
      assert (Hfiles : SingleMesh.npy_files l' = SingleMesh.npy_files l).
      { revert Hrun. unfold work, bind.
        destruct (SingleMesh.load_vertices c npy_path w) as [[V|?] w1]; [|intros [=]].
        destruct (Strict.update_mesh_vertices obj V w1) as [[[]|?] w2]; [|intros [=]].
        cbn. now intros [= <- <-]. }
      rewrite Hfiles. exact Hinv.
    + split; [cbn; intros [= ->]; now apply (py_getitem_not_OSError _ _ Hget)|].
      intros ? ? [=].
Qed.

(** C5. While the next expected frame is absent, every pass of the
    render loop sleeps the same fixed time and looks at the folder
    again, and leaves the frame counter and the scene as they are. This
    goes on for any number [k] of passes: there is no bound on the
    retries and no backoff. In dropingBoxes the frame is looked for by
    [frame_exists] (sleeps of 60 seconds); in Twist_release and unroll
    by listing the folder again (sleeps of 360 seconds). No pass of
    either loop loads a file that is not on the disk: [np.load] never
    fails with a missing file. *)
Theorem wait_and_retry `{Host} :
  (forall a mesh_objs l w k,
     DropingBoxes.rendered_count l < DropingBoxes.numFrames a ->
     (forall j, (j < k)%nat ->
        fst (DropingBoxes.frame_exists a (DropingBoxes.frame_num l) (slept w 60 j))
        = Ok false) ->
     passes k (DropingBoxes.loop_body a mesh_objs) l w = Some (l, slept w 60 k)) /\
  (forall a mesh_objs fuel l w r w',
     while fuel (DropingBoxes.loop_body a mesh_objs) l w = Some (r, w') ->
     r <> Raise OSError) /\
  (forall c obj l w k,
     SingleMesh.fileId l < SingleMesh.numFrames c ->
     ((0 < k)%nat ->
      Z.of_nat (length (SingleMesh.npy_files l)) <= SingleMesh.fileId l) ->
     (forall j, (1 <= j < k)%nat ->
        Z.of_nat (length (glob_sorted (SingleMesh.npy_pattern c) (j + clock w)))
        <= SingleMesh.fileId l) ->
     passes k (SingleMesh.loop_body c obj) l w
     = Some (rescanned c l w k, slept w (SingleMesh.wait_seconds c) k)) /\
  ((forall pattern t p, In p (glob_sorted pattern t) -> is_Some (disk t !! p)) ->
   forall c obj fuel l w r w',
     (forall p, In p (SingleMesh.npy_files l) -> is_Some (disk (clock w) !! p)) ->
     while fuel (SingleMesh.loop_body c obj) l w = Some (r, w') ->
     r <> Raise OSError) /\
  SingleMesh.wait_seconds TwistRelease.config = 360%nat /\
  (forall a, SingleMesh.wait_seconds (Unroll.config a) = 360%nat).
Proof.
  split; [|split; [|split; [|split; [|split]]]].
  - intros a mesh_objs l w k. apply droping_boxes_retries.
  - intros a mesh_objs.
    apply (while_never_raises (DropingBoxes.loop_body a mesh_objs) OSError).
    apply droping_boxes_pass_loads_present.
  - intros c obj l w k. apply single_mesh_retries.
  - intros Hglob c obj fuel l w r w'.
    apply (while_invariant_never_raises
             (SingleMesh.loop_body c obj) OSError
             (fun l w => forall p, In p (SingleMesh.npy_files l) ->
                                   is_Some (disk (clock w) !! p))).
    intros l0 w0. now apply single_mesh_pass_loads_present.
  - reflexivity.
  - reflexivity.
Qed.

(** The waiting passes on a folder that stays empty: five retries of
    dropingBoxes, three of Twist_release. *)
Example wait_and_retry_on_empty_folder :
  passes 5 (@DropingBoxes.loop_body Examples.empty_host
              (DropingBoxes.Args "data" None 2 1 0) ∅)
         (DropingBoxes.Locals 0 0) Examples.empty_scene
  = Some (DropingBoxes.Locals 0 0, slept Examples.empty_scene 60 5) /\
  passes 3 (@SingleMesh.loop_body Examples.empty_host TwistRelease.config "initial_mesh")
         (SingleMesh.Locals 0 []) Examples.empty_scene
  = Some (SingleMesh.Locals 0 [], slept Examples.empty_scene 360 3).
Proof. split; reflexivity. Qed.

(** ** Decimal digits *)

Lemma usize_nb_digits (d : Decimal.uint) :
  DecimalPos.Unsigned.usize d = N.of_nat (Decimal.nb_digits d).
Proof.
  induction d; cbn [DecimalPos.Unsigned.usize Decimal.nb_digits];
    rewrite ?IHd, ?Nat2N.inj_succ; reflexivity.
Qed.

(** A numeral whose first digit is not 0 is at least the power of ten
    of its other digits. *)
Lemma of_uint_lower_bound (d : Decimal.uint) :
  d <> Decimal.Nil -> (forall d', d <> Decimal.D0 d') ->
  (10 ^ N.of_nat (Decimal.nb_digits d - 1) <= N.of_uint d)%N.
Proof.
  intros Hnil Hzero. unfold N.of_uint. rewrite DecimalPos.Unsigned.of_uint_alt.
  destruct d as [|d|d|d|d|d|d|d|d|d|d];
    [contradiction | exfalso; now apply (Hzero d) | ..];
    unfold Decimal.rev; cbn [Decimal.revapp Decimal.nb_digits];
    rewrite DecimalPos.Unsigned.of_lu_revapp, usize_nb_digits, Nat.sub_succ, Nat.sub_0_r;
    cbn [DecimalPos.Unsigned.of_lu];
    set (p := (10 ^ N.of_nat (Decimal.nb_digits d))%N);
    set (r := DecimalPos.Unsigned.of_lu (Decimal.revapp d Decimal.Nil)); lia.
Qed.

Lemma to_uint_first_digit (n : N) (d' : Decimal.uint) :
  n <> 0%N -> N.to_uint n <> Decimal.D0 d'.
Proof.
  intros Hn Hd. destruct n as [|p]; [contradiction|]. cbn in Hd.
  pose proof (DecimalPos.Unsigned.to_of (Pos.to_uint p)) as Hnorm.
  rewrite DecimalPos.Unsigned.of_to in Hnorm. cbn in Hnorm.
  rewrite Hd in Hnorm. rewrite DecimalFacts.unorm_D0 in Hnorm.
  unfold Decimal.unorm in Hnorm.
  destruct (Decimal.nzhead d') eqn:Hh; try discriminate.
  - injection Hnorm as Hd'. subst d'.
    apply (DecimalPos.Unsigned.to_uint_nonzero p). exact Hd.
  - apply (DecimalFacts.nzhead_nonzero d' d'). congruence.
Qed.

Lemma nb_digits_to_uint_pos (n : N) : (1 <= Decimal.nb_digits (N.to_uint n))%nat.
Proof.
  destruct n as [|p]; [cbn; lia|]. cbn.
  pose proof (DecimalPos.Unsigned.to_uint_nonnil p) as Hn.
  destruct (Pos.to_uint p); [contradiction | cbn; lia ..].
Qed.

(** A number below [10^k] has at most [k] digits. *)
Lemma nb_digits_bound (n : N) (k : nat) :
  (1 <= k)%nat -> (n < 10 ^ N.of_nat k)%N ->
  (Decimal.nb_digits (N.to_uint n) <= k)%nat.
Proof.
  intros Hk Hn. destruct (N.eq_dec n 0%N) as [->|Hn0]; [cbn; lia|].
  pose proof (of_uint_lower_bound (N.to_uint n)) as Hlow.
  rewrite DecimalN.Unsigned.of_to in Hlow.
  assert (Hnn : N.to_uint n <> Decimal.Nil).
  { pose proof (nb_digits_to_uint_pos n). intros E. rewrite E in *. cbn in *. lia. }
  specialize (Hlow Hnn (fun d' => to_uint_first_digit n d' Hn0)).
  assert (Hpow : (10 ^ N.of_nat (Decimal.nb_digits (N.to_uint n) - 1)
                  < 10 ^ N.of_nat k)%N) by lia.
  apply N.pow_lt_mono_r_iff in Hpow; lia.
Qed.

Lemma of_uint_iter_D0 (k : nat) (d : Decimal.uint) :
  N.of_uint (Nat.iter k Decimal.D0 d) = N.of_uint d.
Proof. induction k as [|k IH]; [reflexivity|]. cbn [Nat.iter]. exact IH. Qed.

Lemma string_of_uint_iter_D0 (k : nat) (d : Decimal.uint) :
  NilEmpty.string_of_uint (Nat.iter k Decimal.D0 d)
  = zeros k +:+ NilEmpty.string_of_uint d.
Proof.
  induction k as [|k IH]; [reflexivity|].
  change (NilEmpty.string_of_uint (Nat.iter (S k) Decimal.D0 d))
    with (String "0"%char (NilEmpty.string_of_uint (Nat.iter k Decimal.D0 d))).
  now rewrite IH.
Qed.

Lemma length_string_of_uint (d : Decimal.uint) :
  String.length (NilEmpty.string_of_uint d) = Decimal.nb_digits d.
Proof. induction d; cbn; congruence. Qed.

Lemma length_zero_padded (width : nat) (n : N) :
  Decimal.nb_digits (zero_padded width n)
  = Nat.max width (Decimal.nb_digits (N.to_uint n)).
Proof.
  unfold zero_padded. rewrite DecimalFacts.nb_digits_iter_D0. lia.
Qed.

(** [f"{n:06d}"] for a frame number [n >= 0]: at least six characters
    and exactly six below a million, zeros in front of the decimal
    digits of [n], and read back as [n]. *)
Lemma format_06d_spec (n : Z) :
  0 <= n ->
  String.length (format_06d n)
  = Nat.max 6 (Decimal.nb_digits (N.to_uint (Z.to_N n))) /\
  (n < 10 ^ 6 -> String.length (format_06d n) = 6%nat) /\
  format_06d n
  = zeros (6 - Decimal.nb_digits (N.to_uint (Z.to_N n)))
    +:+ NilEmpty.string_of_uint (N.to_uint (Z.to_N n)) /\
  exists d, NilEmpty.uint_of_string (format_06d n) = Some d /\
            Z.of_N (N.of_uint d) = n.
Proof.
  intros Hn. unfold format_06d.
  destruct (Z.ltb_spec n 0) as [|_]; [lia|].
  rewrite length_string_of_uint, length_zero_padded.
  split; [reflexivity|]. split; [|split].
  - intros Hlt.
    assert (Decimal.nb_digits (N.to_uint (Z.to_N n)) <= 6)%nat; [|lia].
    apply nb_digits_bound; [lia|]. change (N.of_nat 6) with 6%N. lia.
  - unfold zero_padded. apply string_of_uint_iter_D0.
  - exists (zero_padded 6 (Z.to_N n)). split; [apply NilEmpty.usu|].
    unfold zero_padded. rewrite of_uint_iter_D0, DecimalN.Unsigned.of_to. lia.
Qed.

(** ** dropingBoxes: frame paths and [frame_exists] *)

Lemma frame_exists_spec `{Host} (a : DropingBoxes.args) (n : Z) (w : world) :
  exists b, DropingBoxes.frame_exists a n w = (Ok b, w) /\
    (b = true <->
     forall c, In c (map snd DropingBoxes.mesh_components) ->
       is_Some (disk (clock w) !! DropingBoxes.get_frame_path a c n)).
Proof.
  unfold DropingBoxes.frame_exists. rewrite frame_exists_in_spec.
  eexists. split; [reflexivity|].
  rewrite forallb_forall. split.
  - intros Hall c Hc. apply in_map_iff in Hc as [item [<- Hin]].
    specialize (Hall item Hin). now apply bool_decide_eq_true in Hall.
  - intros Hall item Hin. apply bool_decide_eq_true. apply Hall.
    now apply in_map.
Qed.

(** C8. For a frame number [n >= 0] and a component folder [c] the
    expected file is [join(inFolder, c, "frame_<n>.npy")] with [n]
    written in decimal and zero-padded to six digits, and
    [frame_exists(n)] is [True] exactly when that file is there for
    each of the six component folders. *)
Theorem frame_path_and_existence `{Host} (a : DropingBoxes.args) (n : Z) (w : world) :
  0 <= n ->
  (forall c,
     DropingBoxes.get_frame_path a c n
     = path_join (path_join (DropingBoxes.inFolder a) c)
                 ("frame_" +:+ format_06d n +:+ ".npy")) /\
  (String.length (format_06d n)
   = Nat.max 6 (Decimal.nb_digits (N.to_uint (Z.to_N n))) /\
   (n < 10 ^ 6 -> String.length (format_06d n) = 6%nat) /\
   format_06d n
   = zeros (6 - Decimal.nb_digits (N.to_uint (Z.to_N n)))
     +:+ NilEmpty.string_of_uint (N.to_uint (Z.to_N n)) /\
   exists d, NilEmpty.uint_of_string (format_06d n) = Some d /\
             Z.of_N (N.of_uint d) = n) /\
  map snd DropingBoxes.mesh_components
  = ["box1"; "box2"; "box3"; "box4"; "cloth1"; "cloth2"] /\
  exists b, DropingBoxes.frame_exists a n w = (Ok b, w) /\
    (b = true <->
     forall c, In c (map snd DropingBoxes.mesh_components) ->
       is_Some (disk (clock w) !! DropingBoxes.get_frame_path a c n)).
Proof.
  intros Hn. split; [reflexivity|]. split; [now apply format_06d_spec|].
  split; [reflexivity|]. apply frame_exists_spec.
Qed.

(** C8 at frame 42 of the folder [data], with POSIX paths. *)
Lemma frame_path_and_existence_witness :
  @DropingBoxes.get_frame_path Examples.one_frame_host
     (DropingBoxes.Args "data" None 800 1 0) "box1" 42
  = "data/box1/frame_000042.npy" /\
  String.length (format_06d 42) = 6%nat /\
  fst (@DropingBoxes.frame_exists Examples.one_frame_host
         (DropingBoxes.Args "data" None 800 1 0) 42 Examples.bullet_scene)
  = Ok false.
Proof.
  pose proof (@frame_path_and_existence Examples.one_frame_host
                (DropingBoxes.Args "data" None 800 1 0) 42 Examples.bullet_scene
                ltac:(lia)) as [Hpath [[_ [Hlen _]] _]].
  split; [rewrite Hpath; reflexivity|]. split; [apply Hlen; lia | reflexivity].
Defined.

(** ** Slices of frames *)

Lemma slice_bound_le (n : nat) (b : Z) : (slice_bound n b <= n)%nat.
Proof. unfold slice_bound. destruct (Z.ltb_spec b 0); lia. Qed.

Lemma slice_bound_in_range (n : nat) (b : Z) :
  0 <= b <= Z.of_nat n -> slice_bound n b = Z.to_nat b.
Proof. intros Hb. unfold slice_bound. destruct (Z.ltb_spec b 0); lia. Qed.

(** A slice of an (N,3) array is the array of the rows in the range. *)
Lemma slice0_rows3 (V : ndarray) (N : nat) (start stop : option Z) :
  shape V = [N; 3%nat] ->
  exists V',
    slice0 V start stop = Ok V' /\
    shape V' = [(slice_hi N stop - slice_lo N start)%nat; 3%nat] /\
    rows3 V' = take (slice_hi N stop - slice_lo N start)
                    (drop (slice_lo N start) (rows3 V)) /\
    (wf_array V -> wf_array V').
Proof.
  intros Hs. unfold slice0. rewrite Hs. eexists. split; [reflexivity|].
  cbn [shape data size_of fold_right]. rewrite Nat.mul_1_r.
  split; [reflexivity|]. split.
  - unfold rows3. cbn [data]. now rewrite triples_take, triples_drop.
  - unfold wf_array. rewrite Hs. cbn [shape data size_of fold_right].
    intros Hwf. rewrite length_take, length_drop, Hwf.
    assert (slice_hi N stop <= N)%nat
      by (destruct stop; cbn; [apply slice_bound_le | lia]).
    lia.
Qed.

(** ** unroll: the collider rows *)

Lemma unroll_load_vertices `{Host} (a : Unroll.args) (path : string) (F : ndarray)
    (N : nat) (w : world) :
  disk (clock w) !! path = Some F ->
  wf_array F ->
  shape F = [N; 3%nat] ->
  exists V,
    SingleMesh.load_vertices (Unroll.config a) path w = (Ok V, w) /\
    shape V = [(N - 66)%nat; 3%nat] /\
    rows3 V = drop 66 (rows3 F) /\
    wf_array V.
Proof.
  intros Hfile HwfF Hs.
  destruct (slice0_rows3 F N (Some 66) None Hs) as [V [Hslice [HsV [Hrows Hwf]]]].
  exists V. unfold SingleMesh.load_vertices, bind, np_load. rewrite Hfile.
  cbn [SingleMesh.skip_rows Unroll.config]. unfold lift. rewrite Hslice.
  split; [reflexivity|].
  assert (Hlo : slice_lo N (Some 66) = Nat.min 66 N).
  { unfold slice_lo, slice_bound. destruct (Z.ltb_spec 66 0); lia. }
  cbn [slice_hi] in *. rewrite Hlo in *.
  split; [rewrite HsV; f_equal; lia|]. split; [|now apply Hwf].
  rewrite Hrows. pose proof (length_rows3 F N HwfF Hs) as Hlen.
  rewrite take_ge by (rewrite length_drop; lia).
  destruct (Nat.le_gt_cases 66 N); [now rewrite Nat.min_l by lia|].
  rewrite Nat.min_r by lia. now rewrite !drop_ge by lia.
Qed.

(** One pass of the unroll loop over a frame that is there. *)
Lemma unroll_pass `{Host} (a : Unroll.args) (obj : string) (l : SingleMesh.locals)
    (path : string) (F : ndarray) (N : nat) (vs : list vec3) (w : world) :
  SingleMesh.fileId l < Unroll.numFrames a ->
  py_getitem (SingleMesh.npy_files l) (SingleMesh.fileId l) = Ok path ->
  SingleMesh.fileId l < Z.of_nat (length (SingleMesh.npy_files l)) ->
  disk (clock w) !! path = Some F ->
  wf_array F ->
  shape F = [N; 3%nat] ->
  objects w !! obj = Some (MeshData vs) ->
  SingleMesh.loop_body (Unroll.config a) obj l w
  = if decide (length vs = (N - 66)%nat)
    then (Ok (Next (SingleMesh.Locals (SingleMesh.fileId l + Unroll.stride a)
                                      (SingleMesh.npy_files l))),
          add_event (set_mesh w obj (map float32_vec (drop 66 (rows3 F))))
                    (EvRender (path_join (SingleMesh.outPath (Unroll.config a))
                                         (path_stem path +:+ ".png"))))
    else (Raise ValueError, w).
Proof.
  intros Hlt Hget Hhave Hfile HwfF Hs Hobj.
  unfold SingleMesh.loop_body. cbn [SingleMesh.numFrames Unroll.config].
  destruct (Z.ltb_spec (SingleMesh.fileId l) (Unroll.numFrames a)); [|lia].
  destruct (Z.leb_spec (Z.of_nat (length (SingleMesh.npy_files l)))
                       (SingleMesh.fileId l)); [lia|].
  cbn [negb]. unfold bind at 1. unfold lift at 1. rewrite Hget.
  destruct (unroll_load_vertices a path F N w Hfile HwfF Hs)
    as [V [Hload [HsV [Hrows HwfV]]]].
  unfold bind at 1. rewrite Hload. unfold bind at 1.
  destruct (decide (length vs = (N - 66)%nat)) as [Heq|Hne].
  - rewrite (strict_update_accept obj V w vs Hobj HwfV) by (now rewrite HsV, Heq).
    rewrite rows3_astype_float32, Hrows. reflexivity.
  - rewrite (strict_update_reject obj V w vs Hobj); [reflexivity|].
    rewrite HsV. intros [= E]. lia.
Qed.

(** C9. In the unroll renderer a pass over a frame of N >= 66 rows
    drops the first 66 rows (the collider) and writes the rows from 66
    on, in single precision, to the target mesh; the update is accepted
    exactly when the mesh has 66 vertices fewer than the frame has
    rows, and raises [ValueError] with the scene untouched otherwise. *)
Theorem unroll_skips_collider_rows `{Host} (a : Unroll.args) (obj : string)
    (l : SingleMesh.locals) (path : string) (F : ndarray) (N : nat)
    (vs : list vec3) (w : world) :
  SingleMesh.fileId l < Unroll.numFrames a ->
  SingleMesh.fileId l < Z.of_nat (length (SingleMesh.npy_files l)) ->
  py_getitem (SingleMesh.npy_files l) (SingleMesh.fileId l) = Ok path ->
  disk (clock w) !! path = Some F ->
  wf_array F ->
  shape F = [N; 3%nat] ->
  (66 <= N)%nat ->
  objects w !! obj = Some (MeshData vs) ->
  (N = (length vs + 66)%nat ->
   SingleMesh.loop_body (Unroll.config a) obj l w
   = (Ok (Next (SingleMesh.Locals (SingleMesh.fileId l + Unroll.stride a)
                                  (SingleMesh.npy_files l))),
      add_event (set_mesh w obj (map float32_vec (drop 66 (rows3 F))))
                (EvRender (path_join (SingleMesh.outPath (Unroll.config a))
                                     (path_stem path +:+ ".png"))))) /\
  (N <> (length vs + 66)%nat ->
   SingleMesh.loop_body (Unroll.config a) obj l w = (Raise ValueError, w)).
Proof.
  intros Hlt Hhave Hget Hfile Hwf Hs HN Hobj.
  rewrite (unroll_pass a obj l path F N vs w Hlt Hget Hhave Hfile Hwf Hs Hobj).
  split; intros HNvs; destruct (decide _) as [E|E]; try reflexivity; lia.
Qed.

(** C9 on a frame of 67 rows and a mesh of one vertex. *)
Lemma unroll_skips_collider_rows_witness :
  @SingleMesh.loop_body Examples.unroll_host (Unroll.config Examples.unroll_args)
     "initial_cloth" (SingleMesh.Locals 0 ["data/frame_000000.npy"])
     Examples.unroll_scene
  = (Ok (Next (SingleMesh.Locals 1 ["data/frame_000000.npy"])),
     add_event (set_mesh Examples.unroll_scene "initial_cloth"
                         (map (@float32_vec Examples.unroll_host)
                              (drop 66 (rows3 Examples.unroll_frame))))
               (EvRender "data/Rendering_subdiv/frame_000000.png")).
Proof.
  apply (@unroll_skips_collider_rows Examples.unroll_host Examples.unroll_args
           "initial_cloth" (SingleMesh.Locals 0 ["data/frame_000000.npy"])
           "data/frame_000000.npy" Examples.unroll_frame 67 [(0, 0, 0)%R]
           Examples.unroll_scene);
    [reflexivity | reflexivity | reflexivity | reflexivity
    | apply wf_of_rows3 | reflexivity | lia | reflexivity | reflexivity].
Defined.

(** ** Multi-physics: soft bodies and cloth *)

















(** ** Multi-physics: rigid bodies *)






(** ** cloth_drop: interpolated frames *)

Lemma broadcast_rev_same (s : list nat) : broadcast_rev s s = Some s.
Proof.
  induction s as [|m s IH]; [reflexivity|].
  cbn [broadcast_rev]. now rewrite IH, Nat.eqb_refl.
Qed.

Lemma broadcast_shapes_same (s : list nat) : broadcast_shapes s s = Some s.
Proof. unfold broadcast_shapes. now rewrite broadcast_rev_same, rev_involutive. Qed.

Lemma pad_shape_same (s : list nat) : pad_shape (length s) s = s.
Proof. unfold pad_shape. now rewrite Nat.sub_diag. Qed.

Lemma flat_map_chunks (c : nat) (f : list R -> list R) (d : list R) (m k : nat) :
  (forall l, length l = c -> f l = l) ->
  ((k + m) * c <= length d)%nat ->
  flat_map (fun i => f (take c (drop (i * c) d))) (seq k m)
  = take (m * c) (drop (k * c) d).
Proof.
  intros Hf. revert k. induction m as [|m IH]; intros k Hlen; [reflexivity|].
  cbn [seq flat_map]. rewrite IH by lia.
  rewrite Hf by (rewrite length_take, length_drop; nia).
  replace (S m * c)%nat with (c + m * c)%nat by lia.
  rewrite <- (take_take_drop (drop (k * c) d) c (m * c)).
  rewrite drop_drop. do 3 f_equal. lia.
Qed.

Lemma flat_map_agree {A B} (f g : A -> list B) (l : list A) :
  (forall x, In x l -> f x = g x) -> flat_map f l = flat_map g l.
Proof.
  induction l as [|x l IH]; intros Hfg; [reflexivity|].
  cbn [flat_map]. rewrite (Hfg x) by now left.
  rewrite IH; [reflexivity|]. intros y Hy. apply Hfg. now right.
Qed.

(** An array read at its own shape is the array. *)
Lemma broadcast_data_same (s : list nat) (d : list R) :
  length d = size_of s -> broadcast_data s s d = d.
Proof.
  revert d. induction s as [|m s IH]; intros d Hlen; [reflexivity|].
  cbn [broadcast_data]. cbv zeta. cbn [size_of fold_right] in Hlen.
  fold (size_of s) in Hlen.
  transitivity (flat_map (fun i => broadcast_data s s (take (size_of s) (drop (i * size_of s) d)))
                         (seq 0 m)).
  { apply flat_map_agree. intros i Hi%in_seq.
    destruct (Nat.eqb_spec m 1) as [->|_]; [|reflexivity].
    replace i with 0%nat by lia. reflexivity. }
  rewrite (flat_map_chunks (size_of s) (broadcast_data s s) d m 0 IH) by lia.
  cbn [Nat.mul drop]. rewrite <- Hlen. apply firstn_all.
Qed.

Lemma zip_with_map_map {A B C D E} (f : C -> D -> E) (g : A -> C) (h : B -> D)
    (l1 : list A) (l2 : list B) :
  zip_with f (map g l1) (map h l2) = zip_with (fun x y => f (g x) (h y)) l1 l2.
Proof.
  revert l2. induction l1 as [|x l1 IH]; intros [|y l2]; try reflexivity.
  cbn. now rewrite IH.
Qed.

(** [lerp_vertices] on two frames of one shape is the entry-wise
    [a * (1 - t) + b * t]. *)
Lemma lerp_vertices_spec `{Host} (v0 v1 : ndarray) (t : R) :
  wf_array v0 -> wf_array v1 -> shape v0 = shape v1 ->
  SlowmoOrbit.lerp_vertices v0 v1 t = Ok (lerp_array v0 v1 t).
Proof.
  intros H0 H1 Hs. unfold SlowmoOrbit.lerp_vertices, np_broadcast2, np_map, lerp_array.
  cbn [shape data]. rewrite <- Hs, broadcast_shapes_same, pad_shape_same.
  rewrite !broadcast_data_same
    by (rewrite length_map; unfold wf_array in *; congruence).
  now rewrite zip_with_map_map.
Qed.

Lemma wf_lerp_array `{Host} (v0 v1 : ndarray) (t : R) :
  wf_array v0 -> wf_array v1 -> shape v0 = shape v1 -> wf_array (lerp_array v0 v1 t).
Proof.
  unfold wf_array, lerp_array. cbn [shape data]. intros H0 H1 Hs.
  rewrite length_zip_with. rewrite H0, H1, Hs. lia.
Qed.

Lemma In_py_range (n i : Z) : In i (py_range n) <-> 0 <= i < n.
Proof.
  unfold py_range. rewrite in_map_iff. split.
  - intros [k [<- Hk]]. apply in_seq in Hk. lia.
  - intros Hi. exists (Z.to_nat i). split; [lia|]. apply in_seq. lia.
Qed.

Lemma length_py_range (n : Z) : length (py_range n) = Z.to_nat n.
Proof. unfold py_range. now rewrite length_map, length_seq. Qed.

(** *** The number of rendered frames *)

Lemma keeps_trace_ret {A} (x : A) : keeps_trace (ret x).
Proof. intros w. reflexivity. Qed.

Lemma keeps_trace_raise {A} (e : exn) : keeps_trace (@raise A e).
Proof. intros w. reflexivity. Qed.

Lemma keeps_trace_lift {A} (r : result A) : keeps_trace (lift r).
Proof. intros w. reflexivity. Qed.

Lemma keeps_trace_bind {A B} (m : M A) (k : A -> M B) :
  keeps_trace m -> (forall x, keeps_trace (k x)) -> keeps_trace (bind m k).
Proof.
  intros Hm Hk w. unfold bind. specialize (Hm w).
  destruct (m w) as [[x|e] w']; cbn [snd] in *; [|assumption].
  now rewrite Hk.
Qed.

Lemma keeps_trace_for_fold {A S} (l : list A) (body : A -> S -> M S) (s : S) :
  (forall x s, keeps_trace (body x s)) -> keeps_trace (for_fold l body s).
Proof.
  intros Hb. revert s. induction l as [|x l IH]; intros s; cbn [for_fold].
  - apply keeps_trace_ret.
  - apply keeps_trace_bind; auto.
Qed.

Lemma keeps_trace_np_load `{Host} (p : string) : keeps_trace (np_load p).
Proof. intros w. unfold np_load. now destruct (disk (clock w) !! p). Qed.

Lemma keeps_trace_glob `{Host} (p : string) : keeps_trace (glob p).
Proof. intros w. reflexivity. Qed.

Lemma keeps_trace_mesh_vertices (obj : string) : keeps_trace (mesh_vertices obj).
Proof. intros w. unfold mesh_vertices. now destruct (objects w !! obj) as [[?|]|]. Qed.

Lemma keeps_trace_foreach_set_co `{Host} (obj : string) (co : list R) :
  keeps_trace (foreach_set_co obj co).
Proof.
  intros w. unfold foreach_set_co.
  destruct (objects w !! obj) as [[?|]|]; try reflexivity.
  cbv zeta. now destruct (_ <=? _)%nat.
Qed.

Lemma keeps_trace_get_camera : keeps_trace SlowmoOrbit.get_camera.
Proof. intros w. reflexivity. Qed.

Lemma keeps_trace_set_camera (c : camera_state) : keeps_trace (SlowmoOrbit.set_camera c).
Proof. intros w. reflexivity. Qed.

Lemma keeps_trace_objects_get (name : string) : keeps_trace (objects_get name).
Proof. intros w. reflexivity. Qed.

Create HintDb trace.
#[export] Hint Resolve keeps_trace_ret keeps_trace_raise keeps_trace_lift
  keeps_trace_np_load keeps_trace_glob keeps_trace_mesh_vertices
  keeps_trace_foreach_set_co keeps_trace_get_camera keeps_trace_set_camera
  keeps_trace_objects_get : trace.

Ltac trace_step :=
  match goal with
  | |- keeps_trace (bind _ _) => apply keeps_trace_bind; [|intros ?]
  | |- keeps_trace (for_fold _ _ _) => apply keeps_trace_for_fold; intros ? ?
  | |- keeps_trace (if ?b then _ else _) => destruct b
  | |- keeps_trace (match ?x with _ => _ end) => destruct x
  | |- keeps_trace _ => solve [auto with trace]
  end.

Lemma keeps_trace_update_mesh_vertices `{Host} (obj : string) (V : ndarray) :
  keeps_trace (Strict.update_mesh_vertices obj V).
Proof. unfold Strict.update_mesh_vertices. repeat trace_step. Qed.

Lemma keeps_trace_get_mesh_obj (name : string) : keeps_trace (get_mesh_obj name).
Proof. unfold get_mesh_obj. repeat trace_step. Qed.

#[export] Hint Resolve keeps_trace_update_mesh_vertices keeps_trace_get_mesh_obj : trace.

Lemma keeps_trace_update_all_meshes `{Host} (V : ndarray) (mesh_objs : list string)
    (counts : list nat) :
  keeps_trace (SlowmoOrbit.update_all_meshes V mesh_objs counts).
Proof. unfold SlowmoOrbit.update_all_meshes. repeat trace_step. Qed.

Lemma keeps_trace_load_frames `{Host} (npy_files : list string) (idx : list Z) :
  keeps_trace (SlowmoOrbit.load_frames npy_files idx).
Proof. unfold SlowmoOrbit.load_frames. repeat trace_step. Qed.

#[export] Hint Resolve keeps_trace_update_all_meshes keeps_trace_load_frames : trace.

Lemma count_renders_app (tr1 tr2 : list event) :
  count_renders (tr1 ++ tr2) = (count_renders tr1 + count_renders tr2)%nat.
Proof. unfold count_renders. now rewrite List.filter_app, length_app. Qed.

(** A successful sub-frame renders one image and advances the index. *)
Lemma render_sub_frame_counts `{Host} (a : SlowmoOrbit.args) (mesh_objs : list string)
    (counts : list nat) (icl : Vector) (total : Z) (frame_a frame_b : ndarray)
    (sub_idx output_idx out : Z) (w w' : world) :
  SlowmoOrbit.render_sub_frame a mesh_objs counts icl total frame_a frame_b
                               sub_idx output_idx w = (Ok out, w') ->
  out = output_idx + 1 /\
  count_renders (trace w') = S (count_renders (trace w)).
Proof.
  unfold SlowmoOrbit.render_sub_frame.
  unfold bind at 1. unfold lift at 1.
  destruct (py_truediv sub_idx _) as [t|e]; [|discriminate].
  unfold bind at 1. unfold lift at 1.
  destruct (SlowmoOrbit.lerp_vertices _ _ _) as [V|e]; [|discriminate].
  unfold bind at 1.
  pose proof (keeps_trace_update_all_meshes V mesh_objs counts w) as Htr.
  destruct (SlowmoOrbit.update_all_meshes V mesh_objs counts w) as [[end_v|e] w1];
    [|discriminate].
  cbn [snd] in Htr. unfold bind at 1. unfold lift at 1.
  destruct (py_truediv output_idx total) as [progress|e]; [|discriminate].
  cbn. intros [= <- <-]. split; [reflexivity|]. cbn -[count_renders].
  rewrite count_renders_app, Htr. cbn. lia.
Qed.

(** A loop whose successful passes each add [step] to the index and
    render [step] frames. *)
Lemma for_fold_counts {A} (l : list A) (body : A -> Z -> M Z) (step : nat) :
  (forall x s w s' w',
     body x s w = (Ok s', w') ->
     s' = s + Z.of_nat step /\
     count_renders (trace w') = (count_renders (trace w) + step)%nat) ->
  forall s w s' w',
    for_fold l body s w = (Ok s', w') ->
    s' = s + Z.of_nat (length l * step) /\
    count_renders (trace w') = (count_renders (trace w) + length l * step)%nat.
Proof.
  intros Hb. induction l as [|x l IH]; intros s w s' w'; cbn [for_fold length].
  - intros [= <- <-]. split; [cbn; lia | cbn; lia].
  - unfold bind. destruct (body x s w) as [[s1|e] w1] eqn:Hx; [|discriminate].
    intros Hrest. destruct (Hb _ _ _ _ _ Hx) as [-> Hc1].
    destruct (IH _ _ _ _ Hrest) as [-> Hc2]. split; [lia|]. rewrite Hc2, Hc1. lia.
Qed.

Lemma render_pair_counts `{Host} (a : SlowmoOrbit.args) (mesh_objs : list string)
    (counts : list nat) (icl : Vector) (total : Z) (source_indices : list Z)
    (loaded : gmap Z ndarray) (pair_idx output_idx out : Z) (w w' : world) :
  SlowmoOrbit.render_pair a mesh_objs counts icl total source_indices loaded
                          pair_idx output_idx w = (Ok out, w') ->
  out = output_idx + Z.of_nat (Z.to_nat (SlowmoOrbit.slowdown a)) /\
  count_renders (trace w')
  = (count_renders (trace w) + Z.to_nat (SlowmoOrbit.slowdown a))%nat.
Proof.
  unfold SlowmoOrbit.render_pair. unfold bind at 1. unfold lift at 1.
  destruct (py_getitem source_indices pair_idx) as [ia|e]; [|discriminate].
  unfold bind at 1. unfold lift at 1.
  destruct (py_getitem source_indices (pair_idx + 1)) as [ib|e]; [|discriminate].
  destruct (loaded !! ia) as [frame_a|]; [|discriminate].
  destruct (loaded !! ib) as [frame_b|]; [|discriminate].
  intros Hrun.
  apply (for_fold_counts _ _ 1) in Hrun.
  - rewrite length_py_range, Nat.mul_1_r in Hrun. exact Hrun.
  - intros x s w0 s' w0' Hx. apply render_sub_frame_counts in Hx.
    destruct Hx as [-> Hc]. split; [lia | lia].
Qed.

Lemma keeps_world_ret {A} (x : A) : keeps_world (ret x).
Proof. intros w. reflexivity. Qed.

Lemma keeps_world_lift {A} (r : result A) : keeps_world (lift r).
Proof. intros w. reflexivity. Qed.

Lemma keeps_world_raise {A} (e : exn) : keeps_world (@raise A e).
Proof. intros w. reflexivity. Qed.

Lemma keeps_world_bind {A B} (m : M A) (k : A -> M B) :
  keeps_world m -> (forall x, keeps_world (k x)) -> keeps_world (bind m k).
Proof.
  intros Hm Hk w. unfold bind. specialize (Hm w).
  destruct (m w) as [[x|e] w']; cbn [snd] in *; subst w'; [apply Hk | reflexivity].
Qed.

Lemma keeps_world_for_fold {A S} (l : list A) (body : A -> S -> M S) (s : S) :
  (forall x s, keeps_world (body x s)) -> keeps_world (for_fold l body s).
Proof.
  intros Hb. revert s. induction l as [|x l IH]; intros s; cbn [for_fold].
  - apply keeps_world_ret.
  - apply keeps_world_bind; auto.
Qed.

Lemma keeps_world_np_load `{Host} (p : string) : keeps_world (np_load p).
Proof. intros w. unfold np_load. now destruct (disk (clock w) !! p). Qed.

Lemma keeps_world_mesh_vertices (obj : string) : keeps_world (mesh_vertices obj).
Proof. intros w. unfold mesh_vertices. now destruct (objects w !! obj) as [[?|]|]. Qed.

Lemma keeps_world_objects_getitem (name : string) :
  keeps_world (objects_getitem name).
Proof. intros w. unfold objects_getitem. now destruct (objects w !! name). Qed.

Lemma keeps_world_get_mesh_obj (name : string) : keeps_world (get_mesh_obj name).
Proof. intros w. rewrite get_mesh_obj_spec. reflexivity. Qed.

Lemma keeps_world_load_frames `{Host} (npy_files : list string) (idx : list Z) :
  keeps_world (SlowmoOrbit.load_frames npy_files idx).
Proof.
  unfold SlowmoOrbit.load_frames. apply keeps_world_for_fold. intros i acc.
  apply keeps_world_bind; [apply keeps_world_lift|]. intros p.
  apply keeps_world_bind; [apply keeps_world_np_load|]. intros V.
  apply keeps_world_ret.
Qed.

Lemma bind_keeps_world {A B} (m : M A) (k : A -> M B) (w : world) :
  keeps_world m ->
  bind m k w = match fst (m w) with
               | Ok x => k x w
               | Raise e => (Raise e, w)
               end.
Proof.
  intros Hm. unfold bind. specialize (Hm w).
  destruct (m w) as [[x|e] w']; cbn [fst snd] in *; now subst w'.
Qed.

Lemma keeps_world_fetch_objs (mesh_names : list string) :
  keeps_world (for_fold mesh_names
                 (fun name acc => obj <- get_mesh_obj name ;; ret (acc ++ [obj])) []).
Proof.
  apply keeps_world_for_fold. intros name acc.
  apply keeps_world_bind; [apply keeps_world_get_mesh_obj|].
  intros obj. apply keeps_world_ret.
Qed.

Lemma keeps_world_vertex_counts (mesh_objs : list string) :
  keeps_world (for_fold mesh_objs
                 (fun obj acc => vs <- mesh_vertices obj ;; ret (acc ++ [length vs])) []).
Proof.
  apply keeps_world_for_fold. intros name acc.
  apply keeps_world_bind; [apply keeps_world_mesh_vertices|].
  intros obj. apply keeps_world_ret.
Qed.

(** When [main] returns, it has rendered (number of source frames - 1)
    times [slowdown] frames, and that is the index it returns. *)
Lemma slowmo_main_counts `{Host} (a : SlowmoOrbit.args) (mesh_names : list string)
    (w w' : world) (out : Z) :
  SlowmoOrbit.main a mesh_names w = (Ok out, w') ->
  exists source_indices,
    SlowmoOrbit.source_indices_of
      a (length (glob_sorted (SlowmoOrbit.npy_pattern a) (clock w)))
    = Ok source_indices /\
    let rendered := ((length source_indices - 1)
                     * Z.to_nat (SlowmoOrbit.slowdown a))%nat in
    out = Z.of_nat rendered /\
    count_renders (trace w') = (count_renders (trace w) + rendered)%nat.
Proof.
  unfold SlowmoOrbit.main.
  rewrite bind_keeps_world by apply keeps_world_objects_getitem.
  destruct (fst (objects_getitem cam_name w)) as [o|e]; [|discriminate].
  rewrite bind_keeps_world by (intros w0; reflexivity).
  cbn [SlowmoOrbit.get_camera fst].
  rewrite bind_keeps_world by apply keeps_world_fetch_objs.
  destruct (fst (for_fold mesh_names _ _ w)) as [mesh_objs|e]; [|discriminate].
  rewrite bind_keeps_world by apply keeps_world_vertex_counts.
  destruct (fst (for_fold mesh_objs _ _ w)) as [counts|e]; [|discriminate].
  rewrite bind_keeps_world by (intros w0; reflexivity).
  cbn [glob fst].
  rewrite bind_keeps_world by apply keeps_world_lift.
  cbn [lift fst].
  destruct (SlowmoOrbit.source_indices_of a _) as [source_indices|e] eqn:Hsrc;
    [|discriminate].
  rewrite bind_keeps_world by apply keeps_world_load_frames.
  destruct (fst (SlowmoOrbit.load_frames _ _ w)) as [loaded|e]; [|discriminate].
  intros Hrun. exists source_indices. split; [reflexivity|].
  apply (for_fold_counts _ _ (Z.to_nat (SlowmoOrbit.slowdown a))) in Hrun.
  - rewrite length_py_range in Hrun.
    replace (Z.to_nat (Z.of_nat (length source_indices) - 1))
      with (length source_indices - 1)%nat in Hrun by lia.
    destruct Hrun as [-> Hc]. cbn zeta. split; [lia | exact Hc].
  - intros x s w0 s' w0'. apply render_pair_counts.
Qed.

(** A run over two source frames with a slowdown factor of 2 renders
    two frames. *)
Example slow_motion_two_frames :
  fst (@SlowmoOrbit.main Examples.two_frame_host Examples.slowmo_args ["layer0"]
         Examples.layer_scene) = Ok 2 /\
  count_renders
    (trace (snd (@SlowmoOrbit.main Examples.two_frame_host Examples.slowmo_args
                   ["layer0"] Examples.layer_scene))) = 2%nat.
Proof. split; reflexivity. Qed.

Lemma while_stops_from {L} (body : L -> M (ctl L)) (Inv : L -> world -> Prop) :
  (forall l w l' w', Inv l w -> body l w = (Ok (Next l'), w') -> Inv l' w') ->
  forall fuel l w l' w',
    Inv l w -> while fuel body l w = Some (Ok l', w') ->
    exists l0 w0, Inv l0 w0 /\ body l0 w0 = (Ok (Stop l'), w').
Proof.
  intros Hstep fuel. induction fuel as [|fuel IH]; intros l w l' w' HI Hrun; [discriminate|].
  cbn [while] in Hrun. destruct (body l w) as [[[l1|l1]|e] w1] eqn:Hb.
  - apply (IH l1 w1 l' w'); [|exact Hrun]. exact (Hstep l w l1 w1 HI Hb).
  - injection Hrun as -> ->. eauto.
  - discriminate.
Qed.

Lemma while_world_invariant {L} (body : L -> M (ctl L)) (P : world -> Prop) :
  (forall l w, P w -> P (snd (body l w))) ->
  forall fuel l w r w', P w -> while fuel body l w = Some (r, w') -> P w'.
Proof.
  intros Hstep fuel. induction fuel as [|fuel IH]; intros l w r w' HP Hrun; [discriminate|].
  cbn [while] in Hrun. pose proof (Hstep l w HP) as Hs.
  destruct (body l w) as [[[l1|l1]|e] w1] eqn:Hb; cbn [snd] in Hs.
  - exact (IH l1 w1 r w' Hs Hrun).
  - now injection Hrun as <- <-.
  - now injection Hrun as <- <-.
Qed.

Lemma keeps_clock_for_fold {A S} (l : list A) (body : A -> S -> M S) (s : S) :
  (forall x s, keeps_clock (body x s)) -> keeps_clock (for_fold l body s).
Proof.
  intros Hb. revert s. induction l as [|x l IH]; intros s; cbn [for_fold].
  - apply keeps_clock_ret.
  - apply keeps_clock_bind; auto.
Qed.

Lemma keeps_clock_try {A} (m h : M A) :
  keeps_clock m -> keeps_clock h -> keeps_clock (try_except_RuntimeError m h).
Proof.
  intros Hm Hh w. unfold try_except_RuntimeError. specialize (Hm w).
  destruct (m w) as [[x|[]] w1]; cbn [snd] in *; try assumption.
  now rewrite Hh.
Qed.

Lemma keeps_clock_objects_get (name : string) : keeps_clock (objects_get name).
Proof. intros w. reflexivity. Qed.

Lemma keeps_clock_get_mesh_obj (name : string) : keeps_clock (get_mesh_obj name).
Proof. intros w. now rewrite get_mesh_obj_spec. Qed.

Lemma keeps_clock_glob `{Host} (p : string) : keeps_clock (glob p).
Proof. intros w. reflexivity. Qed.

Lemma keeps_clock_objects_getitem (name : string) : keeps_clock (objects_getitem name).
Proof. intros w. now rewrite keeps_world_objects_getitem. Qed.

#[export] Hint Resolve keeps_clock_objects_get keeps_clock_get_mesh_obj keeps_clock_glob
  keeps_clock_objects_getitem : clock.

Ltac clock_step' :=
  match goal with
  | |- keeps_clock (try_except_RuntimeError _ _) => apply keeps_clock_try
  | |- keeps_clock (for_fold _ _ _) => apply keeps_clock_for_fold; intros ? ?
  | _ => clock_step
  end.

Lemma keeps_clock_build_soft (mi : MultiPhysics.mesh_info) :
  keeps_clock (MultiPhysics.build_soft_body_meshes mi).
Proof.
  unfold MultiPhysics.build_soft_body_meshes, MultiPhysics.add_soft_body.
  repeat clock_step'.
Qed.

Lemma keeps_clock_build_rigid `{Host} (a : MultiPhysics.args) (mi : MultiPhysics.mesh_info) :
  keeps_clock (MultiPhysics.build_rigid_body_meshes a mi).
Proof.
  unfold MultiPhysics.build_rigid_body_meshes, MultiPhysics.add_rigid_body.
  repeat clock_step'.
Qed.

Lemma keeps_clock_build_cloth (mi : MultiPhysics.mesh_info)
    (soft : list MultiPhysics.particle_mesh) :
  keeps_clock (MultiPhysics.build_cloth_mesh mi soft).
Proof.
  unfold MultiPhysics.build_cloth_mesh.
  repeat clock_step'.
Qed.

(** *** Events *)

Lemma emits_only_keeps_trace (ok : event -> bool) {A} (m : M A) :
  keeps_trace m -> emits_only ok m.
Proof. intros Hm w. exists []. now rewrite app_nil_r, Hm. Qed.

Lemma emits_only_emit (ok : event -> bool) (e : event) :
  ok e = true -> emits_only ok (emit e).
Proof. intros He w. exists [e]. cbn. now rewrite He. Qed.

Lemma emits_only_sleep (ok : event -> bool) (s : nat) :
  ok (EvSleep s) = true -> emits_only ok (sleep s).
Proof. intros He w. exists [EvSleep s]. cbn. now rewrite He. Qed.

Lemma emits_only_bind (ok : event -> bool) {A B} (m : M A) (k : A -> M B) :
  emits_only ok m -> (forall x, emits_only ok (k x)) -> emits_only ok (bind m k).
Proof.
  intros Hm Hk w. unfold bind. destruct (Hm w) as [evs [Ht Hok]].
  destruct (m w) as [[x|e] w1]; cbn [snd] in *; [|eauto].
  destruct (Hk x w1) as [evs' [Ht' Hok']].
  exists (evs ++ evs'). rewrite Ht', Ht, <- app_assoc, forallb_app, Hok, Hok'. now split.
Qed.

Lemma emits_only_try (ok : event -> bool) {A} (m h : M A) :
  emits_only ok m -> emits_only ok h -> emits_only ok (try_except_RuntimeError m h).
Proof.
  intros Hm Hh w. unfold try_except_RuntimeError. destruct (Hm w) as [evs [Ht Hok]].
  destruct (m w) as [[x|[]] w1]; cbn [snd] in *; eauto.
  destruct (Hh w1) as [evs' [Ht' Hok']].
  exists (evs ++ evs'). rewrite Ht', Ht, <- app_assoc, forallb_app, Hok, Hok'. now split.
Qed.

Lemma emits_only_for_ (ok : event -> bool) {A} (l : list A) (body : A -> M unit) :
  (forall x, emits_only ok (body x)) -> emits_only ok (for_ l body).
Proof.
  intros Hb. induction l as [|x l IH]; cbn [for_].
  - apply emits_only_keeps_trace, keeps_trace_ret.
  - apply emits_only_bind; auto.
Qed.

Lemma emits_only_for_fold (ok : event -> bool) {A S} (l : list A)
    (body : A -> S -> M S) (s : S) :
  (forall x s, emits_only ok (body x s)) -> emits_only ok (for_fold l body s).
Proof.
  intros Hb. revert s. induction l as [|x l IH]; intros s; cbn [for_fold].
  - apply emits_only_keeps_trace, keeps_trace_ret.
  - apply emits_only_bind; auto.
Qed.

Lemma keeps_trace_path_exists `{Host} (p : string) : keeps_trace (path_exists p).
Proof. intros w. reflexivity. Qed.

Lemma keeps_trace_objects_getitem (name : string) : keeps_trace (objects_getitem name).
Proof. intros w. now rewrite keeps_world_objects_getitem. Qed.

#[export] Hint Resolve keeps_trace_path_exists keeps_trace_objects_getitem : trace.

(** Splits a computation at its binds, loops and branches. *)
Ltac emits_step :=
  match goal with
  | |- emits_only _ (bind _ _) => apply emits_only_bind; [|intros ?]
  | |- emits_only _ (for_ _ _) => apply emits_only_for_; intros ?
  | |- emits_only _ (for_fold _ _ _) => apply emits_only_for_fold; intros ? ?
  | |- emits_only _ (try_except_RuntimeError _ _) => apply emits_only_try
  | |- emits_only _ (emit _) => apply emits_only_emit; reflexivity
  | |- emits_only _ (render _) => apply emits_only_emit; reflexivity
  | |- emits_only _ (sleep _) => apply emits_only_sleep; reflexivity
  | |- emits_only _ (if ?b then _ else _) => destruct b
  | |- emits_only _ (match ?x with _ => _ end) => destruct x
  | |- emits_only _ (let _ := _ in _) => cbv zeta
  | |- emits_only _ _ => solve [apply emits_only_keeps_trace; auto with trace]
  end.

Lemma while_emits_only {L} (ok : event -> bool) (body : L -> M (ctl L)) :
  (forall l, emits_only ok (body l)) ->
  forall fuel l w r w',
    while fuel body l w = Some (r, w') ->
    exists evs, trace w' = trace w ++ evs /\ forallb ok evs = true.
Proof.
  intros Hb fuel l w r w' Hrun.
  apply (while_world_invariant body
           (fun w1 => exists evs, trace w1 = trace w ++ evs /\ forallb ok evs = true))
    with (fuel := fuel) (l := l) (w := w) (r := r); [| |exact Hrun].
  - intros l1 w1 [evs [Ht Hok]]. destruct (Hb l1 w1) as [evs' [Ht' Hok']].
    exists (evs ++ evs'). rewrite Ht', Ht, <- app_assoc, forallb_app, Hok, Hok'. now split.
  - exists []. now rewrite app_nil_r.
Qed.

Lemma while_keeps_clock {L} (body : L -> M (ctl L)) :
  (forall l, keeps_clock (body l)) ->
  forall fuel l w r w', while fuel body l w = Some (r, w') -> clock w' = clock w.
Proof.
  intros Hb fuel l w r w' Hrun.
  apply (while_world_invariant body (fun w1 => clock w1 = clock w))
    with (fuel := fuel) (l := l) (w := w) (r := r); [| reflexivity | exact Hrun].
  intros l1 w1 Hw1. now rewrite Hb.
Qed.

(** ** Multi-physics/run.py: the whole script *)

Lemma emits_only_update_particle_mesh `{Host} (ok : event -> bool) (P : ndarray)
    (sb : MultiPhysics.particle_mesh) :
  emits_only ok (MultiPhysics.update_particle_mesh P sb).
Proof. unfold MultiPhysics.update_particle_mesh. repeat emits_step. Qed.

Lemma emits_only_update_rigid_mesh `{Host} (ok : event -> bool) (a : MultiPhysics.args)
    (body_q : ndarray) (rb : MultiPhysics.rigid_mesh) :
  emits_only ok (MultiPhysics.update_rigid_mesh a body_q rb).
Proof. unfold MultiPhysics.update_rigid_mesh. repeat emits_step. Qed.

(** The mesh mapping prints warnings and nothing else, and does not
    sleep. *)
Lemma multiphysics_mapping_quiet `{Host} (a : MultiPhysics.args) (mi : MultiPhysics.mesh_info) :
  let mapping :=
    (soft <- MultiPhysics.build_soft_body_meshes mi ;;
     rigid <- MultiPhysics.build_rigid_body_meshes a mi ;;
     cloth_mesh <- MultiPhysics.build_cloth_mesh mi soft ;;
     files <- glob (MultiPhysics.npy_pattern a) ;;
     q_files <- glob (MultiPhysics.body_q_pattern a) ;;
     ret (soft, rigid, cloth_mesh,
          MultiPhysics.Locals (MultiPhysics.startFrame a) files q_files)) in
  keeps_clock mapping /\ emits_only is_quiet mapping /\
  forall w soft rigid cloth_mesh l0 w',
    mapping w = (Ok (soft, rigid, cloth_mesh, l0), w') ->
    l0 = MultiPhysics.Locals (MultiPhysics.startFrame a)
           (glob_sorted (MultiPhysics.npy_pattern a) (clock w'))
           (glob_sorted (MultiPhysics.body_q_pattern a) (clock w')).
Proof.
  intros mapping. split; [|split].
  - unfold mapping. apply keeps_clock_bind; [apply keeps_clock_build_soft|intros ?].
    apply keeps_clock_bind; [apply keeps_clock_build_rigid|intros ?].
    apply keeps_clock_bind; [apply keeps_clock_build_cloth|intros ?].
    repeat clock_step'.
  - unfold mapping, MultiPhysics.build_soft_body_meshes, MultiPhysics.add_soft_body,
      MultiPhysics.build_rigid_body_meshes, MultiPhysics.add_rigid_body,
      MultiPhysics.build_cloth_mesh.
    repeat emits_step.
  - intros w soft rigid cloth_mesh l0 w'. unfold mapping, bind.
    destruct (MultiPhysics.build_soft_body_meshes mi w) as [[s1|e1] w1]; [|discriminate].
    destruct (MultiPhysics.build_rigid_body_meshes a mi w1) as [[r2|e2] w2]; [|discriminate].
    destruct (MultiPhysics.build_cloth_mesh mi s1 w2) as [[c3|e3] w3]; [|discriminate].
    unfold glob, ret. now intros [= <- <- <- <- <-].
Qed.

(** X1. The script ends: in batch mode once the folder holds
    [startFrame + numFrames] frames from some time [T] on, in preview
    mode whatever the folder holds. *)
Theorem multiphysics_main_terminates `{Host} (a : MultiPhysics.args)
    (mi : MultiPhysics.mesh_info) (T : nat) (w : world) :
  1 <= MultiPhysics.stride a ->
  (MultiPhysics.preview a = false ->
   forall t, (T <= t)%nat ->
     MultiPhysics.startFrame a + MultiPhysics.numFrames a
     <= Z.of_nat (length (glob_sorted (MultiPhysics.npy_pattern a) t))) ->
  exists fuel r, MultiPhysics.main a fuel mi w = Some r.
Proof.
  intros Hstride Henough. unfold MultiPhysics.main.
  destruct (multiphysics_mapping_quiet a mi) as [_ [_ Hl0]].
  cbv zeta in Hl0. specialize (Hl0 w).
  destruct (bind _ _ w) as [[[[[soft rigid] cloth_mesh] l0]|e] w'].
  - specialize (Hl0 _ _ _ _ _ eq_refl). subst l0.
    apply (multiphysics_loop_terminates a soft cloth_mesh rigid T); auto.
  - exists 0%nat. eauto.
Qed.

(** X1 with one frame in the folder and a target of one frame. *)
Lemma multiphysics_main_terminates_witness :
  exists fuel r,
    @MultiPhysics.main Examples.one_frame_host Examples.batch_args fuel
                       Examples.manifest_ball Examples.empty_scene = Some r.
Proof.
  apply (@multiphysics_main_terminates Examples.one_frame_host Examples.batch_args
           Examples.manifest_ball 0 Examples.empty_scene).
  - cbn. lia.
  - intros _ t _. cbn. lia.
Defined.

Lemma emits_only_process_frame_preview `{Host} (a : MultiPhysics.args)
    (soft : list MultiPhysics.particle_mesh) (cloth : option MultiPhysics.particle_mesh)
    (rigid : list MultiPhysics.rigid_mesh) (l : MultiPhysics.locals) :
  MultiPhysics.preview a = true ->
  emits_only is_quiet (MultiPhysics.process_frame a soft cloth rigid l).
Proof.
  intros Hprev. unfold MultiPhysics.process_frame. rewrite Hprev. cbn [negb].
  apply emits_only_bind; [repeat emits_step|intros ?].
  apply emits_only_bind; [repeat emits_step|intros ?].
  apply emits_only_bind; [apply emits_only_for_; intros ?;
                          apply emits_only_update_particle_mesh|intros ?].
  apply emits_only_bind; [destruct cloth; [apply emits_only_update_particle_mesh
                                          |repeat emits_step]|intros ?].
  apply emits_only_bind; [|intros ?; repeat emits_step].
  destruct (_ && _); [|repeat emits_step].
  apply emits_only_bind; [repeat emits_step|intros ?].
  apply emits_only_bind; [repeat emits_step|intros ?].
  apply emits_only_for_; intros ?. apply emits_only_update_rigid_mesh.
Qed.

(** X2. In preview mode the script renders no image and never waits:
    whatever it returns, no time has passed and all it has printed or
    done besides updating meshes are warnings, the end message and
    viewport redraws. *)
Theorem preview_renders_nothing `{Host} (a : MultiPhysics.args)
    (mi : MultiPhysics.mesh_info) (fuel : nat) (w w' : world)
    (r : result MultiPhysics.locals) :
  MultiPhysics.preview a = true ->
  MultiPhysics.main a fuel mi w = Some (r, w') ->
  clock w' = clock w /\
  count_renders (trace w') = count_renders (trace w) /\
  exists evs, trace w' = trace w ++ evs /\ forallb is_quiet evs = true.
Proof.
  intros Hprev. unfold MultiPhysics.main.
  destruct (multiphysics_mapping_quiet a mi) as [Hclock [Hquiet _]].
  cbv zeta in Hclock, Hquiet. specialize (Hclock w). destruct (Hquiet w) as [evs [Ht Hok]].
  clear Hquiet.
  assert (Hcount : forall evs0, forallb is_quiet evs0 = true -> count_renders evs0 = 0%nat).
  { induction evs0 as [|e evs0 IH]; [reflexivity|]. cbn [forallb].
    intros [He Hrest]%andb_prop. specialize (IH Hrest).
    unfold count_renders in *. cbn [List.filter]. destruct e; try discriminate; exact IH. }
  assert (Hend : forall w1 evs1, clock w1 = clock w -> trace w1 = trace w ++ evs1 ->
                 forallb is_quiet evs1 = true ->
                 clock w1 = clock w /\
                 count_renders (trace w1) = count_renders (trace w) /\
                 exists evs, trace w1 = trace w ++ evs /\ forallb is_quiet evs = true).
  { intros w1 evs1 Hc1 Ht1 Hok1. split; [assumption|]. split; [|eauto].
    rewrite Ht1, count_renders_app, (Hcount _ Hok1). lia. }
  destruct (bind _ _ w) as [[[[[soft rigid] cloth_mesh] l0]|e] w1]; cbn [snd] in *.
  - intros Hrun.
    assert (Hbody_clock : forall l, keeps_clock (MultiPhysics.loop_body a soft cloth_mesh rigid l)).
    { intros l. unfold MultiPhysics.loop_body. rewrite Hprev.
      destruct (negb _); [auto with clock|].
      destruct (_ <=? _); [repeat clock_step|].
      apply keeps_clock_bind; [apply keeps_clock_process_frame|intros ?; auto with clock]. }
    assert (Hbody_quiet : forall l, emits_only is_quiet
                                      (MultiPhysics.loop_body a soft cloth_mesh rigid l)).
    { intros l. unfold MultiPhysics.loop_body. rewrite Hprev.
      destruct (negb _); [repeat emits_step|].
      destruct (_ <=? _); [repeat emits_step|].
      apply emits_only_bind; [now apply emits_only_process_frame_preview
                             |intros ?; repeat emits_step]. }
    pose proof (while_keeps_clock _ Hbody_clock _ _ _ _ _ Hrun) as Hc.
    destruct (while_emits_only _ _ Hbody_quiet _ _ _ _ _ Hrun) as [evs' [Ht' Hok']].
    apply (Hend w' (evs ++ evs')).
    + congruence.
    + now rewrite Ht', Ht, <- app_assoc.
    + now rewrite forallb_app, Hok, Hok'.
  - intros [= <- <-]. now apply (Hend w1 evs).
Qed.

(** X2 in a preview of an empty scene: a warning for the missing soft body
    and the end message. *)
Lemma preview_renders_nothing_witness :
  @MultiPhysics.main Examples.empty_host Examples.preview_args 1 Examples.manifest_ball
                     Examples.empty_scene
  = Some (Ok (MultiPhysics.Locals 0 [] []),
          add_event (add_event Examples.empty_scene EvPrintWarning) EvPrintEnd) /\
  clock (add_event (add_event Examples.empty_scene EvPrintWarning) EvPrintEnd)
  = clock Examples.empty_scene /\
  count_renders (trace (add_event (add_event Examples.empty_scene EvPrintWarning) EvPrintEnd))
  = count_renders (trace Examples.empty_scene) /\
  exists evs,
    trace (add_event (add_event Examples.empty_scene EvPrintWarning) EvPrintEnd)
    = trace Examples.empty_scene ++ evs /\ forallb is_quiet evs = true.
Proof.
  split; [reflexivity|].
  apply (@preview_renders_nothing Examples.empty_host Examples.preview_args
           Examples.manifest_ball 1 Examples.empty_scene _
           (Ok (MultiPhysics.Locals 0 [] []))); reflexivity.
Defined.

(** ** dropingBoxes/render_sequence.py: the whole script *)

Lemma keeps_world_collect_mesh_objs : keeps_world DropingBoxes.collect_mesh_objs.
Proof.
  unfold DropingBoxes.collect_mesh_objs. apply keeps_world_for_fold. intros name acc.
  apply keeps_world_bind; [apply keeps_world_get_mesh_obj|intros ?; apply keeps_world_ret].
Qed.

(** X3. The script ends once, from some time [T] on, the folder holds
    the six files of each of the [numFrames] frames it is to render. *)
Theorem droping_boxes_main_terminates `{Host} (a : DropingBoxes.args) (T : nat) (w : world) :
  (forall t k item, (T <= t)%nat -> 0 <= k < DropingBoxes.numFrames a ->
     In item DropingBoxes.mesh_components ->
     is_Some (disk t !! DropingBoxes.get_frame_path a (snd item)
                          (DropingBoxes.startFrame a + k * DropingBoxes.stride a))) ->
  exists fuel r, DropingBoxes.main a fuel w = Some r.
Proof.
  intros Henough. unfold DropingBoxes.main.
  destruct (bind _ _ w) as [[mesh_objs|e] w1].
  - apply (droping_boxes_loop_terminates a mesh_objs T _ w1 Henough); cbn; lia.
  - exists 0%nat. eauto.
Qed.

(** X3 for one frame whose six files are in the folder. *)
Lemma droping_boxes_main_terminates_witness :
  exists fuel r,
    @DropingBoxes.main Examples.gift_host Examples.gift_args fuel Examples.gift_scene
    = Some r.
Proof.
  apply (@droping_boxes_main_terminates Examples.gift_host Examples.gift_args 0
           Examples.gift_scene).
  intros t k item _ Hk Hin. cbn in Hk. assert (k = 0) as -> by lia.
  cbn in Hin. decompose [or] Hin; subst; try contradiction; vm_compute; eauto.
Defined.

Lemma keeps_trace_for_ {A} (l : list A) (body : A -> M unit) :
  (forall x, keeps_trace (body x)) -> keeps_trace (for_ l body).
Proof.
  intros Hb. induction l as [|x l IH]; cbn [for_].
  - apply keeps_trace_ret.
  - apply keeps_trace_bind; auto.
Qed.

Lemma keeps_trace_load_frame `{Host} (a : DropingBoxes.args) (frame_num : Z)
    (mesh_objs : gmap string string) :
  keeps_trace (DropingBoxes.load_frame a frame_num mesh_objs).
Proof.
  unfold DropingBoxes.load_frame. apply keeps_trace_for_. intros item.
  repeat trace_step.
Qed.

(** A pass of the render loop that goes round again has either waited
    or rendered one frame. *)
Lemma droping_boxes_pass `{Host} (a : DropingBoxes.args) (mesh_objs : gmap string string)
    (l l' : DropingBoxes.locals) (w w' : world) :
  DropingBoxes.loop_body a mesh_objs l w = (Ok (Next l'), w') ->
  DropingBoxes.rendered_count l < DropingBoxes.numFrames a /\
  ((l' = l /\ count_renders (trace w') = count_renders (trace w)) \/
   (l' = DropingBoxes.Locals (DropingBoxes.frame_num l + DropingBoxes.stride a)
                             (DropingBoxes.rendered_count l + 1) /\
    count_renders (trace w') = S (count_renders (trace w)))).
Proof.
  unfold DropingBoxes.loop_body.
  destruct (Z.ltb_spec (DropingBoxes.rendered_count l) (DropingBoxes.numFrames a))
    as [Hlt|Hge]; cbn [negb]; [|intros [=]].
  unfold bind at 1. unfold DropingBoxes.frame_exists. rewrite frame_exists_in_spec.
  destruct (forallb _ _); cbn [negb].
  - unfold bind at 1.
    pose proof (keeps_trace_load_frame a (DropingBoxes.frame_num l) mesh_objs w) as Htr.
    destruct (DropingBoxes.load_frame a _ mesh_objs w) as [[[]|e] w1]; [|intros [=]].
    cbn -[count_renders]. intros [= <- <-]. cbn in Htr. split; [assumption|]. right.
    split; [reflexivity|].
    cbn -[count_renders]. rewrite count_renders_app, Htr. cbn. lia.
  - cbn -[count_renders]. intros [= <- <-]. split; [assumption|]. left. split; [reflexivity|].
    cbn -[count_renders]. rewrite count_renders_app. cbn. lia.
Qed.

(** X4. A run that ends without an exception has rendered [numFrames]
    images (none for a negative count), the frames [startFrame],
    [startFrame + stride], ... *)
Theorem droping_boxes_renders_numFrames `{Host} (a : DropingBoxes.args) (fuel : nat)
    (w w' : world) (l : DropingBoxes.locals) :
  DropingBoxes.main a fuel w = Some (Ok l, w') ->
  DropingBoxes.rendered_count l = Z.max 0 (DropingBoxes.numFrames a) /\
  DropingBoxes.frame_num l
  = DropingBoxes.startFrame a + DropingBoxes.rendered_count l * DropingBoxes.stride a /\
  count_renders (trace w')
  = (count_renders (trace w) + Z.to_nat (DropingBoxes.numFrames a))%nat.
Proof.
  unfold DropingBoxes.main.
  assert (Hk : keeps_world (_ <- objects_getitem cam_name ;; DropingBoxes.collect_mesh_objs)).
  { apply keeps_world_bind; [apply keeps_world_objects_getitem|intros ?].
    apply keeps_world_collect_mesh_objs. }
  specialize (Hk w). destruct (bind _ _ w) as [[mesh_objs|e] w1]; cbn [snd] in Hk; subst w1;
    [|discriminate].
  intros Hrun.
  set (Inv := fun (l : DropingBoxes.locals) (w1 : world) =>
                DropingBoxes.frame_num l
                = DropingBoxes.startFrame a
                  + DropingBoxes.rendered_count l * DropingBoxes.stride a /\
                0 <= DropingBoxes.rendered_count l <= Z.max 0 (DropingBoxes.numFrames a) /\
                count_renders (trace w1)
                = (count_renders (trace w) + Z.to_nat (DropingBoxes.rendered_count l))%nat).
  destruct (while_stops_from (DropingBoxes.loop_body a mesh_objs) Inv) with
    (fuel := fuel) (l := DropingBoxes.Locals (DropingBoxes.startFrame a) 0) (w := w)
    (l' := l) (w' := w') as [l0 [w0 [[Hfn [Hrc Hcount]] Hstop]]].
  - intros l1 w1 l2 w2 [Hfn [Hrc Hcount]] Hpass.
    destruct (droping_boxes_pass a mesh_objs l1 l2 w1 w2 Hpass) as [Hlt [[-> Hc]|[-> Hc]]].
    + unfold Inv. rewrite Hc. auto.
    + unfold Inv. cbn. rewrite Hc, Hcount, Hfn. repeat split; lia.
  - unfold Inv. cbn. repeat split; lia.
  - exact Hrun.
  - unfold DropingBoxes.loop_body in Hstop.
    destruct (Z.ltb_spec (DropingBoxes.rendered_count l0) (DropingBoxes.numFrames a))
      as [Hlt|Hge]; cbn [negb] in Hstop.
    + exfalso. revert Hstop. unfold bind at 1. unfold DropingBoxes.frame_exists.
      rewrite frame_exists_in_spec. destruct (forallb _ _); cbn [negb].
      * unfold bind at 1. destruct (DropingBoxes.load_frame a _ mesh_objs w0) as [[[]|e] w1];
          cbn; discriminate.
      * cbn. discriminate.
    + injection Hstop as <- <-. rewrite Hcount. repeat split; [lia | assumption | lia].
Qed.

(** X4 for one frame with stride 1: one image, and the next frame is 1. *)
Lemma droping_boxes_renders_numFrames_witness :
  exists l w',
    @DropingBoxes.main Examples.gift_host Examples.gift_args 2 Examples.gift_scene
    = Some (Ok l, w') /\
    DropingBoxes.rendered_count l = 1 /\
    DropingBoxes.frame_num l = 1 /\
    count_renders (trace w') = 1%nat.
Proof.
  eexists. eexists. split; [vm_compute; reflexivity|].
  apply (@droping_boxes_renders_numFrames Examples.gift_host Examples.gift_args 2
           Examples.gift_scene).
  vm_compute; reflexivity.
Defined.

(** ** Twist_release/run.py and unroll/run.py: the whole script *)

Lemma keeps_clock_load_vertices `{Host} (c : SingleMesh.config) (p : string) :
  keeps_clock (SingleMesh.load_vertices c p).
Proof. unfold SingleMesh.load_vertices. repeat clock_step. Qed.

Lemma keeps_trace_load_vertices `{Host} (c : SingleMesh.config) (p : string) :
  keeps_trace (SingleMesh.load_vertices c p).
Proof. unfold SingleMesh.load_vertices. repeat trace_step. Qed.

(** A pass of the loop that goes round again has either waited and
    listed the folder again, or rendered one frame. *)
Lemma single_mesh_pass `{Host} (c : SingleMesh.config) (obj : string)
    (l l' : SingleMesh.locals) (w w' : world) :
  SingleMesh.loop_body c obj l w = (Ok (Next l'), w') ->
  SingleMesh.fileId l < SingleMesh.numFrames c /\
  ((Z.of_nat (length (SingleMesh.npy_files l)) <= SingleMesh.fileId l /\
    l' = SingleMesh.Locals (SingleMesh.fileId l)
                           (glob_sorted (SingleMesh.npy_pattern c) (clock w')) /\
    clock w' = S (clock w) /\
    count_renders (trace w') = count_renders (trace w)) \/
   (SingleMesh.fileId l < Z.of_nat (length (SingleMesh.npy_files l)) /\
    l' = SingleMesh.Locals (SingleMesh.fileId l + SingleMesh.stride c)
                           (SingleMesh.npy_files l) /\
    clock w' = clock w /\
    count_renders (trace w') = S (count_renders (trace w)))).
Proof.
  unfold SingleMesh.loop_body.
  destruct (Z.ltb_spec (SingleMesh.fileId l) (SingleMesh.numFrames c))
    as [Hlt|Hge]; cbn [negb]; [|intros [=]].
  destruct (Z.leb_spec (Z.of_nat (length (SingleMesh.npy_files l))) (SingleMesh.fileId l))
    as [Hshort|Hhave].
  - unfold bind, sleep, glob, ret. cbn -[count_renders]. intros [= <- <-].
    split; [assumption|]. left. cbn -[count_renders].
    repeat split; [assumption|]. rewrite count_renders_app. cbn. lia.
  - unfold bind at 1. destruct (lift _ w) as [[npy_path|e] w1] eqn:Hget; [|intros [=]].
    unfold lift in Hget. injection Hget as Hget <-.
    unfold bind at 1.
    pose proof (keeps_clock_load_vertices c npy_path w) as Hc1.
    pose proof (keeps_trace_load_vertices c npy_path w) as Ht1.
    destruct (SingleMesh.load_vertices c npy_path w) as [[V|e] w1]; [|intros [=]].
    cbn [snd] in Hc1, Ht1. unfold bind at 1.
    pose proof (keeps_clock_update_mesh_vertices obj V w1) as Hc2.
    pose proof (keeps_trace_update_mesh_vertices obj V w1) as Ht2.
    destruct (Strict.update_mesh_vertices obj V w1) as [[[]|e] w2]; [|intros [=]].
    cbn [snd] in Hc2, Ht2.
    unfold bind, render, emit, ret. cbn -[count_renders]. intros [= <- <-].
    split; [assumption|]. right. cbn -[count_renders].
    repeat split; [assumption | congruence |].
    rewrite count_renders_app, Ht2, Ht1. cbn. lia.
Qed.

Lemma single_mesh_loop_terminates `{Host} (c : SingleMesh.config) (obj : string)
    (T : nat) (l : SingleMesh.locals) (w : world) :
  1 <= SingleMesh.stride c ->
  (forall t, (T <= t)%nat ->
     SingleMesh.numFrames c
     <= Z.of_nat (length (glob_sorted (SingleMesh.npy_pattern c) t))) ->
  SingleMesh.npy_files l = glob_sorted (SingleMesh.npy_pattern c) (clock w) ->
  exists fuel r, while fuel (SingleMesh.loop_body c obj) l w = Some r.
Proof.
  intros Hstride Henough Hinit.
  set (Inv := fun (l : SingleMesh.locals) (w : world) =>
                SingleMesh.npy_files l
                = glob_sorted (SingleMesh.npy_pattern c) (clock w)).
  set (variant := fun (l : SingleMesh.locals) (w : world) =>
                    ((T - clock w)
                     + Z.to_nat (SingleMesh.numFrames c - SingleMesh.fileId l))%nat).
  destruct (while_variant (SingleMesh.loop_body c obj) Inv variant)
    with (l := l) (w := w) as [r Hr]; [| exact Hinit | eauto].
  clear l w Hinit. intros l w l' w' Hinv Hpass.
  destruct (single_mesh_pass c obj l l' w w' Hpass)
    as [Hlt [[Hshort [-> [Hclock _]]]|[Hhave [-> [Hclock _]]]]].
  - split; [reflexivity|]. unfold variant. cbn. rewrite Hclock.
    assert (clock w < T)%nat; [|lia].
    destruct (Nat.lt_ge_cases (clock w) T) as [|Hlate]; [assumption|].
    specialize (Henough (clock w) Hlate). unfold Inv in Hinv.
    rewrite <- Hinv in Henough. lia.
  - split.
    + unfold Inv. cbn. now rewrite Hclock.
    + unfold variant. cbn. rewrite Hclock. lia.
Qed.

(** The world in which the loop is entered is the one the script was
    started in, with the listing of the folder at that time. *)
Lemma single_mesh_main_enters `{Host} (c : SingleMesh.config) (fuel : nat) (w : world) :
  (exists e, SingleMesh.main c fuel w = Some (Raise e, w)) \/
  SingleMesh.main c fuel w
  = while fuel (SingleMesh.loop_body c (SingleMesh.target_obj_name c))
          (SingleMesh.Locals 0 (glob_sorted (SingleMesh.npy_pattern c) (clock w))) w.
Proof.
  unfold SingleMesh.main, bind, glob, ret.
  destruct (objects_getitem cam_name w) as [[o|e] w1] eqn:Hcam.
  - pose proof (keeps_world_objects_getitem cam_name w) as Hk. rewrite Hcam in Hk.
    cbn in Hk. subst w1. rewrite get_mesh_obj_spec.
    destruct (has_mesh w _); [now right | left; eauto].
  - pose proof (keeps_world_objects_getitem cam_name w) as Hk. rewrite Hcam in Hk.
    cbn in Hk. subst w1. left. eauto.
Qed.

(** X5. The script ends once the folder holds [numFrames] frames from
    some time [T] on, whatever the stride (at least 1). *)
Theorem single_mesh_main_terminates `{Host} (c : SingleMesh.config) (T : nat) (w : world) :
  1 <= SingleMesh.stride c ->
  (forall t, (T <= t)%nat ->
     SingleMesh.numFrames c
     <= Z.of_nat (length (glob_sorted (SingleMesh.npy_pattern c) t))) ->
  exists fuel r, SingleMesh.main c fuel w = Some r.
Proof.
  intros Hstride Henough.
  destruct (single_mesh_loop_terminates c (SingleMesh.target_obj_name c) T
              (SingleMesh.Locals 0 (glob_sorted (SingleMesh.npy_pattern c) (clock w))) w
              Hstride Henough eq_refl) as [fuel [r Hr]].
  exists fuel. destruct (single_mesh_main_enters c fuel w) as [[e He]|Hm].
  - eauto.
  - exists r. now rewrite Hm.
Qed.

(** X5 for the unroll renderer with one frame in the folder. *)
Lemma single_mesh_main_terminates_witness :
  exists fuel r,
    @SingleMesh.main Examples.unroll_host (Unroll.config Examples.unroll_args) fuel
                     Examples.unroll_scene = Some r.
Proof.
  apply (@single_mesh_main_terminates Examples.unroll_host
           (Unroll.config Examples.unroll_args) 0 Examples.unroll_scene).
  - cbn. lia.
  - intros t _. cbn. lia.
Defined.

(** A pass of the loop that goes round again has either waited and
    listed the folder again, or rendered the file at [fileId]. *)
Lemma single_mesh_pass_files `{Host} (c : SingleMesh.config) (obj : string)
    (l l' : SingleMesh.locals) (w w' : world) :
  SingleMesh.loop_body c obj l w = (Ok (Next l'), w') ->
  (l' = SingleMesh.Locals (SingleMesh.fileId l)
                          (glob_sorted (SingleMesh.npy_pattern c) (clock w')) /\
   rendered_files (trace w') = rendered_files (trace w)) \/
  (exists npy_path,
     py_getitem (SingleMesh.npy_files l) (SingleMesh.fileId l) = Ok npy_path /\
     l' = SingleMesh.Locals (SingleMesh.fileId l + SingleMesh.stride c)
                            (SingleMesh.npy_files l) /\
     rendered_files (trace w')
     = rendered_files (trace w)
       ++ [path_join (SingleMesh.outPath c) (path_stem npy_path +:+ ".png")]).
Proof.
  unfold SingleMesh.loop_body.
  destruct (SingleMesh.fileId l <? SingleMesh.numFrames c); cbn [negb]; [|intros [=]].
  destruct (_ <=? SingleMesh.fileId l).
  - unfold bind, sleep, glob, ret. cbn -[rendered_files]. intros [= <- <-].
    left. cbn -[rendered_files]. split; [reflexivity|].
    unfold rendered_files. rewrite omap_app. cbn. now rewrite app_nil_r.
  - unfold bind at 1. destruct (lift _ w) as [[npy_path|e] w1] eqn:Hget; [|intros [=]].
    unfold lift in Hget. injection Hget as Hget <-.
    unfold bind at 1.
    pose proof (keeps_trace_load_vertices c npy_path w) as Ht1.
    destruct (SingleMesh.load_vertices c npy_path w) as [[V|e] w1]; [|intros [=]].
    cbn [snd] in Ht1. unfold bind at 1.
    pose proof (keeps_trace_update_mesh_vertices obj V w1) as Ht2.
    destruct (Strict.update_mesh_vertices obj V w1) as [[[]|e] w2]; [|intros [=]].
    cbn [snd] in Ht2.
    unfold bind, render, emit, ret. cbn -[rendered_files]. intros [= <- <-].
    right. exists npy_path. cbn -[rendered_files].
    split; [exact Hget|]. split; [reflexivity|].
    unfold rendered_files. rewrite omap_app, Ht2, Ht1. reflexivity.
Qed.

(** With a listing that stays as it is, the images of a run that ends
    are those of the files 0, [stride], 2 [stride], ... in turn. *)
Lemma single_mesh_rendered_files `{Host} (c : SingleMesh.config) (fuel : nat)
    (w w' : world) (l : SingleMesh.locals) (files : list string) :
  1 <= SingleMesh.stride c ->
  (forall t, glob_sorted (SingleMesh.npy_pattern c) t = files) ->
  SingleMesh.main c fuel w = Some (Ok l, w') ->
  exists (k : nat) (picked : list string),
    SingleMesh.fileId l = Z.of_nat k * SingleMesh.stride c /\
    Forall2 (fun j p => files !! (j * Z.to_nat (SingleMesh.stride c))%nat = Some p)
            (seq 0 k) picked /\
    rendered_files (trace w')
    = rendered_files (trace w)
      ++ map (fun p => path_join (SingleMesh.outPath c) (path_stem p +:+ ".png")) picked.
Proof.
  intros Hstride Hfiles Hmain.
  destruct (single_mesh_main_enters c fuel w) as [[e He]|Hm]; [congruence|].
  rewrite Hm, Hfiles in Hmain. clear Hm.
  set (out := fun p => path_join (SingleMesh.outPath c) (path_stem p +:+ ".png")).
  set (Inv := fun (l : SingleMesh.locals) (w1 : world) =>
                SingleMesh.npy_files l = files /\
                exists (k : nat) (picked : list string),
                  SingleMesh.fileId l = Z.of_nat k * SingleMesh.stride c /\
                  Forall2 (fun j p => files !! (j * Z.to_nat (SingleMesh.stride c))%nat
                                      = Some p)
                          (seq 0 k) picked /\
                  rendered_files (trace w1)
                  = rendered_files (trace w) ++ map out picked).
  destruct (while_stops_from (SingleMesh.loop_body c (SingleMesh.target_obj_name c)) Inv)
    with (fuel := fuel) (l := SingleMesh.Locals 0 files)
         (w := w) (l' := l) (w' := w') as [l0 [w0 [[Hl0 [k [picked [Hid [Hpick Htr]]]]] Hstop]]].
  - intros l1 w1 l2 w2 [Hl1 [k [picked [Hid [Hpick Htr]]]]] Hpass.
    destruct (single_mesh_pass_files c _ l1 l2 w1 w2 Hpass)
      as [[-> Hsame]|[npy_path [Hget [-> Hnew]]]].
    + split; [cbn; apply Hfiles|]. exists k, picked. cbn. rewrite Hsame. auto.
    + split; [exact Hl1|]. exists (S k), (picked ++ [npy_path]). cbn [SingleMesh.fileId].
      split; [lia|]. split.
      * rewrite seq_S. apply Forall2_app; [exact Hpick|].
        constructor; [|constructor]. cbn [Nat.add].
        unfold py_getitem in Hget. rewrite Hl1, Hid in Hget.
        destruct (Z.ltb_spec (Z.of_nat k * SingleMesh.stride c) 0); [lia|].
        destruct (Z.leb_spec 0 (Z.of_nat k * SingleMesh.stride c)); [|lia].
        replace (Z.to_nat (Z.of_nat k * SingleMesh.stride c))
          with (k * Z.to_nat (SingleMesh.stride c))%nat in Hget by lia.
        destruct (files !! _); [now injection Hget as -> | discriminate].
      * rewrite Hnew, Htr, map_app, <- app_assoc. reflexivity.
  - split; [reflexivity|]. exists 0%nat, []. cbn. split; [lia|].
    split; [constructor|]. now rewrite app_nil_r.
  - exact Hmain.
  - unfold SingleMesh.loop_body in Hstop.
    destruct (SingleMesh.fileId l0 <? SingleMesh.numFrames c); cbn [negb] in Hstop.
    + exfalso. revert Hstop.
      destruct (_ <=? _).
      * unfold bind, sleep, glob, ret. discriminate.
      * unfold bind at 1. destruct (lift _ w0) as [[p|e] w1]; [|discriminate].
        unfold bind at 1. destruct (SingleMesh.load_vertices c p w1) as [[V|e] w2];
          [|discriminate].
        unfold bind at 1. destruct (Strict.update_mesh_vertices _ V w2) as [[[]|e] w3];
          [|discriminate].
        unfold bind, render, emit, ret. discriminate.
    + injection Hstop as <- <-. exists k, picked. auto.
Qed.

(** X6. A run that ends without an exception has rendered
    [ceil(numFrames / stride)] images, and [fileId] ends at that count
    times [stride], which is not below [numFrames]; when the listing of
    the folder stays as it is, the images are those of the files 0,
    [stride], 2 [stride], ... of the listing, in that order, each named
    after its file. *)
Theorem single_mesh_renders_every_stride `{Host} (c : SingleMesh.config) (fuel : nat)
    (w w' : world) (l : SingleMesh.locals) :
  1 <= SingleMesh.stride c ->
  SingleMesh.main c fuel w = Some (Ok l, w') ->
  let rendered :=
    Z.to_nat ((SingleMesh.numFrames c + SingleMesh.stride c - 1) / SingleMesh.stride c) in
  count_renders (trace w') = (count_renders (trace w) + rendered)%nat /\
  SingleMesh.fileId l = Z.of_nat rendered * SingleMesh.stride c /\
  SingleMesh.numFrames c <= SingleMesh.fileId l /\
  (forall files,
     (forall t, glob_sorted (SingleMesh.npy_pattern c) t = files) ->
     exists picked,
       Forall2 (fun j p => files !! (j * Z.to_nat (SingleMesh.stride c))%nat = Some p)
               (seq 0 rendered) picked /\
       rendered_files (trace w')
       = rendered_files (trace w)
         ++ map (fun p => path_join (SingleMesh.outPath c) (path_stem p +:+ ".png"))
                picked).
Proof.
  intros Hstride Hmain rendered.
  assert (Hfiles : forall k : nat,
             SingleMesh.fileId l = Z.of_nat k * SingleMesh.stride c ->
             SingleMesh.fileId l = Z.of_nat rendered * SingleMesh.stride c ->
             k = rendered) by (intros k Hk Hr; nia).
  pose proof (single_mesh_rendered_files c fuel w w' l) as Hpicked.
  specialize (fun files Hst => Hpicked files Hstride Hst Hmain).
  cut (count_renders (trace w') = (count_renders (trace w) + rendered)%nat /\
       SingleMesh.fileId l = Z.of_nat rendered * SingleMesh.stride c /\
       SingleMesh.numFrames c <= SingleMesh.fileId l).
  { intros [Hc [Hid Hge]]. split; [exact Hc|]. split; [exact Hid|]. split; [exact Hge|].
    intros files Hst. destruct (Hpicked files Hst) as [k [picked [Hk [Hpick Htr]]]].
    rewrite (Hfiles k Hk Hid) in Hpick. eauto. }
  clear Hfiles Hpicked.
  destruct (single_mesh_main_enters c fuel w) as [[e He]|Hm]; [congruence|].
  rewrite Hm in Hmain. clear Hm.
  set (Inv := fun (l : SingleMesh.locals) (w1 : world) =>
                exists k : nat,
                  SingleMesh.fileId l = Z.of_nat k * SingleMesh.stride c /\
                  count_renders (trace w1) = (count_renders (trace w) + k)%nat /\
                  (k = 0%nat \/
                   (Z.of_nat k - 1) * SingleMesh.stride c < SingleMesh.numFrames c)).
  destruct (while_stops_from (SingleMesh.loop_body c (SingleMesh.target_obj_name c)) Inv)
    with (fuel := fuel)
         (l := SingleMesh.Locals 0 (glob_sorted (SingleMesh.npy_pattern c) (clock w)))
         (w := w) (l' := l) (w' := w') as [l0 [w0 [[k [Hid [Hcount Hk]]] Hstop]]].
  - intros l1 w1 l2 w2 [k [Hid [Hcount Hk]]] Hpass.
    destruct (single_mesh_pass c _ l1 l2 w1 w2 Hpass)
      as [Hlt [[_ [-> [_ Hc]]]|[_ [-> [_ Hc]]]]].
    + exists k. cbn. rewrite Hc. auto.
    + exists (S k). cbn. rewrite Hc, Hcount, Hid. repeat split; [lia | lia |].
      right. lia.
  - exists 0%nat. cbn. repeat split; [lia|]. now left.
  - exact Hmain.
  - unfold SingleMesh.loop_body in Hstop.
    destruct (Z.ltb_spec (SingleMesh.fileId l0) (SingleMesh.numFrames c))
      as [Hlt|Hge]; cbn [negb] in Hstop.
    + exfalso. revert Hstop.
      destruct (_ <=? _).
      * unfold bind, sleep, glob, ret. discriminate.
      * unfold bind at 1. destruct (lift _ w0) as [[p|e] w1]; [|discriminate].
        unfold bind at 1. destruct (SingleMesh.load_vertices c p w1) as [[V|e] w2];
          [|discriminate].
        unfold bind at 1. destruct (Strict.update_mesh_vertices _ V w2) as [[[]|e] w3];
          [|discriminate].
        unfold bind, render, emit, ret. discriminate.
    + injection Hstop as <- <-.
      assert (Hr : rendered = k).
      { unfold rendered. destruct Hk as [->|Hk].
        - assert ((SingleMesh.numFrames c + SingleMesh.stride c - 1) / SingleMesh.stride c <= 0);
            [|lia].
          apply Z.lt_succ_r. apply Z.div_lt_upper_bound; lia.
        - rewrite <- (Nat2Z.id k) at 1. f_equal. symmetry.
          apply (Z.div_unique _ _ _
                   (SingleMesh.numFrames c + SingleMesh.stride c - 1
                    - Z.of_nat k * SingleMesh.stride c)); lia. }
      rewrite Hr. repeat split; [assumption | assumption | lia].
Qed.

(** X6 for the unroll renderer with a target of one frame. *)
Lemma single_mesh_renders_every_stride_witness :
  exists l w',
    @SingleMesh.main Examples.unroll_host (Unroll.config Examples.unroll_args) 2
                     Examples.unroll_scene = Some (Ok l, w') /\
    count_renders (trace w') = 1%nat /\
    SingleMesh.fileId l = 1 /\
    rendered_files (trace w') = ["data/Rendering_subdiv/frame_000000.png"].
Proof.
  eexists. eexists. split; [vm_compute; reflexivity|].
  destruct (@single_mesh_renders_every_stride Examples.unroll_host
              (Unroll.config Examples.unroll_args) 2 Examples.unroll_scene
              _ _ ltac:(cbn; lia) eq_refl) as [Hc [Hid [_ Hfiles]]].
  split; [exact Hc|]. split; [exact Hid|].
  destruct (Hfiles ["data/frame_000000.npy"] (fun _ => eq_refl)) as [picked [Hpick Htr]].
  inversion Hpick as [|j p js ps Hp Hrest]; subst. inversion Hrest; subst.
  injection Hp as <-. exact Htr.
Defined.

(** ** Multi-physics/run.py: where the cloth starts by default *)

Lemma cloth_start_fold (soft : list MultiPhysics.particle_mesh) (acc : Z) :
  let step := fun ps sb =>
                let end_ := MultiPhysics.particle_start sb + MultiPhysics.num_vertices sb in
                if ps <? end_ then end_ else ps in
  let r := fold_left step soft acc in
  acc <= r /\
  (forall sb, In sb soft ->
     MultiPhysics.particle_start sb + MultiPhysics.num_vertices sb <= r) /\
  (r = acc \/
   exists sb, In sb soft /\
     r = MultiPhysics.particle_start sb + MultiPhysics.num_vertices sb).
Proof.
  intros step. revert acc. induction soft as [|sb soft IH]; intros acc; cbn [fold_left].
  - repeat split; [lia | intros sb [] | now left].
  - destruct (IH (step acc sb)) as [Hle [Hall Hwhich]].
    assert (Hstep : acc <= step acc sb /\
                    MultiPhysics.particle_start sb + MultiPhysics.num_vertices sb
                    <= step acc sb /\
                    (step acc sb = acc \/
                     step acc sb
                     = MultiPhysics.particle_start sb + MultiPhysics.num_vertices sb)).
    { unfold step. cbv zeta. destruct (Z.ltb_spec acc
        (MultiPhysics.particle_start sb + MultiPhysics.num_vertices sb)); lia. }
    destruct Hstep as [H1 [H2 H3]].
    split; [lia|]. split.
    + intros sb' [<-|Hin]; [lia | now apply Hall].
    + destruct Hwhich as [Hr|[sb' [Hin Hr]]].
      * destruct H3 as [H3|H3]; [left; congruence|].
        right. exists sb. split; [now left | congruence].
      * right. exists sb'. split; [now right | assumption].
Qed.

(** X7. A cloth whose manifest entry has no [particle_start] starts at
    the largest end of the soft bodies that were mapped (at row 0 when
    there is none, or when all of them end at or below 0): its rows lie
    after the rows of every mapped soft body. *)
Theorem cloth_starts_after_soft_bodies (mi : MultiPhysics.mesh_info)
    (soft : list MultiPhysics.particle_mesh) (w : world) (ci : MultiPhysics.cloth_info) :
  MultiPhysics.cloth mi = Some ci ->
  MultiPhysics.ci_particle_start ci = None ->
  has_mesh w (MultiPhysics.ci_name ci) = true ->
  exists cm,
    MultiPhysics.build_cloth_mesh mi soft w = (Ok (Some cm), w) /\
    MultiPhysics.particle_start cm = MultiPhysics.cloth_start_after soft /\
    MultiPhysics.num_vertices cm = MultiPhysics.ci_num_vertices ci /\
    0 <= MultiPhysics.particle_start cm /\
    (forall sb, In sb soft ->
       MultiPhysics.particle_start sb + MultiPhysics.num_vertices sb
       <= MultiPhysics.particle_start cm) /\
    (MultiPhysics.particle_start cm = 0 \/
     exists sb, In sb soft /\
       MultiPhysics.particle_start cm
       = MultiPhysics.particle_start sb + MultiPhysics.num_vertices sb).
Proof.
  intros Hcloth Hps Hmesh. rewrite build_cloth_mesh_spec, Hcloth, Hmesh, Hps.
  eexists. split; [reflexivity|]. cbn.
  destruct (cloth_start_fold soft 0) as [H0 [Hall Hwhich]].
  repeat split; assumption.
Qed.

(** X7 with soft bodies on rows 0 to 3 and 4 to 6: the cloth starts at row 7. *)
Lemma cloth_starts_after_soft_bodies_witness :
  exists cm,
    MultiPhysics.build_cloth_mesh
      (MultiPhysics.MeshInfo [] [] (Some (MultiPhysics.ClothInfo "ball" None 2)))
      [MultiPhysics.ParticleMesh "a" "a" 0 4; MultiPhysics.ParticleMesh "b" "b" 4 3]
      Examples.ball_scene
    = (Ok (Some cm), Examples.ball_scene) /\
    MultiPhysics.particle_start cm = 7.
Proof.
  destruct (cloth_starts_after_soft_bodies
              (MultiPhysics.MeshInfo [] [] (Some (MultiPhysics.ClothInfo "ball" None 2)))
              [MultiPhysics.ParticleMesh "a" "a" 0 4; MultiPhysics.ParticleMesh "b" "b" 4 3]
              Examples.ball_scene (MultiPhysics.ClothInfo "ball" None 2)
              eq_refl eq_refl eq_refl) as [cm [Hrun [Hstart _]]].
  exists cm. split; [exact Hrun | exact Hstart].
Defined.

(** ** Multi-physics/run.py: a body index outside the pose array *)

(** X8. A rigid body whose index is not below the number of poses is
    skipped without a message; a negative index counts from the end of
    the pose array, and one below minus the number of poses is an
    [IndexError]. *)
Theorem rigid_body_index_edges `{Host} (a : MultiPhysics.args) (body_q : ndarray)
    (nb : nat) (rest : list nat) (obj name : string) (lv : ndarray) (w : world) :
  shape body_q = nb :: rest ->
  (forall idx, Z.of_nat nb <= idx ->
     MultiPhysics.update_rigid_mesh a body_q (MultiPhysics.RigidMesh obj name idx lv) w
     = (Ok tt, w)) /\
  (forall idx, - Z.of_nat nb <= idx < 0 ->
     MultiPhysics.update_rigid_mesh a body_q (MultiPhysics.RigidMesh obj name idx lv) w
     = MultiPhysics.update_rigid_mesh a body_q
         (MultiPhysics.RigidMesh obj name (idx + Z.of_nat nb) lv) w) /\
  (forall idx, idx < - Z.of_nat nb ->
     MultiPhysics.update_rigid_mesh a body_q (MultiPhysics.RigidMesh obj name idx lv) w
     = (Raise IndexError, w)).
Proof.
  intros Hshape. unfold MultiPhysics.update_rigid_mesh, bind, lift, np_len.
  rewrite Hshape. cbn [MultiPhysics.body_idx MultiPhysics.local_verts MultiPhysics.rm_obj].
  split; [|split]; intros idx Hidx.
  - destruct (Z.ltb_spec idx (Z.of_nat nb)); [lia | reflexivity].
  - destruct (Z.ltb_spec idx (Z.of_nat nb)); [|lia].
    destruct (Z.ltb_spec (idx + Z.of_nat nb) (Z.of_nat nb)); [|lia].
    unfold getitem0. rewrite Hshape.
    destruct (Z.ltb_spec idx 0); [|lia].
    destruct (Z.ltb_spec (idx + Z.of_nat nb) 0); [lia|]. reflexivity.
  - destruct (Z.ltb_spec idx (Z.of_nat nb)); [|lia].
    unfold getitem0. rewrite Hshape.
    destruct (Z.ltb_spec idx 0); [|lia].
    destruct (Z.leb_spec 0 (idx + Z.of_nat nb)); [lia|]. reflexivity.
Qed.

(** X8 on a pose array of one body: index 1 is skipped, -1 is body 0, -2 is
    out of range. *)
Lemma rigid_body_index_edges_witness :
  @MultiPhysics.update_rigid_mesh Examples.one_frame_host Examples.batch_args
     Examples.one_pose (MultiPhysics.RigidMesh "crate" "crate" 1 Examples.three_rows)
     Examples.crate_scene
  = (Ok tt, Examples.crate_scene) /\
  @MultiPhysics.update_rigid_mesh Examples.one_frame_host Examples.batch_args
     Examples.one_pose (MultiPhysics.RigidMesh "crate" "crate" (-1) Examples.three_rows)
     Examples.crate_scene
  = @MultiPhysics.update_rigid_mesh Examples.one_frame_host Examples.batch_args
      Examples.one_pose Examples.crate Examples.crate_scene /\
  @MultiPhysics.update_rigid_mesh Examples.one_frame_host Examples.batch_args
     Examples.one_pose (MultiPhysics.RigidMesh "crate" "crate" (-2) Examples.three_rows)
     Examples.crate_scene
  = (Raise IndexError, Examples.crate_scene).
Proof.
  destruct (@rigid_body_index_edges Examples.one_frame_host Examples.batch_args
              Examples.one_pose 1 [7%nat] "crate" "crate" Examples.three_rows
              Examples.crate_scene eq_refl) as [Hhigh [Hneg Hlow]].
  split; [apply Hhigh; lia|]. split; [apply (Hneg (-1)); lia | apply Hlow; lia].
Defined.

(** ** bullet/load_frame.py: [load_frame] *)

Lemma bullet_load_frame_cases `{Host} (frame_num : Z) (data_path mesh_name : string)
    (w : world) :
  Bullet.load_frame frame_num data_path mesh_name w
  = match disk (clock w)
            !! path_join data_path ("frame_" +:+ format_06d frame_num +:+ ".npy") with
    | None => (Ok false, add_event w EvPrintError)
    | Some V =>
        match objects w !! mesh_name with
        | None => (Ok false, add_event w EvPrintError)
        | Some _ =>
            match shape_at V 0 with
            | Raise e => (Raise e, w)
            | Ok _ => Bullet.update_mesh_vertices mesh_name V w
            end
        end
    end.
Proof.
  unfold Bullet.load_frame, bind, path_exists, objects_get, np_load, lift.
  destruct (disk (clock w) !! _) as [V|] eqn:Hdisk.
  - rewrite bool_decide_eq_true_2 by eauto. cbn [negb].
    destruct (objects w !! mesh_name) as [o|]; [|reflexivity].
    rewrite Hdisk. destruct (shape_at V 0) as [n|e]; [|reflexivity].
    destruct (Bullet.update_mesh_vertices mesh_name V w) as [[[]|e] w1]; reflexivity.
  - rewrite bool_decide_eq_false_2 by (intros [? ?]; discriminate). reflexivity.
Qed.

Lemma bullet_update_not_OSError `{Host} (obj : string) (V : ndarray) (w : world) :
  fst (Bullet.update_mesh_vertices obj V w) <> Raise OSError.
Proof.
  unfold Bullet.update_mesh_vertices, bind, mesh_vertices, lift, foreach_set_co.
  destruct (objects w !! obj) as [[vs|]|]; try discriminate.
  destruct (shape_at V 0) as [n|e] eqn:Hs;
    [|cbn; intros [= ->]; now apply (shape_at_not_OSError V 0)].
  destruct (negb _); [cbn; discriminate|].
  destruct (objects w !! obj) as [[vs'|]|]; try (cbn; discriminate).
  cbv zeta. destruct (_ <=? _)%nat; cbn; discriminate.
Qed.

(** X9. [load_frame] looks for the file before it loads it: a missing
    file gives [False] and an error message. A file of shape (N,3) for
    a mesh of N vertices gives [True] with the mesh overwritten by the
    rows of the file in single precision. Only the row count is
    checked: a file of N rows that holds more than 3N values gives
    [True] as well, and the mesh gets its first 3N values. A result
    [False] leaves the objects as they were, and no call ends in an
    [OSError]. *)
Theorem bullet_load_frame_spec `{Host} (frame_num : Z) (data_path mesh_name : string)
    (w : world) :
  let npy_file := path_join data_path ("frame_" +:+ format_06d frame_num +:+ ".npy") in
  (disk (clock w) !! npy_file = None ->
   Bullet.load_frame frame_num data_path mesh_name w = (Ok false, add_event w EvPrintError)) /\
  (forall V vs,
     disk (clock w) !! npy_file = Some V ->
     objects w !! mesh_name = Some (MeshData vs) ->
     wf_array V ->
     shape V = [length vs; 3%nat] ->
     Bullet.load_frame frame_num data_path mesh_name w
     = (Ok true, set_mesh w mesh_name (rows3 (astype_float32 V)))) /\
  (forall V vs,
     disk (clock w) !! npy_file = Some V ->
     objects w !! mesh_name = Some (MeshData vs) ->
     shape_at V 0 = Ok (length vs) ->
     (3 * length vs <= length (data V))%nat ->
     Bullet.load_frame frame_num data_path mesh_name w
     = (Ok true,
        set_mesh w mesh_name
                 (triples (take (3 * length vs) (data (astype_float32 V)))))) /\
  fst (Bullet.load_frame frame_num data_path mesh_name w) <> Raise OSError /\
  (forall w', Bullet.load_frame frame_num data_path mesh_name w = (Ok false, w') ->
     objects w' = objects w).
Proof.
  intros npy_file. rewrite bullet_load_frame_cases. fold npy_file.
  split; [|split; [|split; [|split]]].
  - now intros ->.
  - intros V vs -> Hobj Hwf Hs. rewrite Hobj. unfold shape_at. rewrite Hs. cbn [lookup].
    now apply (bullet_update_rows mesh_name V w vs).
  - intros V vs -> Hobj Hrows Hsize. rewrite Hobj, Hrows.
    now apply (bullet_update_accept mesh_name V w vs).
  - destruct (disk (clock w) !! npy_file) as [V|]; [|cbn; discriminate].
    destruct (objects w !! mesh_name) as [o|]; [|cbn; discriminate].
    destruct (shape_at V 0) as [n|e] eqn:Hs;
      [|cbn; intros [= ->]; now apply (shape_at_not_OSError V 0)].
    apply bullet_update_not_OSError.
  - intros w'. destruct (disk (clock w) !! npy_file) as [V|]; [|now intros [= <-]].
    destruct (objects w !! mesh_name) as [o|]; [|now intros [= <-]].
    destruct (shape_at V 0) as [n|e]; [|discriminate].
    apply bullet_update_objects.
Qed.

(** X9 for frame 0 of two rows and a mesh of two vertices. *)
Lemma bullet_load_frame_spec_witness :
  @Bullet.load_frame Examples.one_frame_host 0 "data" "layer0" Examples.layer_scene
  = (Ok true,
     set_mesh Examples.layer_scene "layer0"
              (rows3 (@astype_float32 Examples.one_frame_host Examples.two_rows))).
Proof.
  destruct (@bullet_load_frame_spec Examples.one_frame_host 0 "data" "layer0"
              Examples.layer_scene) as (_ & Hload & _).
  apply (Hload Examples.two_rows [(0, 0, 0); (0, 0, 0)]%R);
    [reflexivity | reflexivity | apply wf_of_rows3 | reflexivity].
Defined.

(** ** [update_mesh_vertices]: a frame replaces the one before *)

Lemma set_mesh_set_mesh (w : world) (obj : string) (vs1 vs2 : list vec3) :
  set_mesh (set_mesh w obj vs1) obj vs2 = set_mesh w obj vs2.
Proof. unfold set_mesh. cbn. now rewrite insert_insert_eq. Qed.

(** X10. The vertices a mesh has after an update are the rows of the
    array in single precision, whatever it held before: of two frames
    applied one after the other only the second is left, applying a
    frame twice is applying it once, and the mesh reads back the rows
    of [V.astype(float32)], not those of [V]. *)
Theorem update_mesh_vertices_overwrites `{Host} (obj : string) (V1 V2 : ndarray)
    (w : world) (vs : list vec3) :
  objects w !! obj = Some (MeshData vs) ->
  wf_array V1 -> wf_array V2 ->
  shape V1 = [length vs; 3%nat] ->
  shape V2 = [length vs; 3%nat] ->
  (Strict.update_mesh_vertices obj V1 ;;; Strict.update_mesh_vertices obj V2) w
  = Strict.update_mesh_vertices obj V2 w /\
  (Strict.update_mesh_vertices obj V2 ;;; Strict.update_mesh_vertices obj V2) w
  = Strict.update_mesh_vertices obj V2 w /\
  (Strict.update_mesh_vertices obj V2 ;;; mesh_vertices obj) w
  = (Ok (map float32_vec (rows3 V2)), set_mesh w obj (map float32_vec (rows3 V2))).
Proof.
  intros Hobj Hwf1 Hwf2 Hs1 Hs2.
  assert (Hafter : forall V, wf_array V -> shape V = [length vs; 3%nat] ->
            objects (set_mesh w obj (rows3 (astype_float32 V))) !! obj
            = Some (MeshData (rows3 (astype_float32 V))) /\
            length (rows3 (astype_float32 V)) = length vs).
  { intros V Hwf Hs. split; [apply lookup_insert_eq|].
    rewrite rows3_astype_float32, length_map. now apply length_rows3. }
  destruct (Hafter V1 Hwf1 Hs1) as [Ho1 Hl1]. destruct (Hafter V2 Hwf2 Hs2) as [Ho2 Hl2].
  unfold bind. rewrite (strict_update_accept obj V1 w vs), (strict_update_accept obj V2 w vs)
    by assumption.
  rewrite (strict_update_accept obj V2 _ (rows3 (astype_float32 V1)))
    by (rewrite ?Hl1; assumption).
  rewrite (strict_update_accept obj V2 _ (rows3 (astype_float32 V2)))
    by (rewrite ?Hl2; assumption).
  rewrite !set_mesh_set_mesh. unfold mesh_vertices. rewrite Ho2.
  rewrite rows3_astype_float32. auto.
Qed.

(** X10 with two frames of two rows on a mesh of two vertices. *)
Lemma update_mesh_vertices_overwrites_witness :
  (@Strict.update_mesh_vertices Examples.empty_host "layer0" Examples.two_rows ;;;
   @Strict.update_mesh_vertices Examples.empty_host "layer0" Examples.moved_rows)
    Examples.layer_scene
  = @Strict.update_mesh_vertices Examples.empty_host "layer0" Examples.moved_rows
      Examples.layer_scene /\
  (@Strict.update_mesh_vertices Examples.empty_host "layer0" Examples.moved_rows ;;;
   mesh_vertices "layer0") Examples.layer_scene
  = (Ok (map (@float32_vec Examples.empty_host) (rows3 Examples.moved_rows)),
     set_mesh Examples.layer_scene "layer0"
              (map (@float32_vec Examples.empty_host) (rows3 Examples.moved_rows))).
Proof.
  destruct (@update_mesh_vertices_overwrites Examples.empty_host
              "layer0" Examples.two_rows Examples.moved_rows
              Examples.layer_scene [(0, 0, 0); (0, 0, 0)]%R)
    as [Hlast [_ Hread]]; try reflexivity; try apply wf_of_rows3.
  split; [exact Hlast | exact Hread].
Defined.

(** ** cloth_drop/run_slowmo_orbit.py: the source frames *)

Lemma py_range3_forward (start stop step : Z) :
  1 <= step ->
  exists l,
    py_range3 start stop step = Ok l /\
    (forall i, In i l <-> start <= i < stop /\ (i - start) mod step = 0) /\
    (forall k, (k < length l)%nat -> l !! k = Some (start + Z.of_nat k * step)).
Proof.
  intros Hstep. unfold py_range3.
  destruct (Z.eqb_spec step 0); [lia|].
  destruct (Z.ltb_spec 0 step); [|lia].
  set (len := Z.to_nat ((stop - start + step - 1) / step)).
  assert (Hlen : forall k : nat, (k < len)%nat <-> start + Z.of_nat k * step < stop).
  { intros k. unfold len. split.
    - intros Hk.
      assert (Z.of_nat k + 1 <= (stop - start + step - 1) / step) by lia.
      destruct (Z.lt_ge_cases (start + Z.of_nat k * step) stop) as [|Hge]; [assumption|].
      exfalso.
      assert ((stop - start + step - 1) / step < Z.of_nat k + 1); [|lia].
      apply Z.div_lt_upper_bound; nia.
    - intros Hk.
      assert (Z.of_nat k + 1 <= (stop - start + step - 1) / step); [|lia].
      apply Z.div_le_lower_bound; nia. }
  eexists. split; [reflexivity|]. split.
  - intros i. rewrite in_map_iff. split.
    + intros [k [<- Hk%in_seq]]. split.
      * assert (k < len)%nat as Hk'%Hlen by lia. nia.
      * replace (start + Z.of_nat k * step - start) with (Z.of_nat k * step) by lia.
        apply Z_mod_mult.
    + intros [[Hlo Hhi] Hmod].
      apply Z.mod_divide in Hmod; [|lia]. destruct Hmod as [q Hq].
      assert (0 <= q) by nia.
      exists (Z.to_nat q). split; [lia|].
      apply in_seq. split; [lia|]. cbn. apply Hlen. lia.
  - intros k Hk. rewrite length_map, length_seq in Hk.
    rewrite list_lookup_fmap, lookup_seq_lt by assumption. reflexivity.
Qed.

(** X12. With a stride of at least 1 the source frames are [startFrame],
    [startFrame + stride], ... up to [endFrame] and to the last file that
    exists, whichever comes first; a start frame that is not negative
    then never indexes the listing out of range. A stride of 0 is
    refused with [ValueError]. *)
Theorem source_indices_spec (a : SlowmoOrbit.args) (n : nat) :
  (SlowmoOrbit.stride a = 0 -> SlowmoOrbit.source_indices_of a n = Raise ValueError) /\
  (1 <= SlowmoOrbit.stride a ->
   exists l,
     SlowmoOrbit.source_indices_of a n = Ok l /\
     (forall i, In i l <->
        SlowmoOrbit.startFrame a <= i <= SlowmoOrbit.endFrame a /\
        i < Z.of_nat n /\
        (i - SlowmoOrbit.startFrame a) mod SlowmoOrbit.stride a = 0) /\
     (forall k, (k < length l)%nat ->
        l !! k = Some (SlowmoOrbit.startFrame a + Z.of_nat k * SlowmoOrbit.stride a)) /\
     (0 <= SlowmoOrbit.startFrame a ->
      forall (files : list string), length files = n ->
      forall i, In i l -> exists p, py_getitem files i = Ok p)).
Proof.
  unfold SlowmoOrbit.source_indices_of. split.
  - intros ->. reflexivity.
  - intros Hstride.
    set (end_frame := if Z.of_nat n <=? SlowmoOrbit.endFrame a
                      then Z.of_nat n - 1 else SlowmoOrbit.endFrame a).
    destruct (py_range3_forward (SlowmoOrbit.startFrame a) (end_frame + 1)
                (SlowmoOrbit.stride a) Hstride) as [l [Hl [Hin Hlook]]].
    assert (Hin' : forall i, In i l <->
              SlowmoOrbit.startFrame a <= i <= SlowmoOrbit.endFrame a /\
              i < Z.of_nat n /\
              (i - SlowmoOrbit.startFrame a) mod SlowmoOrbit.stride a = 0).
    { intros i. rewrite Hin. unfold end_frame.
      destruct (Z.leb_spec (Z.of_nat n) (SlowmoOrbit.endFrame a)); intuition lia. }
    exists l. split; [exact Hl|]. split; [exact Hin'|]. split; [exact Hlook|].
    intros Hstart files Hfiles i [[Hlo _] [Hhi _]]%Hin'.
    unfold py_getitem. destruct (Z.ltb_spec i 0); [lia|].
    destruct (Z.leb_spec 0 i); [|lia].
    destruct (lookup_lt_is_Some_2 files (Z.to_nat i)) as [p Hp]; [lia|].
    rewrite Hp. eauto.
Qed.

(** X12 with two files, from frame 0 with stride 1: the second source frame
    is frame 1. *)
Lemma source_indices_spec_witness :
  exists l,
    SlowmoOrbit.source_indices_of Examples.slowmo_args 2 = Ok l /\
    l !! 1%nat = Some 1.
Proof.
  destruct (source_indices_spec Examples.slowmo_args 2) as [_ Hok].
  destruct Hok as (l & Hl & _ & Hnth & _); [cbn; lia|].
  exists l. split; [exact Hl|].
  assert (Hlen : length l = 2%nat).
  { vm_compute in Hl. now injection Hl as <-. }
  rewrite (Hnth 1%nat) by lia. reflexivity.
Defined.

(** ** Exceptions that cannot occur *)

Lemma never_raises_ret (e : exn) {A} (x : A) : never_raises e (ret x).
Proof. intros w. discriminate. Qed.

Lemma never_raises_lift (e : exn) {A} (r : result A) :
  r <> Raise e -> never_raises e (lift r).
Proof. intros Hr w. exact Hr. Qed.

Lemma never_raises_raise (e e' : exn) {A} : e' <> e -> never_raises e (@raise A e').
Proof. intros Hne w [= ->]. now apply Hne. Qed.

Lemma never_raises_bind (e : exn) {A B} (m : M A) (k : A -> M B) :
  never_raises e m -> (forall x, never_raises e (k x)) -> never_raises e (bind m k).
Proof.
  intros Hm Hk w. unfold bind. specialize (Hm w).
  destruct (m w) as [[x|e'] w1]; cbn [fst] in *; [apply Hk|].
  intros [= ->]. now apply Hm.
Qed.

(** The continuation may rely on what a successful first part returns. *)
Lemma never_raises_bind_post (e : exn) {A B} (m : M A) (k : A -> M B) (Q : A -> Prop) :
  (forall w x w', m w = (Ok x, w') -> Q x) ->
  never_raises e m -> (forall x, Q x -> never_raises e (k x)) ->
  never_raises e (bind m k).
Proof.
  intros HQ Hm Hk w. unfold bind. specialize (Hm w). specialize (HQ w).
  destruct (m w) as [[x|e'] w1]; cbn [fst] in *; [apply Hk; eauto|].
  intros [= ->]. now apply Hm.
Qed.

Lemma never_raises_for_fold (e : exn) {A S} (l : list A) (body : A -> S -> M S) (s : S) :
  (forall x s, In x l -> never_raises e (body x s)) -> never_raises e (for_fold l body s).
Proof.
  revert s. induction l as [|x l IH]; intros s Hb; cbn [for_fold].
  - apply never_raises_ret.
  - apply never_raises_bind; [apply Hb; now left|].
    intros s'. apply IH. intros y s0 Hy. apply Hb. now right.
Qed.

Lemma strict_update_raises `{Host} (obj : string) (V : ndarray) (w : world) (e : exn) :
  fst (Strict.update_mesh_vertices obj V w) = Raise e ->
  e = ValueError \/ e = AttributeError \/ e = IndexError \/ e = RuntimeError.
Proof.
  unfold Strict.update_mesh_vertices.
  destruct (_ || _); [cbn; intros [= <-]; auto|].
  unfold bind, mesh_vertices, lift, shape_at, foreach_set_co.
  destruct (objects w !! obj) as [[vs|]|] eqn:Hobj; try (cbn; intros [= <-]; auto).
  destruct (shape V !! 0%nat); [|cbn; intros [= <-]; auto].
  destruct (negb _); [cbn; intros [= <-]; auto|].
  rewrite Hobj. cbv zeta. destruct (_ <=? _)%nat; cbn; [discriminate|intros [= <-]; auto].
Qed.

Lemma never_raises_update_mesh_vertices `{Host} (e : exn) (obj : string) (V : ndarray) :
  e = ZeroDivisionError \/ e = KeyError ->
  never_raises e (Strict.update_mesh_vertices obj V).
Proof.
  intros He w Hr. apply strict_update_raises in Hr.
  destruct He as [->| ->]; decompose [or] Hr; discriminate.
Qed.

Lemma py_getitem_raises {A} (l : list A) (i : Z) (e : exn) :
  py_getitem l i = Raise e -> e = IndexError.
Proof.
  unfold py_getitem. destruct (0 <=? _); [|now intros [= <-]].
  destruct (l !! _); [discriminate | now intros [= <-]].
Qed.

Lemma slice0_raises (V : ndarray) (lo hi : option Z) (e : exn) :
  slice0 V lo hi = Raise e -> e = IndexError.
Proof. unfold slice0. destruct (shape V); [now intros [= <-] | discriminate]. Qed.

Lemma lerp_vertices_raises `{Host} (v0 v1 : ndarray) (t : R) (e : exn) :
  SlowmoOrbit.lerp_vertices v0 v1 t = Raise e -> e = ValueError.
Proof.
  unfold SlowmoOrbit.lerp_vertices, np_broadcast2.
  destruct (broadcast_shapes _ _); [discriminate | now intros [= <-]].
Qed.

Lemma py_truediv_raises `{Host} (x y : Z) (e : exn) :
  py_truediv x y = Raise e -> y = 0.
Proof. unfold py_truediv. destruct (Z.eqb_spec y 0); [auto | discriminate]. Qed.

Lemma py_range3_raises (start stop step : Z) (e : exn) :
  py_range3 start stop step = Raise e -> e = ValueError.
Proof. unfold py_range3. destruct (step =? 0); [now intros [= <-] | discriminate]. Qed.

Lemma never_raises_update_all_meshes `{Host} (e : exn) (V : ndarray) (mesh_objs : list string)
    (counts : list nat) :
  e = ZeroDivisionError \/ e = KeyError ->
  never_raises e (SlowmoOrbit.update_all_meshes V mesh_objs counts).
Proof.
  intros He. unfold SlowmoOrbit.update_all_meshes.
  apply never_raises_for_fold. intros item start_v _.
  apply never_raises_bind; [|intros n].
  { apply never_raises_lift. intros Hr%py_getitem_raises. destruct He; congruence. }
  apply never_raises_bind; [|intros V'].
  { apply never_raises_lift. intros Hr%slice0_raises. destruct He; congruence. }
  apply never_raises_bind; [now apply never_raises_update_mesh_vertices|intros _].
  apply never_raises_ret.
Qed.

Lemma never_raises_render_sub_frame `{Host} (e : exn) (a : SlowmoOrbit.args)
    (mesh_objs : list string) (counts : list nat) (icl : Vector) (total : Z)
    (frame_a frame_b : ndarray) (sub_idx output_idx : Z) :
  e = KeyError \/ (e = ZeroDivisionError /\ SlowmoOrbit.slowdown a <> 0 /\ total <> 0) ->
  never_raises e (SlowmoOrbit.render_sub_frame a mesh_objs counts icl total
                                               frame_a frame_b sub_idx output_idx).
Proof.
  intros He. unfold SlowmoOrbit.render_sub_frame.
  assert (He' : e = ZeroDivisionError \/ e = KeyError) by (destruct He as [|[? _]]; auto).
  apply never_raises_bind; [|intros t].
  { apply never_raises_lift. intros Hr. pose proof (py_truediv_raises _ _ _ Hr) as H0.
    destruct He as [->|[_ [Hs _]]]; [|contradiction].
    unfold py_truediv in Hr. rewrite H0 in Hr. discriminate. }
  apply never_raises_bind; [|intros V_interp].
  { apply never_raises_lift. intros Hr%lerp_vertices_raises. destruct He'; congruence. }
  apply never_raises_bind; [now apply never_raises_update_all_meshes|intros _].
  apply never_raises_bind; [|intros progress].
  { apply never_raises_lift. intros Hr. pose proof (py_truediv_raises _ _ _ Hr) as H0.
    destruct He as [->|[_ [_ Ht]]]; [|contradiction].
    unfold py_truediv in Hr. rewrite H0 in Hr. discriminate. }
  apply never_raises_bind; [intros w; discriminate|intros cam].
  apply never_raises_bind; [intros w; discriminate|intros _].
  apply never_raises_bind; [intros w; discriminate|intros _].
  apply never_raises_ret.
Qed.

Lemma never_raises_render_pair `{Host} (e : exn) (a : SlowmoOrbit.args)
    (mesh_objs : list string) (counts : list nat) (icl : Vector) (total : Z)
    (source_indices : list Z) (loaded : gmap Z ndarray) (pair_idx output_idx : Z) :
  (e = KeyError /\ forall i, In i source_indices -> is_Some (loaded !! i)) \/
  (e = ZeroDivisionError /\ (0 < SlowmoOrbit.slowdown a -> total <> 0)) ->
  never_raises e (SlowmoOrbit.render_pair a mesh_objs counts icl total source_indices
                                          loaded pair_idx output_idx).
Proof.
  intros He. unfold SlowmoOrbit.render_pair.
  assert (He' : e = ZeroDivisionError \/ e = KeyError) by (destruct He as [[? _]|[? _]]; auto).
  intros w. unfold bind at 1. unfold lift at 1.
  destruct (py_getitem source_indices pair_idx) as [src_a|e1] eqn:Ha;
    [|cbn; intros [= ->]; apply py_getitem_raises in Ha; destruct He'; congruence].
  unfold bind at 1. unfold lift at 1.
  destruct (py_getitem source_indices (pair_idx + 1)) as [src_b|e1] eqn:Hb;
    [|cbn; intros [= ->]; apply py_getitem_raises in Hb; destruct He'; congruence].
  assert (Hfold : forall frame_a frame_b,
            never_raises e
              (for_fold (py_range (SlowmoOrbit.slowdown a))
                 (SlowmoOrbit.render_sub_frame a mesh_objs counts icl total frame_a frame_b)
                 output_idx)).
  { intros frame_a frame_b. apply never_raises_for_fold. intros sub_idx s Hin.
    apply never_raises_render_sub_frame.
    destruct He as [[-> _]|[-> Htotal]]; [now left|right].
    apply In_py_range in Hin. split; [reflexivity|]. split; [lia|]. apply Htotal. lia. }
  destruct (loaded !! src_a) as [frame_a|] eqn:Hla.
  - destruct (loaded !! src_b) as [frame_b|] eqn:Hlb; [apply Hfold|].
    destruct He as [[-> Hall]|[-> _]]; [|cbn; discriminate].
    apply py_getitem_In in Hb. apply Hall in Hb. rewrite Hlb in Hb. now destruct Hb.
  - destruct He as [[-> Hall]|[-> _]]; [|cbn; discriminate].
    apply py_getitem_In in Ha. apply Hall in Ha. rewrite Hla in Ha. now destruct Ha.
Qed.

(** The frames [load_frames] returns are those of all source indices. *)
Lemma load_frames_holds_all `{Host} (npy_files : list string) (source_indices : list Z)
    (w w' : world) (loaded : gmap Z ndarray) :
  SlowmoOrbit.load_frames npy_files source_indices w = (Ok loaded, w') ->
  forall i, In i source_indices -> is_Some (loaded !! i).
Proof.
  unfold SlowmoOrbit.load_frames.
  assert (Hgen : forall (acc : gmap Z ndarray) w,
            for_fold source_indices
              (fun i loaded_frames =>
                 path <- lift (py_getitem npy_files i) ;;
                 V <- np_load path ;;
                 ret (<[i := V]> loaded_frames)) acc w = (Ok loaded, w') ->
            forall i, In i source_indices \/ is_Some (acc !! i) -> is_Some (loaded !! i)).
  { induction source_indices as [|j rest IH]; intros acc w0; cbn [for_fold].
    - unfold ret. intros [= <- <-] i [[]|Hi]. exact Hi.
    - unfold bind at 1. unfold bind at 1. unfold lift at 1.
      destruct (py_getitem npy_files j) as [path|e]; [|discriminate].
      unfold bind at 1. destruct (np_load path w0) as [[V|e] w1]; [|discriminate].
      unfold ret at 1. intros Hrest i Hi. apply (IH _ _ Hrest).
      destruct (decide (i = j)) as [->|Hne].
      + right. rewrite lookup_insert_eq. eauto.
      + destruct Hi as [[Heq|Hin]|Hacc]; [congruence | now left |].
        right. now rewrite lookup_insert_ne by congruence. }
  intros Hrun i Hi. apply (Hgen ∅ w Hrun). now left.
Qed.

(** X13. The script never divides by zero, although it divides by the
    slowdown factor and by the number of output frames: either of them
    is 0 only when there is no frame to render. Its frame table holds
    every source frame it looks up, so that a [KeyError] can only be
    the missing camera. *)
Theorem slowmo_never_divides_by_zero `{Host} (a : SlowmoOrbit.args)
    (mesh_names : list string) (w : world) :
  fst (SlowmoOrbit.main a mesh_names w) <> Raise ZeroDivisionError /\
  (is_Some (objects w !! cam_name) ->
   fst (SlowmoOrbit.main a mesh_names w) <> Raise KeyError).
Proof.
  assert (Hrest : forall e,
            e = ZeroDivisionError \/ e = KeyError ->
            forall cam0 : camera_state,
            never_raises e
              (let initial_cam_location := location cam0 in
               mesh_objs <- for_fold mesh_names
                              (fun name acc => obj <- get_mesh_obj name ;; ret (acc ++ [obj]))
                              [] ;;
               mesh_vertex_counts <- for_fold mesh_objs
                                       (fun obj acc => vs <- mesh_vertices obj ;;
                                                       ret (acc ++ [length vs]))
                                       [] ;;
               npy_files <- glob (SlowmoOrbit.npy_pattern a) ;;
               source_indices <- lift (SlowmoOrbit.source_indices_of a (length npy_files)) ;;
               let num_source_pairs := Z.of_nat (length source_indices) - 1 in
               let total_output_frames := num_source_pairs * SlowmoOrbit.slowdown a in
               loaded_frames <- SlowmoOrbit.load_frames npy_files source_indices ;;
               for_fold (py_range num_source_pairs)
                 (SlowmoOrbit.render_pair a mesh_objs mesh_vertex_counts initial_cam_location
                    total_output_frames source_indices loaded_frames)
                 0)).
  { intros e He cam0. cbv zeta.
    apply never_raises_bind; [|intros mesh_objs].
    { apply never_raises_for_fold. intros name acc _.
      apply never_raises_bind; [|intros ?; apply never_raises_ret].
      intros w0. rewrite get_mesh_obj_spec. destruct (has_mesh w0 name); cbn;
        [discriminate | destruct He as [->| ->]; discriminate]. }
    apply never_raises_bind; [|intros counts].
    { apply never_raises_for_fold. intros obj acc _.
      apply never_raises_bind; [|intros ?; apply never_raises_ret].
      intros w0. unfold mesh_vertices. destruct (objects w0 !! obj) as [[?|]|]; cbn;
        [discriminate | destruct He as [->| ->]; discriminate..]. }
    apply never_raises_bind; [intros w0; discriminate|intros npy_files].
    apply never_raises_bind; [|intros source_indices].
    { apply never_raises_lift. unfold SlowmoOrbit.source_indices_of.
      intros Hr%py_range3_raises. destruct He; congruence. }
    apply (never_raises_bind_post e _ _
             (fun loaded => forall i, In i source_indices -> is_Some (loaded !! i))).
    - intros w0 loaded w1 Hload. exact (load_frames_holds_all _ _ _ _ _ Hload).
    - unfold SlowmoOrbit.load_frames. apply never_raises_for_fold. intros i acc _.
      apply never_raises_bind; [|intros path].
      { apply never_raises_lift. intros Hr%py_getitem_raises. destruct He; congruence. }
      apply never_raises_bind; [|intros ?; apply never_raises_ret].
      intros w0. unfold np_load. destruct (disk (clock w0) !! path); cbn;
        [discriminate | destruct He as [->| ->]; discriminate].
    - intros loaded Hall. apply never_raises_for_fold. intros pair_idx out Hin.
      apply In_py_range in Hin. apply never_raises_render_pair.
      destruct He as [->| ->]; [right|left]; split; try reflexivity; [nia | exact Hall]. }
  unfold SlowmoOrbit.main. split.
  - unfold bind at 1. unfold objects_getitem.
    destruct (objects w !! cam_name); [|cbn; discriminate].
    unfold bind at 1. unfold SlowmoOrbit.get_camera.
    apply (Hrest ZeroDivisionError (or_introl eq_refl) (camera w) w).
  - intros [o Ho]. unfold bind at 1. unfold objects_getitem. rewrite Ho.
    unfold bind at 1. unfold SlowmoOrbit.get_camera.
    apply (Hrest KeyError (or_intror eq_refl) (camera w) w).
Qed.

(** ** cloth_drop/run_slowmo_orbit.py: one frame for all layers *)

Lemma py_getitem_nat {A} (l : list A) (k : nat) (x : A) :
  l !! k = Some x -> py_getitem l (Z.of_nat k) = Ok x.
Proof.
  intros Hk. unfold py_getitem.
  destruct (Z.ltb_spec (Z.of_nat k) 0); [lia|].
  destruct (Z.leb_spec 0 (Z.of_nat k)); [|lia].
  now rewrite Nat2Z.id, Hk.
Qed.

Lemma sum_list_take_S (counts : list nat) (k n : nat) :
  counts !! k = Some n ->
  sum_list (take (S k) counts) = (sum_list (take k counts) + n)%nat.
Proof.
  intros Hk. rewrite (take_S_r _ _ _ Hk), sum_list_with_app. cbn. lia.
Qed.

Lemma sum_list_take_le (counts : list nat) (k : nat) :
  (sum_list (take k counts) <= sum_list counts)%nat.
Proof.
  rewrite <- (take_drop k counts) at 2. rewrite sum_list_with_app. lia.
Qed.

(** The loop of "Update all meshes" from layer [k] on. *)
Lemma update_layers_from `{Host} (V : ndarray) (N : nat) (counts : list nat) :
  wf_array V ->
  shape V = [N; 3%nat] ->
  (sum_list counts <= N)%nat ->
  forall (objs : list string) (k : nat) (w : world),
    NoDup objs ->
    (forall j obj, objs !! j = Some obj ->
       exists n vs, counts !! (k + j)%nat = Some n /\
                    objects w !! obj = Some (MeshData vs) /\ length vs = n) ->
    exists w',
      for_fold (zip (map Z.of_nat (seq k (length objs))) objs)
               (fun item start_v =>
                  n <- lift (py_getitem counts (fst item)) ;;
                  let end_v := start_v + Z.of_nat n in
                  V0 <- lift (slice0 V (Some start_v) (Some end_v)) ;;
                  Strict.update_mesh_vertices (snd item) V0 ;;;
                  ret end_v)
               (Z.of_nat (sum_list (take k counts))) w
      = (Ok (Z.of_nat (sum_list (take (k + length objs) counts))), w') /\
      (forall j obj n, objs !! j = Some obj -> counts !! (k + j)%nat = Some n ->
         objects w' !! obj
         = Some (MeshData (map float32_vec
                               (take n (drop (sum_list (take (k + j) counts))
                                             (rows3 V)))))) /\
      (forall name, ~ In name objs -> objects w' !! name = objects w !! name) /\
      camera w' = camera w /\ trace w' = trace w /\ clock w' = clock w.
Proof.
  intros Hwf Hshape Hsum objs.
  induction objs as [|obj rest IH]; intros k w Hnd Hobjs.
  - exists w. cbn [length seq map zip for_fold]. rewrite Nat.add_0_r.
    split; [reflexivity|]. split; [intros j obj n [=]|]. auto.
  - cbn [length seq map]. cbn [zip zip_with for_fold].
    destruct (Hobjs 0%nat obj eq_refl) as [n [vs [Hn [Hobj Hlen]]]].
    rewrite Nat.add_0_r in Hn.
    pose proof (sum_list_take_S counts k n Hn) as HS.
    pose proof (sum_list_take_le counts (S k)) as Hle.
    unfold bind at 1. unfold lift at 1. cbn [fst snd].
    rewrite (py_getitem_nat counts k n Hn).
    cbv zeta. unfold bind at 1. unfold lift at 1.
    destruct (slice0_rows3 V N (Some (Z.of_nat (sum_list (take k counts))))
                (Some (Z.of_nat (sum_list (take k counts)) + Z.of_nat n)) Hshape)
      as [V0 [HV0 [Hs0 [Hr0 Hwf0]]]].
    rewrite HV0. cbn [slice_hi slice_lo] in Hs0, Hr0.
    rewrite !slice_bound_in_range in Hs0, Hr0 by lia.
    replace (Z.to_nat (Z.of_nat (sum_list (take k counts)) + Z.of_nat n)
             - Z.to_nat (Z.of_nat (sum_list (take k counts))))%nat with n in Hs0, Hr0 by lia.
    rewrite Nat2Z.id in Hr0.
    unfold bind at 1. unfold bind at 1.
    rewrite (strict_update_accept obj V0 w vs Hobj (Hwf0 Hwf)) by (now rewrite Hs0, Hlen).
    unfold ret at 1.
    replace (Z.of_nat (sum_list (take k counts)) + Z.of_nat n)
      with (Z.of_nat (sum_list (take (S k) counts))) by lia.
    apply NoDup_cons in Hnd. destruct Hnd as [Hnotin Hnd].
    destruct (IH (S k) (set_mesh w obj (rows3 (astype_float32 V0))) Hnd)
      as [w' [Hrun [Hrows [Hothers Hsame]]]].
    { intros j obj' Hj. destruct (Hobjs (S j) obj' Hj) as [n' [vs' [Hn' [Hobj' Hlen']]]].
      exists n', vs'. replace (S k + j)%nat with (k + S j)%nat by lia.
      split; [assumption|]. split; [|assumption].
      cbn. rewrite lookup_insert_ne; [assumption|].
      intros ->. apply Hnotin. apply list_elem_of_lookup. eauto. }
    exists w'. replace (k + S (length rest))%nat with (S k + length rest)%nat by lia.
    split; [exact Hrun|]. split; [|split].
    + intros [|j] obj' n' Hj Hn'.
      * cbn in Hj. injection Hj as <-. rewrite Nat.add_0_r in Hn'. rewrite Hn in Hn'.
        injection Hn' as <-. rewrite Nat.add_0_r.
        rewrite Hothers by (rewrite <- list_elem_of_In; exact Hnotin).
        cbn [objects set_mesh]. rewrite lookup_insert_eq.
        now rewrite rows3_astype_float32, Hr0.
      * cbn in Hj. replace (k + S j)%nat with (S k + j)%nat in * by lia.
        now apply Hrows.
    + intros name Hname. rewrite Hothers by (intros Hin; apply Hname; now right).
      cbn. apply lookup_insert_ne. intros ->. apply Hname. now left.
    + exact Hsame.
Qed.

Lemma update_all_meshes_rows `{Host} (V : ndarray) (N : nat) (mesh_objs : list string)
    (counts : list nat) (w : world) :
  wf_array V ->
  shape V = [N; 3%nat] ->
  NoDup mesh_objs ->
  Forall2 (fun obj n => exists vs, objects w !! obj = Some (MeshData vs) /\ length vs = n)
          mesh_objs counts ->
  (sum_list counts <= N)%nat ->
  exists w',
    SlowmoOrbit.update_all_meshes V mesh_objs counts w
    = (Ok (Z.of_nat (sum_list counts)), w') /\
    (forall i obj n, mesh_objs !! i = Some obj -> counts !! i = Some n ->
       objects w' !! obj
       = Some (MeshData (map float32_vec
                             (take n (drop (sum_list (take i counts)) (rows3 V)))))) /\
    (forall name, ~ In name mesh_objs -> objects w' !! name = objects w !! name) /\
    camera w' = camera w /\ trace w' = trace w /\ clock w' = clock w.
Proof.
  intros Hwf Hshape Hnd Hall Hsum.
  pose proof (Forall2_length _ _ _ Hall) as Hlen.
  destruct (update_layers_from V N counts Hwf Hshape Hsum mesh_objs 0 w Hnd)
    as [w' [Hrun Hrest]].
  { intros j obj Hj. cbn.
    destruct (Forall2_lookup_l _ _ _ _ _ Hall Hj) as [n [Hn [vs [Hobj Hvs]]]]. eauto. }
  exists w'. split; [|exact Hrest].
  unfold SlowmoOrbit.update_all_meshes, py_range. rewrite Nat2Z.id.
  change (Z.of_nat (sum_list (take 0 counts))) with 0 in Hrun.
  cbn [Nat.add] in Hrun. rewrite Hrun.
  rewrite Hlen, firstn_all. reflexivity.
Qed.

(** X14. "Update all meshes" hands the frame to the layers in consecutive
    row ranges: layer [i] gets as many rows as it has vertices, from the
    row at which layer [i-1] ended, in single precision; rows after the
    last layer are not used, and nothing but the vertices of the layers
    changes. *)
Theorem layers_get_consecutive_rows `{Host} (V : ndarray) (N : nat)
    (mesh_objs : list string) (counts : list nat) (w : world) :
  wf_array V ->
  shape V = [N; 3%nat] ->
  NoDup mesh_objs ->
  Forall2 (fun obj n => exists vs, objects w !! obj = Some (MeshData vs) /\ length vs = n)
          mesh_objs counts ->
  (sum_list counts <= N)%nat ->
  exists w',
    SlowmoOrbit.update_all_meshes V mesh_objs counts w
    = (Ok (Z.of_nat (sum_list counts)), w') /\
    (forall i obj n, mesh_objs !! i = Some obj -> counts !! i = Some n ->
       objects w' !! obj
       = Some (MeshData (map float32_vec
                             (take n (drop (sum_list (take i counts)) (rows3 V)))))) /\
    (forall name, ~ In name mesh_objs -> objects w' !! name = objects w !! name) /\
    camera w' = camera w /\ trace w' = trace w /\ clock w' = clock w.
Proof.
  intros Hwf Hshape Hnd Hall Hsum.
  destruct (update_all_meshes_rows V N mesh_objs counts w Hwf Hshape Hnd Hall Hsum)
    as [w' Hw'].
  now exists w'.
Qed.

(** X14 with one layer of two vertices and a frame of three rows. *)
Lemma layers_get_consecutive_rows_witness :
  exists w',
    @SlowmoOrbit.update_all_meshes Examples.empty_host
      Examples.three_rows ["layer0"] [2%nat] Examples.layer_scene
    = (Ok 2, w') /\
    objects w' !! "layer0"
    = Some (MeshData (map (@float32_vec Examples.empty_host) [(1, 2, 3); (4, 5, 6)]%R)).
Proof.
  destruct (@layers_get_consecutive_rows Examples.empty_host
              Examples.three_rows 3 ["layer0"] [2%nat]
              Examples.layer_scene) as [w' [Hrun [Hrows _]]].
  - apply wf_of_rows3.
  - reflexivity.
  - apply NoDup_singleton.
  - constructor; [eexists; split; reflexivity | constructor].
  - cbn. lia.
  - exists w'. split; [exact Hrun|]. exact (Hrows 0%nat "layer0" 2%nat eq_refl eq_refl).
Defined.

(** ** cloth_drop/run_slowmo_orbit.py: the sub-frames *)

Lemma render_pair_frames `{Host} (a : SlowmoOrbit.args) (mesh_objs : list string)
    (counts : list nat) (icl : Vector) (total : Z) (source_indices : list Z)
    (loaded : gmap Z ndarray) (pair_idx output_idx : Z) (w : world)
    (src_idx_a src_idx_b : Z) (frame_a frame_b : ndarray) :
  py_getitem source_indices pair_idx = Ok src_idx_a ->
  py_getitem source_indices (pair_idx + 1) = Ok src_idx_b ->
  loaded !! src_idx_a = Some frame_a ->
  loaded !! src_idx_b = Some frame_b ->
  SlowmoOrbit.render_pair a mesh_objs counts icl total source_indices loaded
                          pair_idx output_idx w
  = for_fold (py_range (SlowmoOrbit.slowdown a))
             (SlowmoOrbit.render_sub_frame a mesh_objs counts icl total frame_a frame_b)
             output_idx w.
Proof.
  intros Ha Hb Hfa Hfb. unfold SlowmoOrbit.render_pair, bind, lift.
  now rewrite Ha, Hb, Hfa, Hfb.
Qed.

(** X25. A sub-frame of the slow-motion renderer between the source
    frames a and b: the pair's loop runs the sub-frames
    0 .. slowdown - 1 in turn on the two frames the pair names; with
    t = sub_idx / slowdown the array a * (1.0 - t) + b * t is computed
    entry by entry, its rows go to the layers in consecutive ranges in
    single precision, the camera is placed from the initial camera
    location and the angle of output_idx / total_output_frames of the
    orbit, whatever it was before, one image frame_<output_idx>.png is
    rendered, and the index goes up by one. The arithmetic is that of
    the interpreter, of numpy and of mathutils. *)
Theorem slowmo_sub_frame_spec `{Host} (a : SlowmoOrbit.args) (mesh_objs : list string)
    (counts : list nat) (icl : Vector) (total : Z) :
  (forall source_indices loaded pair_idx output_idx w src_idx_a src_idx_b frame_a frame_b,
     py_getitem source_indices pair_idx = Ok src_idx_a ->
     py_getitem source_indices (pair_idx + 1) = Ok src_idx_b ->
     loaded !! src_idx_a = Some frame_a ->
     loaded !! src_idx_b = Some frame_b ->
     SlowmoOrbit.render_pair a mesh_objs counts icl total source_indices loaded
                             pair_idx output_idx w
     = for_fold (py_range (SlowmoOrbit.slowdown a))
                (SlowmoOrbit.render_sub_frame a mesh_objs counts icl total
                                              frame_a frame_b)
                output_idx w) /\
  (forall frame_a frame_b N sub_idx output_idx w,
     wf_array frame_a -> wf_array frame_b ->
     shape frame_a = [N; 3%nat] -> shape frame_b = [N; 3%nat] ->
     NoDup mesh_objs ->
     Forall2 (fun obj n => exists vs, objects w !! obj = Some (MeshData vs) /\ length vs = n)
             mesh_objs counts ->
     (sum_list counts <= N)%nat ->
     SlowmoOrbit.slowdown a <> 0 ->
     total <> 0 ->
     let t := float_div (IZR sub_idx) (IZR (SlowmoOrbit.slowdown a)) in
     let V_interp :=
       NdArray [N; 3%nat]
               (zip_with (fun x y => np_plus (np_mul x (float_sub 1 t)) (np_mul y t))
                         (data frame_a) (data frame_b)) in
     let angle_rad :=
       math_radians (float_mul (SlowmoOrbit.orbitDegrees a)
                               (float_div (IZR output_idx) (IZR total))) in
     let offset := vector_sub icl (SlowmoOrbit.orbitCenter a) in
     let new_offset :=
       vector_xyz (float_sub (float_mul (vx offset) (math_cos angle_rad))
                             (float_mul (vy offset) (math_sin angle_rad)))
                  (float_add (float_mul (vx offset) (math_sin angle_rad))
                             (float_mul (vy offset) (math_cos angle_rad)))
                  (vz offset) in
     let camera_location := vector_add (SlowmoOrbit.orbitCenter a) new_offset in
     exists w',
       SlowmoOrbit.render_sub_frame a mesh_objs counts icl total frame_a frame_b
                                    sub_idx output_idx w
       = (Ok (output_idx + 1), w') /\
       (forall i obj n, mesh_objs !! i = Some obj -> counts !! i = Some n ->
          objects w' !! obj
          = Some (MeshData (map float32_vec
                                (take n (drop (sum_list (take i counts))
                                              (rows3 V_interp)))))) /\
       (forall name, ~ In name mesh_objs -> objects w' !! name = objects w !! name) /\
       camera w'
       = CameraState camera_location
                     (to_euler (to_track_quat
                                  (vector_sub (SlowmoOrbit.lookAt a) camera_location))) /\
       trace w'
       = trace w ++ [EvRender (path_join (SlowmoOrbit.outPath a)
                                         ("frame_" +:+ format_06d output_idx +:+ ".png"))] /\
       clock w' = clock w).
Proof.
  split.
  { intros source_indices loaded pair_idx output_idx w src_idx_a src_idx_b
           frame_a frame_b Ha Hb Hfa Hfb.
    exact (render_pair_frames a mesh_objs counts icl total source_indices loaded
             pair_idx output_idx w src_idx_a src_idx_b frame_a frame_b Ha Hb Hfa Hfb). }
  intros frame_a frame_b N sub_idx output_idx w Hwa Hwb Hsa Hsb Hnd Hall Hsum Hslow Htotal.
  cbv zeta.
  set (t := float_div (IZR sub_idx) (IZR (SlowmoOrbit.slowdown a))).
  assert (Hs : shape frame_a = shape frame_b) by congruence.
  pose proof (lerp_vertices_spec frame_a frame_b t Hwa Hwb Hs) as Hlerp.
  pose proof (wf_lerp_array frame_a frame_b t Hwa Hwb Hs) as Hwf.
  unfold lerp_array in Hlerp, Hwf. rewrite Hsa in Hlerp, Hwf.
  set (V_interp := NdArray [N; 3%nat] _) in *.
  destruct (update_all_meshes_rows V_interp N mesh_objs counts w Hwf eq_refl Hnd Hall Hsum)
    as [w1 [Hrun [Hrows [Hothers [Hcam [Htr Hclock]]]]]].
  unfold SlowmoOrbit.render_sub_frame.
  unfold bind at 1. unfold lift at 1. unfold py_truediv at 1.
  destruct (Z.eqb_spec (SlowmoOrbit.slowdown a) 0) as [|_]; [contradiction|].
  fold t. unfold bind at 1. unfold lift at 1. rewrite Hlerp.
  unfold bind at 1. rewrite Hrun.
  unfold bind at 1. unfold lift at 1. unfold py_truediv at 1.
  destruct (Z.eqb_spec total 0) as [|_]; [contradiction|].
  eexists. split; [reflexivity|].
  cbn [objects camera trace clock SlowmoOrbit.oo_camera SlowmoOrbit.orbit_camera
       SlowmoOrbit.orbit_center SlowmoOrbit.look_at SlowmoOrbit.initial_location].
  rewrite Htr, Hclock. auto.
Qed.

(** X25 with one layer of two vertices, the frames of the example and
    the first sub-frame of two. *)
Lemma slowmo_sub_frame_spec_witness :
  exists w',
    @SlowmoOrbit.render_sub_frame Examples.two_frame_host Examples.slowmo_args
      ["layer0"] [2%nat] Examples.origin 2 Examples.three_rows Examples.three_rows 0 0
      Examples.layer_scene
    = (Ok 1, w') /\
    trace w' = [EvRender "out/frame_000000.png"].
Proof.
  destruct (@slowmo_sub_frame_spec Examples.two_frame_host Examples.slowmo_args
              ["layer0"] [2%nat] Examples.origin 2) as [_ Hsub].
  destruct (Hsub Examples.three_rows Examples.three_rows 3%nat 0 0 Examples.layer_scene)
    as [w' [Hrun [_ [_ [_ [Htr _]]]]]].
  - apply wf_of_rows3.
  - apply wf_of_rows3.
  - reflexivity.
  - reflexivity.
  - apply NoDup_singleton.
  - constructor; [eexists; split; reflexivity | constructor].
  - cbn. lia.
  - discriminate.
  - discriminate.
  - exists w'. split; [exact Hrun | exact Htr].
Defined.

(** X26. A run of the slow-motion renderer that ends has rendered
    (n - 1) * slowdown frames, with n the number of source frames it
    selected, and returns that number as its last index; with no source
    frame, or a slowdown factor below 1, it has rendered none. *)
Theorem slowmo_frame_count `{Host} (a : SlowmoOrbit.args) (mesh_names : list string)
    (w w' : world) (out : Z) :
  SlowmoOrbit.main a mesh_names w = (Ok out, w') ->
  exists source_indices,
    SlowmoOrbit.source_indices_of
      a (length (glob_sorted (SlowmoOrbit.npy_pattern a) (clock w)))
    = Ok source_indices /\
    let n := length source_indices in
    let rendered := (count_renders (trace w') - count_renders (trace w))%nat in
    out = Z.of_nat rendered /\
    ((1 <= n)%nat -> 0 <= SlowmoOrbit.slowdown a ->
     Z.of_nat rendered = (Z.of_nat n - 1) * SlowmoOrbit.slowdown a) /\
    (n = 0%nat \/ SlowmoOrbit.slowdown a < 1 -> rendered = 0%nat).
Proof.
  intros Hrun.
  destruct (slowmo_main_counts a mesh_names w w' out Hrun)
    as [source_indices [Hsrc [Hout Hcount]]].
  exists source_indices. split; [exact Hsrc|]. cbn zeta in *.
  rewrite Hcount.
  set (rendered := ((length source_indices - 1)
                    * Z.to_nat (SlowmoOrbit.slowdown a))%nat) in *.
  replace (count_renders (trace w) + rendered - count_renders (trace w))%nat
    with rendered by lia.
  split; [exact Hout|]. split.
  - intros Hn Hs. unfold rendered. nia.
  - intros [Hn|Hs]; unfold rendered.
    + rewrite Hn. reflexivity.
    + replace (Z.to_nat (SlowmoOrbit.slowdown a)) with 0%nat by lia. lia.
Qed.

(** X26 on a run over two source frames with a slowdown factor of 2. *)
Lemma slowmo_frame_count_witness :
  let run := @SlowmoOrbit.main Examples.two_frame_host Examples.slowmo_args ["layer0"]
               Examples.layer_scene in
  fst run = Ok 2 /\
  (count_renders (trace (snd run)) - count_renders (trace Examples.layer_scene))%nat
  = 2%nat.
Proof.
  cbv zeta.
  assert (Hrun : @SlowmoOrbit.main Examples.two_frame_host Examples.slowmo_args ["layer0"]
                   Examples.layer_scene
                 = (Ok 2, snd (@SlowmoOrbit.main Examples.two_frame_host
                                 Examples.slowmo_args ["layer0"] Examples.layer_scene)))
    by reflexivity.
  split; [reflexivity|].
  destruct (@slowmo_frame_count Examples.two_frame_host Examples.slowmo_args ["layer0"]
              Examples.layer_scene _ 2 Hrun) as [si [Hsi [Hout _]]].
  cbv zeta in Hout. lia.
Defined.

(** ** Python strings *)

Lemma py_getitem_last {A} (l : list A) :
  py_getitem l (-1) = match last l with Some x => Ok x | None => Raise IndexError end.
Proof.
  unfold py_getitem. cbn [Z.ltb Z.compare]. rewrite last_lookup.
  destruct l as [|x l]; [reflexivity|].
  cbn [length]. destruct (Z.leb_spec 0 (-1 + Z.of_nat (S (length l)))); [|lia].
  replace (Z.to_nat (-1 + Z.of_nat (S (length l)))) with (pred (S (length l))) by lia.
  reflexivity.
Qed.

Lemma append_nil_l (s : string) : EmptyString +:+ s = s.
Proof. reflexivity. Qed.

Lemma append_cons (c : ascii) (s1 s2 : string) :
  String c s1 +:+ s2 = String c (s1 +:+ s2).
Proof. reflexivity. Qed.

Lemma append_nil_r (s : string) : s +:+ EmptyString = s.
Proof. induction s as [|c s IH]; [reflexivity|]. now rewrite append_cons, IH. Qed.

Lemma append_assoc (s1 s2 s3 : string) : (s1 +:+ s2) +:+ s3 = s1 +:+ (s2 +:+ s3).
Proof. induction s1 as [|c s1 IH]; [reflexivity|]. now rewrite !append_cons, IH. Qed.

(** [s.split(sep)] always has a last part. *)
Lemma py_split_on_from_has_last (sep : ascii) (s cur : string) :
  is_Some (last (py_split_on_from sep cur s)).
Proof.
  revert cur. induction s as [|c s IH]; intros cur; cbn [py_split_on_from]; [eauto|].
  destruct (Ascii.eqb c sep); [|apply IH].
  rewrite last_cons. destruct (IH EmptyString) as [x ->]. eauto.
Qed.

(** The last part is what follows the last separator. *)
Lemma py_split_on_from_last (sep : ascii) (s1 s2 cur : string) :
  last (py_split_on_from sep cur (s1 +:+ String sep s2))
  = last (py_split_on_from sep EmptyString s2).
Proof.
  revert cur. induction s1 as [|c s1 IH]; intros cur.
  - rewrite append_nil_l. cbn [py_split_on_from]. rewrite Ascii.eqb_refl, last_cons.
    now destruct (py_split_on_from_has_last sep s2 EmptyString) as [x ->].
  - rewrite append_cons. cbn [py_split_on_from]. destruct (Ascii.eqb c sep); [|apply IH].
    rewrite last_cons, IH.
    now destruct (py_split_on_from_has_last sep s2 EmptyString) as [x ->].
Qed.

(** Digits and signs *)

Lemma digits_value_pos (d : Decimal.uint) (p : positive) :
  digits_value (Z.pos p) true (NilEmpty.string_of_uint d)
  = Some (Z.pos (Pos.of_uint_acc d p)).
Proof.
  revert p. induction d; intros p; cbn [NilEmpty.string_of_uint digits_value];
    [reflexivity|..];
    (change (digit_of _) with (Some 0) || change (digit_of _) with (Some 1)
     || change (digit_of _) with (Some 2) || change (digit_of _) with (Some 3)
     || change (digit_of _) with (Some 4) || change (digit_of _) with (Some 5)
     || change (digit_of _) with (Some 6) || change (digit_of _) with (Some 7)
     || change (digit_of _) with (Some 8) || change (digit_of _) with (Some 9));
    cbn [Pos.of_uint_acc]; rewrite <- IHd; f_equal; lia.
Qed.

Lemma digits_value_0 (d : Decimal.uint) :
  digits_value 0 true (NilEmpty.string_of_uint d) = Some (Z.of_N (N.of_uint d)).
Proof.
  unfold N.of_uint.
  induction d; cbn [NilEmpty.string_of_uint digits_value Pos.of_uint];
    [reflexivity|..];
    (change (digit_of _) with (Some 0) || change (digit_of _) with (Some 1)
     || change (digit_of _) with (Some 2) || change (digit_of _) with (Some 3)
     || change (digit_of _) with (Some 4) || change (digit_of _) with (Some 5)
     || change (digit_of _) with (Some 6) || change (digit_of _) with (Some 7)
     || change (digit_of _) with (Some 8) || change (digit_of _) with (Some 9));
    [exact IHd | apply digits_value_pos..].
Qed.

Lemma digits_value_start (d : Decimal.uint) :
  d <> Decimal.Nil ->
  digits_value 0 false (NilEmpty.string_of_uint d) = Some (Z.of_N (N.of_uint d)).
Proof.
  intros Hd. rewrite <- digits_value_0. destruct d; [contradiction|reflexivity..].
Qed.

Lemma int_rstrip_digits (d : Decimal.uint) :
  int_rstrip (NilEmpty.string_of_uint d) = NilEmpty.string_of_uint d.
Proof.
  induction d; cbn [NilEmpty.string_of_uint int_rstrip]; [reflexivity|..];
    rewrite IHd; now destruct (NilEmpty.string_of_uint d).
Qed.

Lemma int_strip_digits (d : Decimal.uint) :
  int_rstrip (int_lstrip (NilEmpty.string_of_uint d)) = NilEmpty.string_of_uint d.
Proof.
  replace (int_lstrip (NilEmpty.string_of_uint d)) with (NilEmpty.string_of_uint d)
    by (destruct d; reflexivity).
  apply int_rstrip_digits.
Qed.

Lemma zero_padded_not_Nil (width : nat) (n : N) : zero_padded width n <> Decimal.Nil.
Proof.
  unfold zero_padded. pose proof (nb_digits_to_uint_pos n) as Hpos.
  destruct (width - _)%nat; cbn [Nat.iter]; [|discriminate].
  destruct (N.to_uint n); [cbn in Hpos; lia | discriminate..].
Qed.

Lemma of_uint_zero_padded (width : nat) (n : N) : N.of_uint (zero_padded width n) = n.
Proof. unfold zero_padded. now rewrite of_uint_iter_D0, Unsigned.of_to. Qed.

Lemma py_int_digits (d : Decimal.uint) :
  d <> Decimal.Nil ->
  py_int (NilEmpty.string_of_uint d) = Ok (Z.of_N (N.of_uint d)).
Proof.
  intros Hd. unfold py_int. rewrite int_strip_digits.
  pose proof (digits_value_start d Hd) as Hv.
  destruct d; [contradiction|..]; cbn [NilEmpty.string_of_uint] in *; now rewrite Hv.
Qed.

Lemma py_int_minus_digits (d : Decimal.uint) :
  d <> Decimal.Nil ->
  py_int ("-" +:+ NilEmpty.string_of_uint d) = Ok (- Z.of_N (N.of_uint d)).
Proof.
  intros Hd. unfold py_int. rewrite append_cons, append_nil_l.
  cbn [int_lstrip]. change (is_int_space "-") with false. cbn [int_rstrip].
  rewrite int_rstrip_digits.
  destruct (NilEmpty.string_of_uint d) eqn:Hs; [destruct d; try contradiction; discriminate|].
  rewrite <- Hs. now rewrite (digits_value_start d Hd).
Qed.

(** [int] reads back what the format [06d] writes. *)
Lemma py_int_format_06d (n : Z) : py_int (format_06d n) = Ok n.
Proof.
  unfold format_06d. destruct (Z.ltb_spec n 0).
  - rewrite py_int_minus_digits by apply zero_padded_not_Nil.
    rewrite of_uint_zero_padded. f_equal. lia.
  - rewrite py_int_digits by apply zero_padded_not_Nil.
    rewrite of_uint_zero_padded. f_equal. lia.
Qed.

Lemma py_split_on_digits (cur : string) (d : Decimal.uint) :
  py_split_on_from "_" cur (NilEmpty.string_of_uint d)
  = [cur +:+ NilEmpty.string_of_uint d].
Proof.
  revert cur. induction d; intros cur; cbn [NilEmpty.string_of_uint py_split_on_from];
    [now rewrite append_nil_r|..];
    cbn [Ascii.eqb Bool.eqb andb]; rewrite IHd, append_assoc; reflexivity.
Qed.

Lemma py_split_on_format_06d (n : Z) :
  py_split_on_from "_" EmptyString (format_06d n) = [format_06d n].
Proof.
  unfold format_06d. destruct (n <? 0).
  - rewrite append_cons, append_nil_l. cbn [py_split_on_from Ascii.eqb Bool.eqb andb].
    rewrite py_split_on_digits. reflexivity.
  - apply py_split_on_digits.
Qed.

(** ** bullet/add_velocity_overlay.py: frame numbers *)

(** X15. [extract_frame_number] reads back the number of a file that is
    named with the format [06d] after an underscore, whatever stands
    before the underscore, for every integer; and the only exception it
    raises by itself is [ValueError], for a stem whose last part is not
    a number. *)
Theorem extract_frame_number_round_trip `{Host} (filepath : string) :
  (forall (prefix : string) (n : Z),
     path_stem filepath = prefix +:+ "_" +:+ format_06d n ->
     VelocityOverlay.extract_frame_number filepath = Ok n) /\
  (forall n : Z,
     path_stem filepath = format_06d n ->
     VelocityOverlay.extract_frame_number filepath = Ok n) /\
  (forall e, VelocityOverlay.extract_frame_number filepath = Raise e -> e = ValueError).
Proof.
  unfold VelocityOverlay.extract_frame_number. rewrite py_getitem_last.
  unfold py_split_on. split; [|split].
  - intros prefix n ->. rewrite append_cons, append_nil_l, py_split_on_from_last.
    rewrite py_split_on_format_06d. cbn [last]. apply py_int_format_06d.
  - intros n ->. rewrite py_split_on_format_06d. cbn [last]. apply py_int_format_06d.
  - intros e.
    destruct (py_split_on_from_has_last "_" (path_stem filepath) EmptyString) as [x ->].
    unfold py_int. destruct (int_rstrip (int_lstrip x)) as [|c rest]; cbn.
    + now intros [= <-].
    + destruct (let '(negative, body) := _ in _) eqn:Hd; [discriminate|].
      intros [= <-]. revert Hd.
      repeat match goal with
             | |- context [match ?b with _ => _ end] => destruct b
             end; now intros [= <-].
Qed.

(** X15 for a rendered image of frame 1050. *)
Lemma extract_frame_number_round_trip_witness :
  @VelocityOverlay.extract_frame_number Examples.empty_host "renders/frame_001050.png"
  = Ok 1050.
Proof.
  destruct (@extract_frame_number_round_trip Examples.empty_host "renders/frame_001050.png")
    as [Hread _].
  apply (Hread "frame" 1050). reflexivity.
Defined.

(** ** Scripts/M02_RenderScripts.py: names and prefixes *)

Lemma substring_prefix (prefix rest : string) :
  String.substring 0 (String.length prefix) (prefix +:+ rest) = prefix.
Proof.
  induction prefix as [|c p IH]; cbn [String.length]; [now destruct rest|].
  rewrite append_cons. cbn [String.substring]. now rewrite IH.
Qed.

Lemma substring_is_prefix (n : nat) (s : string) :
  exists rest, s = String.substring 0 n s +:+ rest.
Proof.
  revert n. induction s as [|c s IH]; intros [|n]; cbn [String.substring].
  - now exists EmptyString.
  - now exists EmptyString.
  - now exists (String c s).
  - destruct (IH n) as [rest Hrest]. exists rest. now rewrite append_cons, <- Hrest.
Qed.

Lemma length_append (s1 s2 : string) :
  String.length (s1 +:+ s2) = (String.length s1 + String.length s2)%nat.
Proof.
  induction s1 as [|c s1 IH]; [reflexivity|]. rewrite append_cons. cbn. now rewrite IH.
Qed.

Lemma checkNameByPrefix_iff (name prefix : string) :
  RenderTools.checkNameByPrefix name prefix = true <->
  exists rest, name = prefix +:+ rest.
Proof.
  unfold RenderTools.checkNameByPrefix. split.
  - destruct (_ <=? _)%nat; [|discriminate].
    destruct (String.eqb_spec (String.substring 0 (String.length prefix) name) prefix)
      as [Heq|]; [|discriminate].
    intros _. destruct (substring_is_prefix (String.length prefix) name) as [rest Hrest].
    exists rest. now rewrite Heq in Hrest.
  - intros [rest ->]. rewrite length_append.
    destruct (Nat.leb_spec (String.length prefix)
                (String.length prefix + String.length rest)); [|lia].
    now rewrite substring_prefix, String.eqb_refl.
Qed.

(** X16. [checkNameByPrefix] holds exactly for the names that start with
    the prefix; the empty prefix fits every name. *)
Theorem checkNameByPrefix_spec (name prefix : string) :
  (RenderTools.checkNameByPrefix name prefix = true <->
   exists rest, name = prefix +:+ rest) /\
  RenderTools.checkNameByPrefix name EmptyString = true /\
  RenderTools.checkNameByPrefix name name = true.
Proof.
  split; [apply checkNameByPrefix_iff|]. split; apply checkNameByPrefix_iff.
  - now exists name.
  - exists EmptyString. now rewrite append_nil_r.
Qed.

Lemma find_by_prefix_spec (prefix type : string) (objects : list RenderTools.scene_object)
    (i : nat) :
  let fits := fun o => RenderTools.so_type o = type /\
                       exists rest, RenderTools.so_name o = prefix +:+ rest in
  match RenderTools.find_by_prefix prefix type i objects with
  | Some j =>
      (i <= j)%nat /\
      (exists o, objects !! (j - i)%nat = Some o /\ fits o) /\
      (forall k o, (k < j - i)%nat -> objects !! k = Some o -> ~ fits o)
  | None => forall o, In o objects -> ~ fits o
  end.
Proof.
  intros fits. revert i. induction objects as [|obj rest IH]; intros i;
    cbn [RenderTools.find_by_prefix]; [intros o []|].
  assert (Hfits : (if (String.length prefix <=? String.length (RenderTools.so_name obj))%nat
                   then String.eqb (RenderTools.so_type obj) type
                        && String.eqb (String.substring 0 (String.length prefix)
                                         (RenderTools.so_name obj)) prefix
                   else false) = true <-> fits obj).
  { unfold fits.
    pose proof (checkNameByPrefix_iff (RenderTools.so_name obj) prefix) as Hc.
    unfold RenderTools.checkNameByPrefix in Hc. rewrite <- Hc.
    destruct (_ <=? _)%nat; [|intuition discriminate].
    destruct (String.eqb_spec (RenderTools.so_type obj) type);
      destruct (String.eqb _ prefix); cbn; intuition (congruence || discriminate). }
  destruct (if (String.length prefix <=? String.length (RenderTools.so_name obj))%nat
            then String.eqb (RenderTools.so_type obj) type
                 && String.eqb (String.substring 0 (String.length prefix)
                                  (RenderTools.so_name obj)) prefix
            else false) eqn:Htest.
  - assert (RenderTools.find_by_prefix prefix type i (obj :: rest) = Some i) as Hres.
    { cbn [RenderTools.find_by_prefix]. destruct (_ <=? _)%nat; [|discriminate].
      now rewrite Htest. }
    cbn [RenderTools.find_by_prefix] in Hres. rewrite Hres.
    split; [lia|]. rewrite Nat.sub_diag. split.
    + exists obj. split; [reflexivity|]. now apply Hfits.
    + intros k o Hk. lia.
  - assert (RenderTools.find_by_prefix prefix type i (obj :: rest)
            = RenderTools.find_by_prefix prefix type (S i) rest) as Hres.
    { cbn [RenderTools.find_by_prefix]. destruct (_ <=? _)%nat; [now rewrite Htest | reflexivity]. }
    cbn [RenderTools.find_by_prefix] in Hres. rewrite Hres.
    assert (Hnot : ~ fits obj).
    { intros Hf. apply Hfits in Hf. congruence. }
    specialize (IH (S i)).
    destruct (RenderTools.find_by_prefix prefix type (S i) rest) as [j|].
    + destruct IH as [Hle [[o [Ho Hfo]] Hbefore]].
      split; [lia|]. split.
      * exists o. split; [|assumption].
        replace (j - i)%nat with (S (j - S i)) by lia. exact Ho.
      * intros [|k] o' Hk Ho'.
        -- cbn in Ho'. now injection Ho' as <-.
        -- cbn in Ho'. apply (Hbefore k); [lia | assumption].
    + intros o [<-|Hin]; [assumption | now apply IH].
Qed.

(** X17. [selectObjByPrefix] returns the first object of the scene that
    has the type asked for and a name that starts with the prefix, and
    [None] when there is none; afterwards that object is the only one
    selected (none is, for [None]), and names and types are as
    before. *)
Theorem selectObjByPrefix_spec (prefix type : string)
    (objects : list RenderTools.scene_object) :
  let fits := fun o => RenderTools.so_type o = type /\
                       exists rest, RenderTools.so_name o = prefix +:+ rest in
  let r := fst (RenderTools.selectObjByPrefix prefix type objects) in
  let objects' := snd (RenderTools.selectObjByPrefix prefix type objects) in
  map RenderTools.so_name objects' = map RenderTools.so_name objects /\
  map RenderTools.so_type objects' = map RenderTools.so_type objects /\
  match r with
  | Some i =>
      (exists o, objects !! i = Some o /\ fits o) /\
      (forall k o, (k < i)%nat -> objects !! k = Some o -> ~ fits o) /\
      (forall k o, objects' !! k = Some o ->
         RenderTools.so_selected o = bool_decide (k = i))
  | None =>
      (forall o, In o objects -> ~ fits o) /\
      (forall o, In o objects' -> RenderTools.so_selected o = false)
  end.
Proof.
  intros fits r objects'. subst r objects'. unfold RenderTools.selectObjByPrefix.
  set (cleared := RenderTools.deselect_all objects).
  assert (Hnames : map RenderTools.so_name cleared = map RenderTools.so_name objects).
  { unfold cleared, RenderTools.deselect_all. rewrite map_map. reflexivity. }
  assert (Htypes : map RenderTools.so_type cleared = map RenderTools.so_type objects).
  { unfold cleared, RenderTools.deselect_all. rewrite map_map. reflexivity. }
  assert (Hclear : forall k o, cleared !! k = Some o ->
            RenderTools.so_selected o = false /\
            exists o0, objects !! k = Some o0 /\
                       RenderTools.so_name o0 = RenderTools.so_name o /\
                       RenderTools.so_type o0 = RenderTools.so_type o).
  { intros k o. unfold cleared, RenderTools.deselect_all.
    change (map ?f ?l) with (f <$> l). rewrite list_lookup_fmap.
    destruct (objects !! k) as [o0|]; [|discriminate].
    cbn. intros [= <-]. cbn. eauto. }
  assert (Hfits : forall k o, cleared !! k = Some o ->
            exists o0, objects !! k = Some o0 /\ (fits o <-> fits o0)).
  { intros k o Hk. destruct (Hclear k o Hk) as [_ [o0 [Ho0 [Hn Ht]]]].
    exists o0. split; [assumption|]. unfold fits. now rewrite Hn, Ht. }
  assert (Hback : forall k o0, objects !! k = Some o0 ->
            exists o, cleared !! k = Some o /\ (fits o <-> fits o0)).
  { intros k o0 Hk. unfold cleared, RenderTools.deselect_all.
    change (map ?f ?l) with (f <$> l). rewrite list_lookup_fmap, Hk. cbn.
    eexists. split; [reflexivity|]. unfold fits. cbn. reflexivity. }
  pose proof (find_by_prefix_spec prefix type cleared 0) as Hfind. cbv zeta in Hfind.
  fold fits in Hfind.
  destruct (RenderTools.find_by_prefix prefix type 0 cleared) as [i|]; cbn [fst snd].
  - destruct Hfind as [_ [[o [Ho Hfo]] Hbefore]]. rewrite Nat.sub_0_r in Ho, Hbefore.
    unfold RenderTools.select_set.
    split; [|split; [|split; [|split]]].
    + rewrite <- Hnames. apply list_eq. intros k.
      change (map ?f ?l) with (f <$> l). rewrite !list_lookup_fmap.
      destruct (decide (k = i)) as [->|Hne].
      * rewrite list_lookup_alter_eq. now destruct (cleared !! i).
      * now rewrite list_lookup_alter_ne by congruence.
    + rewrite <- Htypes. apply list_eq. intros k.
      change (map ?f ?l) with (f <$> l). rewrite !list_lookup_fmap.
      destruct (decide (k = i)) as [->|Hne].
      * rewrite list_lookup_alter_eq. now destruct (cleared !! i).
      * now rewrite list_lookup_alter_ne by congruence.
    + destruct (Hfits i o Ho) as [o0 [Ho0 Hiff]]. exists o0. split; [assumption|].
      now apply Hiff.
    + intros k o0 Hk Ho0 Hf. destruct (Hback k o0 Ho0) as [o1 [Ho1 Hiff]].
      apply (Hbefore k o1 Hk Ho1). now apply Hiff.
    + intros k o1. destruct (decide (k = i)) as [->|Hne].
      * rewrite list_lookup_alter_eq, Ho. cbn. intros [= <-]. cbn.
        now rewrite bool_decide_eq_true_2.
      * rewrite list_lookup_alter_ne by congruence. intros Hk.
        rewrite bool_decide_eq_false_2 by assumption. now apply (Hclear k o1).
  - split; [assumption|]. split; [assumption|]. split.
    + intros o0 [k Hk]%list_elem_of_In%list_elem_of_lookup Hf.
      destruct (Hback k o0 Hk) as [o1 [Ho1 Hiff]].
      apply (Hfind o1); [|now apply Hiff].
      apply list_elem_of_In, list_elem_of_lookup. eauto.
    + intros o [k Hk]%list_elem_of_In%list_elem_of_lookup. now apply (Hclear k o).
Qed.

(** ** Scripts/M02_RenderScripts.py: one image per camera *)

Lemma renderImages_cons `{Host} (c : string) (cams : list string)
    (fileName output_path : string) (w : world) :
  RenderTools.renderImages (c :: cams) fileName output_path w
  = match objects w !! c with
    | Some _ =>
        RenderTools.renderImages cams fileName output_path
          (add_event w (EvRender (path_join output_path (fileName +:+ "_" +:+ c))))
    | None => (Raise KeyError, w)
    end.
Proof.
  unfold RenderTools.renderImages. cbn [for_]. unfold bind at 1. unfold bind at 1.
  unfold objects_getitem. destruct (objects w !! c); reflexivity.
Qed.

Lemma add_event_app (w : world) (evs : list event) (e : event) :
  World (objects (add_event w e)) (camera (add_event w e))
        (trace (add_event w e) ++ evs) (clock (add_event w e))
  = World (objects w) (camera w) (trace w ++ e :: evs) (clock w).
Proof. cbn. now rewrite <- app_assoc. Qed.

Lemma renderImages_runs `{Host} (camNamesSelected : list string)
    (fileName output_path : string) (w : world) :
  let shot := fun c => EvRender (path_join output_path (fileName +:+ "_" +:+ c)) in
  (Forall (fun c => is_Some (objects w !! c)) camNamesSelected ->
   RenderTools.renderImages camNamesSelected fileName output_path w
   = (Ok tt, World (objects w) (camera w)
                   (trace w ++ map shot camNamesSelected) (clock w))) /\
  (forall before c after,
     camNamesSelected = before ++ c :: after ->
     Forall (fun c => is_Some (objects w !! c)) before ->
     objects w !! c = None ->
     RenderTools.renderImages camNamesSelected fileName output_path w
     = (Raise KeyError, World (objects w) (camera w)
                              (trace w ++ map shot before) (clock w))).
Proof.
  intros shot. split.
  - revert w. induction camNamesSelected as [|c cams IH]; intros w Hall.
    + cbn. rewrite app_nil_r. now destruct w.
    + apply Forall_cons in Hall. destruct Hall as [[o Ho] Hall].
      rewrite renderImages_cons, Ho, IH by exact Hall.
      now rewrite add_event_app.
  - intros before c after ->. revert w.
    induction before as [|b before IH]; intros w Hall Hc.
    + cbn [app]. rewrite renderImages_cons, Hc. cbn. rewrite app_nil_r. now destruct w.
    + apply Forall_cons in Hall. destruct Hall as [[o Ho] Hall].
      cbn [app]. rewrite renderImages_cons, Ho, IH by assumption.
      now rewrite add_event_app.
Qed.

(** X19. [renderImages] renders one image per camera name, in the order
    of the list, to [fileName_<camera>] in the output folder; at the
    first name that is not an object of the scene it stops with
    [KeyError], the images of the cameras before it rendered. It
    changes no object and does not wait. *)
Theorem renderImages_spec `{Host} (camNamesSelected : list string)
    (fileName output_path : string) (w : world) :
  let shot := fun c => EvRender (path_join output_path (fileName +:+ "_" +:+ c)) in
  let r := fst (RenderTools.renderImages camNamesSelected fileName output_path w) in
  let w' := snd (RenderTools.renderImages camNamesSelected fileName output_path w) in
  (Forall (fun c => is_Some (objects w !! c)) camNamesSelected ->
   r = Ok tt /\ trace w' = trace w ++ map shot camNamesSelected /\
   objects w' = objects w /\ clock w' = clock w) /\
  (forall before c after,
     camNamesSelected = before ++ c :: after ->
     Forall (fun c => is_Some (objects w !! c)) before ->
     objects w !! c = None ->
     r = Raise KeyError /\ trace w' = trace w ++ map shot before /\
     objects w' = objects w /\ clock w' = clock w).
Proof.
  intros shot r w'. subst r w'.
  destruct (renderImages_runs camNamesSelected fileName output_path w) as [Hall Hmiss].
  split.
  - intros Hin. rewrite (Hall Hin). now repeat split.
  - intros before c after Hsplit Hbefore Hc.
    rewrite (Hmiss before c after Hsplit Hbefore Hc). now repeat split.
Qed.

(** X19 on a scene with the camera [Camera] only: its image is rendered, then
    [Cam.001] is missed. *)
Lemma renderImages_spec_witness :
  fst (@RenderTools.renderImages Examples.empty_host ["Camera"; "Cam.001"] "A" "out"
         (Examples.scene_with "m" []))
  = Raise KeyError /\
  trace (snd (@RenderTools.renderImages Examples.empty_host ["Camera"; "Cam.001"] "A" "out"
                (Examples.scene_with "m" [])))
  = [EvRender "out/A_Camera"].
Proof.
  destruct (@renderImages_spec Examples.empty_host ["Camera"; "Cam.001"] "A" "out"
              (Examples.scene_with "m" [])) as [_ Hmiss].
  destruct (Hmiss ["Camera"] "Cam.001" [] eq_refl) as (Hr & Ht & _).
  - repeat constructor. vm_compute. eauto.
  - vm_compute. reflexivity.
  - split; [exact Hr | exact Ht].
Defined.

(** ** [setup_optix] *)

Lemma devices_of_type_spec (type : string) (ds : list Optix.device) (i p : nat) :
  In p (Optix.devices_of_type type i ds) <->
  (i <= p)%nat /\ exists d, ds !! (p - i)%nat = Some d /\ Optix.dev_type d = type.
Proof.
  revert i. induction ds as [|d rest IH]; intros i; cbn [Optix.devices_of_type].
  - split; [intros [] | intros [_ [d [[=] _]]]].
  - assert (Hrest : In p (Optix.devices_of_type type (S i) rest) <->
                    (i < p)%nat /\ exists d', (d :: rest) !! (p - i)%nat = Some d' /\
                                              Optix.dev_type d' = type).
    { rewrite IH. split.
      - intros [Hle [d' [Hd' Ht]]]. split; [lia|]. exists d'. split; [|assumption].
        replace (p - i)%nat with (S (p - S i)) by lia. exact Hd'.
      - intros [Hlt [d' [Hd' Ht]]]. split; [lia|]. exists d'. split; [|assumption].
        replace (p - i)%nat with (S (p - S i)) in Hd' by lia. exact Hd'. }
    destruct (String.eqb_spec (Optix.dev_type d) type) as [Heq|Hne].
    + cbn [In]. rewrite Hrest. split.
      * intros [<-|[Hlt Hex]]; [|split; [lia|assumption]].
        split; [lia|]. rewrite Nat.sub_diag. eauto.
      * intros [Hle Hex]. destruct (decide (i = p)) as [->|]; [now left|].
        right. split; [lia | assumption].
    + rewrite Hrest. split.
      * intros [Hlt Hex]. split; [lia | assumption].
      * intros [Hle [d' [Hd' Ht]]]. split; [|eauto].
        destruct (decide (i = p)) as [->|]; [|lia].
        rewrite Nat.sub_diag in Hd'. cbn in Hd'. congruence.
Qed.

Lemma lookup_map_set_use (ds : list Optix.device) (j : nat) (d : Optix.device) :
  map (Optix.set_use false) ds !! j = Some d ->
  Optix.dev_use d = false /\
  exists d0, ds !! j = Some d0 /\ Optix.dev_name d0 = Optix.dev_name d /\
             Optix.dev_type d0 = Optix.dev_type d.
Proof.
  change (map ?f ?l) with (f <$> l). rewrite list_lookup_fmap.
  destruct (ds !! j) as [d0|]; [|discriminate]. cbn. intros [= <-]. cbn. eauto.
Qed.

(** After all devices were switched off and the one at position [k]
    switched on. *)
Lemma one_device_in_use (ds : list Optix.device) (k : nat) :
  let ds' := alter (Optix.set_use true) k (map (Optix.set_use false) ds) in
  map Optix.dev_name ds' = map Optix.dev_name ds /\
  map Optix.dev_type ds' = map Optix.dev_type ds /\
  forall j d, ds' !! j = Some d -> Optix.dev_use d = bool_decide (j = k).
Proof.
  intros ds'. subst ds'. split; [|split].
  - apply list_eq. intros j. change (map ?f ?l) with (f <$> l).
    rewrite !list_lookup_fmap. destruct (decide (j = k)) as [->|Hne].
    + rewrite list_lookup_alter_eq, list_lookup_fmap. now destruct (ds !! k).
    + rewrite list_lookup_alter_ne, list_lookup_fmap by congruence. now destruct (ds !! j).
  - apply list_eq. intros j. change (map ?f ?l) with (f <$> l).
    rewrite !list_lookup_fmap. destruct (decide (j = k)) as [->|Hne].
    + rewrite list_lookup_alter_eq, list_lookup_fmap. now destruct (ds !! k).
    + rewrite list_lookup_alter_ne, list_lookup_fmap by congruence. now destruct (ds !! j).
  - intros j d. destruct (decide (j = k)) as [->|Hne].
    + rewrite list_lookup_alter_eq. change (map ?f ?l) with (f <$> l).
      rewrite list_lookup_fmap. destruct (ds !! k); [|discriminate].
      cbn. intros [= <-]. now rewrite bool_decide_eq_true_2.
    + rewrite list_lookup_alter_ne by congruence. intros Hd.
      rewrite bool_decide_eq_false_2 by assumption.
      now apply lookup_map_set_use in Hd.
Qed.

Lemma no_device_in_use (ds : list Optix.device) :
  let ds' := map (Optix.set_use false) ds in
  map Optix.dev_name ds' = map Optix.dev_name ds /\
  map Optix.dev_type ds' = map Optix.dev_type ds /\
  forall j d, ds' !! j = Some d -> Optix.dev_use d = false.
Proof.
  cbv zeta. rewrite !map_map. repeat split.
  intros j d Hd. now apply lookup_map_set_use in Hd.
Qed.

Lemma devices_of_type_set_use (type : string) (ds : list Optix.device) (i : nat) :
  Optix.devices_of_type type i (map (Optix.set_use false) ds)
  = Optix.devices_of_type type i ds.
Proof.
  revert i. induction ds as [|d rest IH]; intros i; [reflexivity|].
  cbn [map Optix.devices_of_type Optix.set_use Optix.dev_type]. now rewrite IH.
Qed.

(** X20. [setup_optix] leaves at most one device in use, an OptiX one:
    the [gpu_index]-th OptiX device of the list when there is one, the
    first OptiX device (after a warning) when the index is too large,
    and for a negative index the device counted from the end; an index
    below minus the number of OptiX devices is an [IndexError] that
    leaves every device switched off. *)
Theorem setup_optix_selects_one (gpu_index : Z) (s : Optix.render_settings) :
  let r := fst (fst (Optix.setup_optix gpu_index s)) in
  let s' := snd (fst (Optix.setup_optix gpu_index s)) in
  let printed := snd (Optix.setup_optix gpu_index s) in
  let gpu_devices := Optix.devices_of_type "OPTIX" 0 (Optix.devices s) in
  let n := Z.of_nat (length gpu_devices) in
  let chosen : option nat :=
    if gpu_index <? - n then None
    else if gpu_index <? 0 then gpu_devices !! Z.to_nat (gpu_index + n)
    else if gpu_index <? n then gpu_devices !! Z.to_nat gpu_index
    else head gpu_devices in
  map Optix.dev_name (Optix.devices s') = map Optix.dev_name (Optix.devices s) /\
  map Optix.dev_type (Optix.devices s') = map Optix.dev_type (Optix.devices s) /\
  Optix.compute_device_type s' = "OPTIX" /\
  (forall j d, Optix.devices s' !! j = Some d ->
     Optix.dev_use d = bool_decide (chosen = Some j)) /\
  (forall j d, Optix.devices s' !! j = Some d -> Optix.dev_use d = true ->
     Optix.dev_type d = "OPTIX") /\
  (length (List.filter Optix.dev_use (Optix.devices s')) <= 1)%nat /\
  (r = if gpu_index <? - n then Raise IndexError else Ok tt) /\
  (Optix.scene_device s' = if gpu_index <? - n then Optix.scene_device s else "GPU") /\
  (printed = if n <=? gpu_index then [EvPrintWarning] else []).
Proof.
  intros r s' printed gpu_devices n chosen.
  set (ds0 := map (Optix.set_use false) (Optix.devices s)).
  assert (Hn : 0 <= n) by (unfold n; lia).
  assert (Hrun : Optix.setup_optix gpu_index s
                 = (if gpu_index <? - n then Raise IndexError else Ok tt,
                    Optix.RenderSettings "OPTIX"
                      (match chosen with
                       | Some k => alter (Optix.set_use true) k ds0
                       | None => ds0
                       end)
                      (if gpu_index <? - n then Optix.scene_device s else "GPU"),
                    if n <=? gpu_index then [EvPrintWarning] else [])).
  { unfold Optix.setup_optix. rewrite devices_of_type_set_use.
    fold gpu_devices ds0 n. unfold chosen.
    destruct (Z.ltb_spec gpu_index n) as [Hlt|Hge].
    - destruct (Z.leb_spec n gpu_index); [lia|].
      unfold py_getitem. fold n.
      destruct (Z.ltb_spec gpu_index 0) as [Hneg|Hpos].
      + destruct (Z.ltb_spec gpu_index (- n)) as [Hlow|Hin].
        * destruct (Z.leb_spec 0 (gpu_index + n)); [lia|]. reflexivity.
        * destruct (Z.leb_spec 0 (gpu_index + n)); [|lia].
          destruct (lookup_lt_is_Some_2 gpu_devices (Z.to_nat (gpu_index + n)))
            as [k Hk]; [unfold n in *; lia|].
          now rewrite Hk.
      + destruct (Z.ltb_spec gpu_index (- n)); [lia|].
        destruct (Z.leb_spec 0 gpu_index); [|lia].
        destruct (lookup_lt_is_Some_2 gpu_devices (Z.to_nat gpu_index))
          as [k Hk]; [unfold n in *; lia|].
        now rewrite Hk.
    - destruct (Z.leb_spec n gpu_index); [|lia].
      destruct (Z.ltb_spec gpu_index (- n)); [lia|].
      destruct (Z.ltb_spec gpu_index 0); [lia|].
      now destruct gpu_devices. }
  subst r s' printed. rewrite Hrun. cbn [fst snd Optix.devices Optix.compute_device_type
                                          Optix.scene_device].
  assert (Hchosen : forall k, chosen = Some k -> In k gpu_devices).
  { intros k. unfold chosen.
    destruct (gpu_index <? - n); [discriminate|].
    destruct (gpu_index <? 0);
      [intros Hk; apply list_elem_of_In, list_elem_of_lookup; eauto|].
    destruct (gpu_index <? n);
      [intros Hk; apply list_elem_of_In, list_elem_of_lookup; eauto|].
    destruct gpu_devices; [discriminate|]. cbn. intros [= <-]. now left. }
  assert (Hstate :
    let ds' := match chosen with
               | Some k => alter (Optix.set_use true) k ds0
               | None => ds0
               end in
    map Optix.dev_name ds' = map Optix.dev_name (Optix.devices s) /\
    map Optix.dev_type ds' = map Optix.dev_type (Optix.devices s) /\
    forall j d, ds' !! j = Some d -> Optix.dev_use d = bool_decide (chosen = Some j)).
  { clearbody chosen. destruct chosen as [k|]; cbv zeta.
    - destruct (one_device_in_use (Optix.devices s) k) as [H1 [H2 H3]].
      fold ds0 in H1, H2, H3. split; [assumption|]. split; [assumption|].
      intros j d Hd. rewrite (H3 j d Hd). apply bool_decide_ext.
      split; [now intros -> | now intros [= ->]].
    - destruct (no_device_in_use (Optix.devices s)) as [H1 [H2 H3]].
      fold ds0 in H1, H2, H3. split; [assumption|]. split; [assumption|].
      intros j d Hd. rewrite (H3 j d Hd). symmetry. now apply bool_decide_eq_false_2. }
  cbv zeta in Hstate. destruct Hstate as [Hnames [Htypes Huse]].
  split; [assumption|]. split; [assumption|]. split; [reflexivity|].
  split; [assumption|]. split; [|split; [|auto]].
  - intros j d Hd Hon. rewrite (Huse j d Hd) in Hon. apply bool_decide_eq_true in Hon.
    apply Hchosen, devices_of_type_spec in Hon. destruct Hon as [_ [d0 [Hd0 Ht]]].
    rewrite Nat.sub_0_r in Hd0.
    assert (Some (Optix.dev_type d) = Some (Optix.dev_type d0)) as [= ->]; [|assumption].
    rewrite <- (list_lookup_fmap_Some_2 Optix.dev_type _ j d Hd).
    rewrite <- (list_lookup_fmap_Some_2 Optix.dev_type _ j d0 Hd0).
    change (?f <$> ?l) with (map f l). now rewrite Htypes.
  - assert (Hcount : forall (c : option nat) (l : list Optix.device),
              (forall j d, l !! j = Some d -> Optix.dev_use d = bool_decide (c = Some j)) ->
              (length (List.filter Optix.dev_use l) <= match c with Some _ => 1 | None => 0 end)%nat).
    { clear. intros c l. revert c. induction l as [|d rest IH]; intros c Hl;
        [destruct c; cbn; lia|].
      cbn [List.filter]. pose proof (Hl 0%nat d eq_refl) as H0.
      destruct c as [[|m]|].
      - rewrite H0, bool_decide_eq_true_2 by reflexivity. cbn [length].
        assert (length (List.filter Optix.dev_use rest) <= 0)%nat; [|lia].
        apply (IH None). intros j d' Hd'. rewrite (Hl (S j) d' Hd').
        rewrite !bool_decide_eq_false_2 by discriminate. reflexivity.
      - rewrite H0, bool_decide_eq_false_2 by discriminate.
        apply (IH (Some m)). intros j d' Hd'. rewrite (Hl (S j) d' Hd').
        apply bool_decide_ext. split; intros [= ->]; reflexivity.
      - rewrite H0, bool_decide_eq_false_2 by discriminate.
        apply (IH None). intros j d' Hd'. rewrite (Hl (S j) d' Hd').
        apply bool_decide_ext. split; discriminate. }
    specialize (Hcount chosen _ Huse). destruct chosen; lia.
Qed.

(** ** bullet/load_frame.py: the two ways to show the barrel *)

Lemma lookup_hide_members (h : bool) (members : list string)
    (objs : gmap string BarrelDisplay.visibility) (name : string) :
  fold_left (fun objs obj => BarrelDisplay.set_hidden h obj objs) members objs !! name
  = if decide (name ∈ members)
    then (fun _ => BarrelDisplay.Visibility h h) <$> objs !! name
    else objs !! name.
Proof.
  revert objs. induction members as [|m members IH]; intros objs; cbn [fold_left].
  - destruct (decide _) as [Hin|]; [|reflexivity]. now apply elem_of_nil in Hin.
  - rewrite IH. unfold BarrelDisplay.set_hidden.
    destruct (decide (m = name)) as [->|Hne].
    + rewrite lookup_alter_eq.
      destruct (decide (name ∈ name :: members)) as [|Hnot];
        [|exfalso; apply Hnot; left].
      destruct (decide (name ∈ members)); now destruct (objs !! name).
    + rewrite lookup_alter_ne by assumption.
      destruct (decide (name ∈ members)) as [Hin|Hnot],
               (decide (name ∈ m :: members)) as [Hin'|Hnot']; try reflexivity.
      * exfalso. apply Hnot'. now right.
      * exfalso. apply elem_of_cons in Hin'. destruct Hin' as [->|]; contradiction.
Qed.

Lemma lookup_show_barrel (h : bool) (s : BarrelDisplay.display) (name : string) :
  BarrelDisplay.data_objects (BarrelDisplay.show_barrel h s) !! name
  = if decide (name ∈ default [] (BarrelDisplay.data_collections s
                                    !! "barrel side section"))
    then (fun _ => BarrelDisplay.Visibility (negb h) (negb h))
           <$> BarrelDisplay.data_objects s !! name
    else if decide (name = "rifled_barrel")
         then (fun _ => BarrelDisplay.Visibility h h)
                <$> BarrelDisplay.data_objects s !! name
         else BarrelDisplay.data_objects s !! name.
Proof.
  unfold BarrelDisplay.show_barrel. cbn [BarrelDisplay.data_objects].
  assert (Hbarrel : forall name,
            match BarrelDisplay.data_objects s !! "rifled_barrel" with
            | Some _ => BarrelDisplay.set_hidden h "rifled_barrel" (BarrelDisplay.data_objects s)
            | None => BarrelDisplay.data_objects s
            end !! name
            = if decide (name = "rifled_barrel")
              then (fun _ => BarrelDisplay.Visibility h h)
                     <$> BarrelDisplay.data_objects s !! name
              else BarrelDisplay.data_objects s !! name).
  { clear name. intros name. destruct (decide (name = "rifled_barrel")) as [->|Hne].
    - destruct (BarrelDisplay.data_objects s !! "rifled_barrel") eqn:Hb.
      + unfold BarrelDisplay.set_hidden. now rewrite lookup_alter_eq, Hb.
      + now rewrite Hb.
    - destruct (BarrelDisplay.data_objects s !! "rifled_barrel"); [|reflexivity].
      unfold BarrelDisplay.set_hidden. now rewrite lookup_alter_ne by congruence. }
  destruct (BarrelDisplay.data_collections s !! "barrel side section") as [members|].
  - change (default [] (Some members)) with members.
    rewrite lookup_hide_members, Hbarrel.
    destruct (decide (name ∈ members)); [|reflexivity].
    destruct (decide (name = "rifled_barrel")); [|reflexivity].
    now destruct (BarrelDisplay.data_objects s !! name).
  - change (default [] (@None (list string))) with (@nil string).
    rewrite Hbarrel. destruct (decide (name ∈ [])) as [Hin|]; [|reflexivity].
    now apply elem_of_nil in Hin.
Qed.

Lemma display_eq (s1 s2 : BarrelDisplay.display) :
  BarrelDisplay.data_objects s1 = BarrelDisplay.data_objects s2 ->
  BarrelDisplay.data_collections s1 = BarrelDisplay.data_collections s2 ->
  s1 = s2.
Proof. destruct s1, s2. cbn. now intros -> ->. Qed.

Lemma show_barrel_twice (h1 h2 : bool) (s : BarrelDisplay.display) :
  BarrelDisplay.show_barrel h2 (BarrelDisplay.show_barrel h1 s)
  = BarrelDisplay.show_barrel h2 s.
Proof.
  apply display_eq; [|reflexivity].
  apply map_eq. intros name. rewrite !lookup_show_barrel.
  change (BarrelDisplay.data_collections (BarrelDisplay.show_barrel h1 s))
    with (BarrelDisplay.data_collections s).
  repeat destruct (decide _); try reflexivity;
    now destruct (BarrelDisplay.data_objects s !! name).
Qed.

(** X21. The mode "transparent" shows the rifled barrel and hides every
    object of the side section, "crosssection" does the opposite, and
    any other mode leaves the scene alone. Objects that are neither
    the barrel nor in the section keep their flags, and no object or
    collection appears or goes. Of two calls one after the other, a
    second call in one of the two modes undoes the first: the scene is
    the one the second call alone gives; a second call in any other
    mode leaves the scene of the first. *)
Theorem setup_barrel_mode_spec (mode : string) (s : BarrelDisplay.display) :
  let s' := BarrelDisplay.setup_barrel_mode mode s in
  let members :=
    default [] (BarrelDisplay.data_collections s !! "barrel side section") in
  let barrel_hidden := String.eqb mode "crosssection" in
  let known := String.eqb mode "transparent" || String.eqb mode "crosssection" in
  BarrelDisplay.data_collections s' = BarrelDisplay.data_collections s /\
  dom (BarrelDisplay.data_objects s') = dom (BarrelDisplay.data_objects s) /\
  (known = false -> s' = s) /\
  (forall name, name ∉ members -> name <> "rifled_barrel" ->
     BarrelDisplay.data_objects s' !! name = BarrelDisplay.data_objects s !! name) /\
  (known = true ->
   forall name, name ∈ members -> is_Some (BarrelDisplay.data_objects s !! name) ->
     BarrelDisplay.data_objects s' !! name
     = Some (BarrelDisplay.Visibility (negb barrel_hidden) (negb barrel_hidden))) /\
  (known = true ->
   "rifled_barrel" ∉ members ->
   is_Some (BarrelDisplay.data_objects s !! "rifled_barrel") ->
   BarrelDisplay.data_objects s' !! "rifled_barrel"
   = Some (BarrelDisplay.Visibility barrel_hidden barrel_hidden)) /\
  (forall before,
     BarrelDisplay.setup_barrel_mode mode (BarrelDisplay.setup_barrel_mode before s)
     = if known then s' else BarrelDisplay.setup_barrel_mode before s).
Proof.
  intros s' members barrel_hidden known.
  assert (Hmode : forall s0, BarrelDisplay.setup_barrel_mode mode s0
                  = if known then BarrelDisplay.show_barrel barrel_hidden s0 else s0).
  { intros s0. unfold known, barrel_hidden, BarrelDisplay.setup_barrel_mode.
    destruct (String.eqb_spec mode "transparent") as [->|]; [reflexivity|].
    now destruct (String.eqb mode "crosssection"). }
  unfold s'. rewrite Hmode. destruct known.
  - assert (Hlook := lookup_show_barrel barrel_hidden s). fold members in Hlook.
    split; [reflexivity|]. split; [|split; [discriminate|split; [|split; [|split]]]].
    + apply set_eq. intros name. rewrite !elem_of_dom, Hlook.
      destruct (decide _); [|destruct (decide _)]; try reflexivity;
        now rewrite fmap_is_Some.
    + intros name Hnot Hne. rewrite Hlook.
      destruct (decide _); [contradiction|]. now destruct (decide _).
    + intros _ name Hin [v Hv]. rewrite Hlook, Hv.
      destruct (decide _); [reflexivity|contradiction].
    + intros _ Hnot [v Hv]. rewrite Hlook, Hv.
      destruct (decide _); [contradiction|]. now destruct (decide _).
    + intros before. rewrite Hmode. unfold BarrelDisplay.setup_barrel_mode.
      destruct (String.eqb before "transparent"); [apply show_barrel_twice|].
      destruct (String.eqb before "crosssection"); [apply show_barrel_twice|reflexivity].
  - repeat split; try discriminate; try reflexivity.
    intros before. now rewrite Hmode.
Qed.

(** X21 in the mode [crosssection]: the barrel is hidden and the section
    shown. *)
Lemma setup_barrel_mode_spec_witness :
  BarrelDisplay.data_objects
    (BarrelDisplay.setup_barrel_mode "crosssection" Examples.barrel_display)
    !! "rifled_barrel"
  = Some (BarrelDisplay.Visibility true true) /\
  BarrelDisplay.data_objects
    (BarrelDisplay.setup_barrel_mode "crosssection" Examples.barrel_display)
    !! "side"
  = Some (BarrelDisplay.Visibility false false).
Proof.
  destruct (setup_barrel_mode_spec "crosssection" Examples.barrel_display)
    as (_ & _ & _ & _ & Hside & Hbarrel & _).
  split.
  - apply Hbarrel; [reflexivity | | vm_compute; eauto].
    intros Hin. change ("rifled_barrel" ∈ ["side"]) in Hin.
    inversion Hin as [|? ? ? Hin']; inversion Hin'.
  - apply (Hside eq_refl "side"); [constructor | vm_compute; eauto].
Defined.

(** ** dropingBoxes/load_initial_meshes.py: which input folder is taken *)

Lemma py_index_first (x : string) (before after : list string) :
  ~ In x before ->
  LoadInitialMeshes.py_index x (before ++ x :: after) = Some (length before).
Proof.
  induction before as [|b before IH]; intros Hnot;
    cbn [app LoadInitialMeshes.py_index length].
  - now rewrite String.eqb_refl.
  - destruct (String.eqb_spec b x) as [->|]; [exfalso; apply Hnot; now left|].
    rewrite IH; [reflexivity|]. intros Hin. apply Hnot. now right.
Qed.

Lemma script_argv_split (before after : list string) :
  ~ In "--" before ->
  LoadInitialMeshes.script_argv (before ++ "--" :: after) = after.
Proof.
  intros Hnot. unfold LoadInitialMeshes.script_argv.
  assert (Hex : existsb (fun y => String.eqb y "--") (before ++ "--" :: after) = true).
  { apply existsb_exists. exists "--". split; [apply in_app_iff; right; now left|].
    apply String.eqb_refl. }
  rewrite Hex, py_index_first by assumption.
  rewrite (cons_middle "--" before after), app_assoc.
  apply drop_app_length'. rewrite length_app. cbn. lia.
Qed.

Lemma script_argv_none (argv : list string) :
  ~ In "--" argv -> LoadInitialMeshes.script_argv argv = [].
Proof.
  intros Hnot. unfold LoadInitialMeshes.script_argv.
  destruct (existsb _ argv) eqn:Hex; [|reflexivity].
  apply existsb_exists in Hex. destruct Hex as [y [Hin Hy]].
  apply String.eqb_eq in Hy. subst y. contradiction.
Qed.

(** The loop of [main] from position [k] on. *)
Lemma input_path_loop (argv items : list string) (k : nat) (acc : string) :
  let step := fun input_path item =>
                let i := fst item in
                let arg := snd item in
                if (String.eqb arg "--input" || String.eqb arg "-i")
                   && (i + 1 <? length argv)%nat
                then match argv !! (i + 1)%nat with
                     | Some next => next
                     | None => input_path
                     end
                else input_path in
  (forall j arg, items !! j = Some arg ->
     (arg = "--input" \/ arg = "-i") -> (length argv <= k + j + 1)%nat) ->
  fold_left step (zip (seq k (length items)) items) acc = acc.
Proof.
  intros step. revert k acc. induction items as [|arg items IH]; intros k acc Hplain;
    [reflexivity|].
  cbn [length seq zip zip_with fold_left].
  assert (Hstep : step acc (k, arg) = acc).
  { unfold step. cbn [fst snd].
    destruct (Nat.ltb_spec (k + 1) (length argv)) as [Hlt|Hge];
      [|now rewrite andb_false_r].
    destruct (String.eqb_spec arg "--input") as [->|H1].
    { specialize (Hplain 0%nat "--input" eq_refl (or_introl eq_refl)). lia. }
    destruct (String.eqb_spec arg "-i") as [->|H2].
    { specialize (Hplain 0%nat "-i" eq_refl (or_intror eq_refl)). lia. }
    reflexivity. }
  rewrite Hstep. apply IH. intros j arg' Hj Harg.
  specialize (Hplain (S j) arg' Hj Harg). lia.
Qed.

Lemma enumerate_from_app {A S} (step : S -> nat * A -> S) (l1 l2 : list A)
    (k : nat) (acc : S) :
  fold_left step (zip (seq k (length (l1 ++ l2))) (l1 ++ l2)) acc
  = fold_left step (zip (seq (k + length l1) (length l2)) l2)
              (fold_left step (zip (seq k (length l1)) l1) acc).
Proof.
  rewrite length_app, seq_app, zip_with_app by (now rewrite length_seq).
  apply fold_left_app.
Qed.

(** X22. Only what follows ["--"] on the command line counts; there the
    last ["--input"] or ["-i"] that has an argument after it gives the
    input folder, an option at the very end is passed over, and without
    any the default folder is taken. *)
Theorem input_path_last_option_wins (sys_argv : list string) :
  let is_option := fun a : string => a = "--input" \/ a = "-i" in
  (~ In "--" sys_argv ->
   LoadInitialMeshes.main sys_argv = LoadInitialMeshes.DEFAULT_INPUT_PATH) /\
  (forall blender_args before flag path after,
     sys_argv = blender_args ++ "--" :: before ++ flag :: path :: after ->
     ~ In "--" blender_args ->
     is_option flag ->
     (forall j a, (path :: after) !! j = Some a -> is_option a -> j = length after) ->
     LoadInitialMeshes.main sys_argv = path) /\
  (forall blender_args args,
     sys_argv = blender_args ++ "--" :: args ->
     ~ In "--" blender_args ->
     (forall j a, args !! j = Some a -> is_option a -> S j = length args) ->
     LoadInitialMeshes.main sys_argv = LoadInitialMeshes.DEFAULT_INPUT_PATH).
Proof.
  intros is_option. unfold LoadInitialMeshes.main. split; [|split].
  - intros Hnot. now rewrite script_argv_none.
  - intros blender_args before flag path after -> Hnot Hflag Hplain.
    rewrite script_argv_split by assumption.
    unfold LoadInitialMeshes.input_path_of.
    set (argv := before ++ flag :: path :: after).
    match goal with |- fold_left ?f _ _ = _ => set (step := f) end.
    unfold argv. rewrite enumerate_from_app.
    change (flag :: path :: after) with ([flag] ++ path :: after).
    rewrite enumerate_from_app. fold argv.
    set (acc := fold_left step (zip (seq 0 (length before)) before) _).
    clearbody acc. set (rest := path :: after).
    cbn [Nat.add length seq zip_with fold_left].
    unfold step at 2. cbn [fst snd].
    assert (Hlen : length argv = (length before + S (S (length after)))%nat).
    { unfold argv. rewrite length_app. cbn. lia. }
    assert (Hnext : argv !! (length before + 1)%nat = Some path).
    { unfold argv. rewrite lookup_app_r by lia.
      replace (length before + 1 - length before)%nat with 1%nat by lia. reflexivity. }
    assert (Htest : (String.eqb flag "--input" || String.eqb flag "-i")
                    && (length before + 1 <? length argv)%nat = true).
    { apply andb_true_intro. split; [|apply Nat.ltb_lt; lia].
      destruct Hflag as [-> | ->]; [reflexivity|]. apply orb_true_r. }
    rewrite Htest, Hnext. replace (length before + 1)%nat with (S (length before)) by lia.
    apply (input_path_loop argv (path :: after) (S (length before)) path).
    intros j arg Hj Harg. specialize (Hplain j arg Hj Harg). lia.
  - intros blender_args args -> Hnot Hplain.
    rewrite script_argv_split by assumption.
    unfold LoadInitialMeshes.input_path_of.
    apply (input_path_loop args args 0).
    intros j arg Hj Harg. specialize (Hplain j arg Hj Harg). lia.
Qed.

(** X22 on a command line with three options, the last one without an
    argument. *)
Lemma input_path_last_option_wins_witness :
  LoadInitialMeshes.main
    ["blender"; "--python"; "load_initial_meshes.py"; "--";
     "-i"; "first"; "--input"; "second"; "--input"]
  = "second".
Proof.
  destruct (input_path_last_option_wins
              ["blender"; "--python"; "load_initial_meshes.py"; "--";
               "-i"; "first"; "--input"; "second"; "--input"]) as [_ [Hlast _]].
  apply (Hlast ["blender"; "--python"; "load_initial_meshes.py"] ["-i"; "first"]
               "--input" "second" ["--input"]).
  - reflexivity.
  - cbn. intros [H|[H|[H|[]]]]; discriminate.
  - now left.
  - intros [|[|j]] a; cbn; [intros [= <-] [H|H]; discriminate | reflexivity | discriminate].
Defined.

(** ** dropingBoxes/load_frame.py: reading a PLY file *)

Lemma ply_lines_app (py_float : string -> result R) (st : LoadFrame.ply_state) (l1 l2 : list string) :
  LoadFrame.ply_lines py_float st (l1 ++ l2)
  = match LoadFrame.ply_lines py_float st l1 with
    | Ok st' => LoadFrame.ply_lines py_float st' l2
    | Raise e => Raise e
    end.
Proof.
  revert st. induction l1 as [|l l1 IH]; intros st; cbn [app LoadFrame.ply_lines];
    [reflexivity|].
  destruct (LoadFrame.ply_line py_float st l); [apply IH | reflexivity].
Qed.

Lemma ply_header_other (py_float : string -> result R) (st : LoadFrame.ply_state) (ls : list string) :
  LoadFrame.in_header st = true ->
  Forall other_header_line ls ->
  LoadFrame.ply_lines py_float st ls = Ok st.
Proof.
  intros Hin Hall. induction Hall as [|l ls [Hv [Hf He]] _ IH]; [reflexivity|].
  cbn [LoadFrame.ply_lines]. unfold LoadFrame.ply_line. rewrite Hin, Hv, Hf.
  destruct (String.eqb_spec (py_strip l) "end_header"); [contradiction|]. exact IH.
Qed.

Lemma ply_vertex_rows (py_float : string -> result R) (nv nf : Z) (fs : list (list Z)) (ls : list string)
    (rows done : list (list R)) :
  Forall2 (fun l row => list_comp py_float (take 3 (py_split (py_strip l))) = Ok row)
          ls rows ->
  Z.of_nat (length done + length ls) <= nv ->
  LoadFrame.ply_lines py_float (LoadFrame.PlyState nv nf false done fs) ls
  = Ok (LoadFrame.PlyState nv nf false (done ++ rows) fs).
Proof.
  intros Hall. revert done. induction Hall as [|l row ls rows Hrow _ IH]; intros done Hlen.
  - cbn. now rewrite app_nil_r.
  - cbn [LoadFrame.ply_lines]. unfold LoadFrame.ply_line at 1.
    cbn [LoadFrame.in_header LoadFrame.vertices LoadFrame.num_vertices
         LoadFrame.num_faces LoadFrame.faces].
    cbn [length] in Hlen.
    destruct (Z.ltb_spec (Z.of_nat (length done)) nv); [|lia].
    rewrite Hrow, IH by (rewrite length_app; cbn; lia).
    now rewrite <- app_assoc.
Qed.

Lemma ply_face_rows (py_float : string -> result R) (nv nf : Z) (vs : list (list R)) (ls : list string)
    (rows done : list (list Z)) :
  Forall2 (fun l row => list_comp py_int (take 3 (drop 1 (py_split (py_strip l)))) = Ok row)
          ls rows ->
  nv <= Z.of_nat (length vs) ->
  Z.of_nat (length done + length ls) <= nf ->
  LoadFrame.ply_lines py_float (LoadFrame.PlyState nv nf false vs done) ls
  = Ok (LoadFrame.PlyState nv nf false vs (done ++ rows)).
Proof.
  intros Hall Hfull. revert done.
  induction Hall as [|l row ls rows Hrow _ IH]; intros done Hlen.
  - cbn. now rewrite app_nil_r.
  - cbn [LoadFrame.ply_lines]. unfold LoadFrame.ply_line at 1.
    cbn [LoadFrame.in_header LoadFrame.vertices LoadFrame.num_vertices
         LoadFrame.num_faces LoadFrame.faces].
    cbn [length] in Hlen.
    destruct (Z.ltb_spec (Z.of_nat (length vs)) nv); [lia|].
    destruct (Z.ltb_spec (Z.of_nat (length done)) nf); [|lia].
    rewrite Hrow, IH by (rewrite length_app; cbn; lia).
    now rewrite <- app_assoc.
Qed.

Lemma ply_trailing (py_float : string -> result R) (nv nf : Z) (vs : list (list R)) (fs : list (list Z))
    (ls : list string) :
  nv <= Z.of_nat (length vs) ->
  nf <= Z.of_nat (length fs) ->
  LoadFrame.ply_lines py_float (LoadFrame.PlyState nv nf false vs fs) ls
  = Ok (LoadFrame.PlyState nv nf false vs fs).
Proof.
  intros Hv Hf. induction ls as [|l ls IH]; [reflexivity|].
  cbn [LoadFrame.ply_lines]. unfold LoadFrame.ply_line at 1.
  cbn [LoadFrame.in_header LoadFrame.vertices LoadFrame.num_vertices
       LoadFrame.num_faces LoadFrame.faces].
  destruct (Z.ltb_spec (Z.of_nat (length vs)) nv); [lia|].
  destruct (Z.ltb_spec (Z.of_nat (length fs)) nf); [lia|]. exact IH.
Qed.

Lemma np_array_rows_inv {A} (rows out : list (list A)) :
  LoadFrame.np_array_rows rows = Ok out -> out = rows.
Proof.
  unfold LoadFrame.np_array_rows. destruct rows as [|row rest]; [now intros [= <-]|].
  destruct (forallb _ rest); [now intros [= <-] | discriminate].
Qed.

Lemma np_array_rows_even {A} (n : nat) (rows : list (list A)) :
  Forall (fun row => length row = n) rows -> LoadFrame.np_array_rows rows = Ok rows.
Proof.
  intros Hall. unfold LoadFrame.np_array_rows. destruct rows as [|row rest]; [reflexivity|].
  apply Forall_cons_iff in Hall. destruct Hall as [Hrow Hrest].
  replace (forallb (fun r => (length r =? length row)%nat) rest) with true; [reflexivity|].
  symmetry. apply forallb_forall. intros r Hr. apply Nat.eqb_eq.
  rewrite Forall_forall in Hrest. rewrite Hrow. apply Hrest.
  now apply list_elem_of_In.
Qed.

Lemma list_comp_length {A B} (f : A -> result B) (xs : list A) (ys : list B) :
  list_comp f xs = Ok ys -> length ys = length xs.
Proof.
  revert ys. induction xs as [|x xs IH]; intros ys; cbn [list_comp].
  - intros [= <-]. reflexivity.
  - destruct (f x); [|discriminate].
    destruct (list_comp f xs); [|discriminate].
    intros [= <-]. cbn. f_equal. now apply IH.
Qed.

(** Rows read from lines that have enough words have three entries. *)
Lemma ply_rows_of_three {A} (f : string -> result A) (skip need : nat)
    (ls : list string) (rows : list (list A)) :
  (skip + 3 <= need)%nat ->
  Forall2 (fun l row => list_comp f (take 3 (drop skip (py_split (py_strip l)))) = Ok row)
          ls rows ->
  Forall (fun l => (need <= length (py_split (py_strip l)))%nat) ls ->
  Forall (fun row => length row = 3%nat) rows.
Proof.
  intros Hneed Hall. induction Hall as [|l row ls rows Hrow _ IH]; intros Hwords.
  - constructor.
  - apply Forall_cons_iff in Hwords. destruct Hwords as [Hl Hls].
    constructor; [|now apply IH].
    apply list_comp_length in Hrow. rewrite Hrow, length_take, length_drop. lia.
Qed.

(** X23. For a file whose header declares [nv] vertices and then [nf]
    faces and ends with [end_header], followed by [nv] vertex lines of
    at least three words and [nf] face lines of at least four words,
    [load_ply_topology] returns the first three numbers of each vertex
    line and the second to fourth word of each face line, in the order
    of the file; other header lines and all that follows the faces are
    passed over. *)
Theorem load_ply_topology_reads_declared_counts (py_float : string -> result R)
    (pre mid post vertex_lines face_lines trailing : list string)
    (vertex_decl face_decl end_decl : string) (nv_word nf_word : string)
    (rows : list (list R)) (triangles : list (list Z)) :
  Forall other_header_line pre ->
  Forall other_header_line mid ->
  Forall other_header_line post ->
  py_startswith (py_strip vertex_decl) "element vertex" = true ->
  last (py_split (py_strip vertex_decl)) = Some nv_word ->
  py_int nv_word = Ok (Z.of_nat (length vertex_lines)) ->
  py_startswith (py_strip face_decl) "element vertex" = false ->
  py_startswith (py_strip face_decl) "element face" = true ->
  last (py_split (py_strip face_decl)) = Some nf_word ->
  py_int nf_word = Ok (Z.of_nat (length face_lines)) ->
  py_strip end_decl = "end_header" ->
  Forall2 (fun l row => list_comp py_float (take 3 (py_split (py_strip l))) = Ok row)
          vertex_lines rows ->
  Forall2 (fun l row => list_comp py_int (take 3 (drop 1 (py_split (py_strip l)))) = Ok row)
          face_lines triangles ->
  Forall (fun l => (3 <= length (py_split (py_strip l)))%nat) vertex_lines ->
  Forall (fun l => (4 <= length (py_split (py_strip l)))%nat) face_lines ->
  LoadFrame.load_ply_topology py_float
    (pre ++ vertex_decl :: mid ++ face_decl :: post ++ end_decl
         :: vertex_lines ++ face_lines ++ trailing)
  = Ok (rows, triangles).
Proof.
  intros Hpre Hmid Hpost Hv Hvw Hvn Hfv Hf Hfw Hfn Hend Hrows Htri Hw3 Hw4.
  assert (Hrows3 : Forall (fun row => length row = 3%nat) rows).
  { apply (ply_rows_of_three py_float 0 3 vertex_lines rows); [lia | exact Hrows | exact Hw3]. }
  assert (Htri3 : Forall (fun row => length row = 3%nat) triangles).
  { apply (ply_rows_of_three py_int 1 4 face_lines triangles); [lia | exact Htri | exact Hw4]. }
  unfold LoadFrame.load_ply_topology.
  rewrite ply_lines_app, (ply_header_other _ _ pre) by (reflexivity || assumption).
  cbn [LoadFrame.ply_lines]. unfold LoadFrame.ply_line at 1.
  cbn [LoadFrame.in_header]. rewrite Hv. unfold LoadFrame.last_int.
  rewrite py_getitem_last, Hvw, Hvn.
  cbn [LoadFrame.num_faces LoadFrame.in_header LoadFrame.vertices LoadFrame.faces].
  rewrite ply_lines_app, (ply_header_other _ _ mid) by (reflexivity || assumption).
  cbn [LoadFrame.ply_lines]. unfold LoadFrame.ply_line at 1.
  cbn [LoadFrame.in_header]. rewrite Hfv, Hf. unfold LoadFrame.last_int.
  rewrite py_getitem_last, Hfw, Hfn.
  cbn [LoadFrame.num_vertices LoadFrame.in_header LoadFrame.vertices LoadFrame.faces].
  rewrite ply_lines_app, (ply_header_other _ _ post) by (reflexivity || assumption).
  cbn [LoadFrame.ply_lines]. unfold LoadFrame.ply_line at 1.
  cbn [LoadFrame.in_header]. rewrite Hend.
  change (py_startswith "end_header" "element vertex") with false.
  change (py_startswith "end_header" "element face") with false.
  change (String.eqb "end_header" "end_header") with true.
  cbn [LoadFrame.num_vertices LoadFrame.num_faces LoadFrame.vertices LoadFrame.faces].
  pose proof (Forall2_length _ _ _ Hrows) as Hlr.
  pose proof (Forall2_length _ _ _ Htri) as Hlt.
  rewrite ply_lines_app, (ply_vertex_rows _ _ _ _ _ rows []) by (cbn; (assumption || lia)).
  rewrite ply_lines_app, (ply_face_rows _ _ _ _ _ triangles [])
    by (cbn; (assumption || lia)).
  rewrite ply_trailing by (cbn; lia).
  cbn [LoadFrame.vertices LoadFrame.faces app].
  now rewrite (np_array_rows_even 3 rows Hrows3), (np_array_rows_even 3 triangles Htri3).
Qed.

(** X23 on a file of one triangle. *)
Lemma load_ply_topology_reads_declared_counts_witness :
  LoadFrame.load_ply_topology Examples.int_float Examples.triangle_ply
  = Ok ([[0; 0; 0]; [1; 0; 0]; [0; 1; 0]]%R, [[0; 1; 2]]).
Proof.
  apply (load_ply_topology_reads_declared_counts Examples.int_float
           Examples.ply_header_start Examples.ply_vertex_properties
           Examples.ply_face_properties Examples.ply_vertex_lines
           Examples.ply_face_lines [] _ _ _ "3" "1").
  - repeat constructor; vm_compute; discriminate.
  - repeat constructor; vm_compute; discriminate.
  - repeat constructor; vm_compute; discriminate.
  - vm_compute; reflexivity.
  - vm_compute; reflexivity.
  - vm_compute; reflexivity.
  - vm_compute; reflexivity.
  - vm_compute; reflexivity.
  - vm_compute; reflexivity.
  - vm_compute; reflexivity.
  - vm_compute; reflexivity.
  - repeat constructor; vm_compute; reflexivity.
  - repeat constructor; vm_compute; reflexivity.
  - repeat constructor; vm_compute; lia.
  - repeat constructor; vm_compute; lia.
Defined.

Lemma ply_line_inv (py_float : string -> result R) (st st' : LoadFrame.ply_state) (l : string) :
  ply_inv st ->
  LoadFrame.ply_line py_float st l = Ok st' ->
  ply_inv st' /\
  (LoadFrame.in_header st' = false ->
   LoadFrame.in_header st = false \/ py_strip l = "end_header") /\
  (length (LoadFrame.vertices st') + length (LoadFrame.faces st')
   <= length (LoadFrame.vertices st) + length (LoadFrame.faces st) + 1)%nat.
Proof.
  intros (Hhead & Hnv & Hnf & Hvs & Hfs). unfold LoadFrame.ply_line.
  destruct (LoadFrame.in_header st) eqn:Hin.
  - destruct (Hhead eq_refl) as [Hv0 Hf0].
    destruct (py_startswith (py_strip l) "element vertex").
    { destruct (LoadFrame.last_int (py_strip l)); [|discriminate].
      intros [= <-]. unfold ply_inv. cbn. rewrite Hv0, Hf0. cbn.
      repeat split; auto; try lia; discriminate. }
    destruct (py_startswith (py_strip l) "element face").
    { destruct (LoadFrame.last_int (py_strip l)); [|discriminate].
      intros [= <-]. unfold ply_inv. cbn. rewrite Hv0, Hf0. cbn.
      repeat split; auto; try lia; discriminate. }
    destruct (String.eqb_spec (py_strip l) "end_header") as [He|He].
    + intros [= <-]. unfold ply_inv. cbn. rewrite Hv0, Hf0. cbn.
      repeat split; auto; try lia; discriminate.
    + intros [= <-]. unfold ply_inv. rewrite Hin, Hv0, Hf0. cbn.
      repeat split; auto; try lia; discriminate.
  - destruct (Z.ltb_spec (Z.of_nat (length (LoadFrame.vertices st)))
                (LoadFrame.num_vertices st)).
    { destruct (list_comp py_float _) as [row|] eqn:Hrow; [|discriminate].
      apply list_comp_length in Hrow. rewrite length_take in Hrow.
      intros [= <-]. unfold ply_inv. cbn. rewrite !length_app. cbn.
      repeat split; auto; try lia; try discriminate.
      apply Forall_app. split; [exact Hvs|]. constructor; [rewrite Hrow; apply Nat.le_min_l | constructor]. }
    destruct (Z.ltb_spec (Z.of_nat (length (LoadFrame.faces st)))
                (LoadFrame.num_faces st)).
    { destruct (list_comp py_int _) as [row|] eqn:Hrow; [|discriminate].
      apply list_comp_length in Hrow. rewrite length_take in Hrow.
      intros [= <-]. unfold ply_inv. cbn. rewrite !length_app. cbn.
      repeat split; auto; try lia; try discriminate.
      apply Forall_app. split; [exact Hfs|]. constructor; [rewrite Hrow; apply Nat.le_min_l | constructor]. }
    intros [= <-]. unfold ply_inv. rewrite Hin.
    repeat split; auto; try lia; discriminate.
Qed.

Lemma ply_lines_inv (py_float : string -> result R) (lines : list string) (st st' : LoadFrame.ply_state) :
  ply_inv st ->
  LoadFrame.ply_lines py_float st lines = Ok st' ->
  ply_inv st' /\
  (LoadFrame.in_header st' = false ->
   LoadFrame.in_header st = false \/
   Exists (fun l => py_strip l = "end_header") lines) /\
  (length (LoadFrame.vertices st') + length (LoadFrame.faces st')
   <= length (LoadFrame.vertices st) + length (LoadFrame.faces st) + length lines)%nat.
Proof.
  revert st. induction lines as [|l lines IH]; intros st Hinv; cbn [LoadFrame.ply_lines].
  - intros [= <-]. split; [exact Hinv|]. split; [now left|]. cbn [length]. lia.
  - destruct (LoadFrame.ply_line py_float st l) as [st1|] eqn:Hline; [|discriminate].
    intros Hrest. destruct (ply_line_inv _ _ _ _ Hinv Hline) as (Hinv1 & Hhead1 & Hcount1).
    destruct (IH st1 Hinv1 Hrest) as (Hinv' & Hhead' & Hcount').
    split; [exact Hinv'|]. split.
    + intros Hout. destruct (Hhead' Hout) as [H1|H1].
      * destruct (Hhead1 H1) as [H0|H0]; [now left | right; now constructor].
      * right. now constructor 2.
    + cbn [length]. lia.
Qed.

(** X24. Whatever the file holds, a result of [load_ply_topology] has
    rows of at most three numbers and no more rows than the file has
    lines; a file without an [end_header] line gives no vertex and no
    face at all. *)
Theorem load_ply_topology_bounds (py_float : string -> result R) (lines : list string)
    (vs : list (list R)) (fs : list (list Z)) :
  LoadFrame.load_ply_topology py_float lines = Ok (vs, fs) ->
  (Forall (fun l => py_strip l <> "end_header") lines -> vs = [] /\ fs = []) /\
  (length vs + length fs <= length lines)%nat /\
  Forall (fun row => (length row <= 3)%nat) vs /\
  Forall (fun row => (length row <= 3)%nat) fs.
Proof.
  unfold LoadFrame.load_ply_topology.
  destruct (LoadFrame.ply_lines py_float _ lines) as [st|] eqn:Hrun; [|discriminate].
  destruct (LoadFrame.np_array_rows (LoadFrame.vertices st)) as [vs0|] eqn:Hvs0;
    [|discriminate].
  destruct (LoadFrame.np_array_rows (LoadFrame.faces st)) as [fs0|] eqn:Hfs0;
    [|discriminate].
  apply np_array_rows_inv in Hvs0, Hfs0. subst vs0 fs0.
  intros [= <- <-].
  assert (Hinit : ply_inv (LoadFrame.PlyState 0 0 true [] [])).
  { unfold ply_inv. cbn. repeat split; auto; lia. }
  destruct (ply_lines_inv _ _ _ _ Hinit Hrun) as ((Hhead & _ & _ & Hvs & Hfs) & Hout & Hcount).
  cbn in Hout, Hcount. split; [|now repeat split].
  intros Hnone. destruct (LoadFrame.in_header st) eqn:Hin; [now apply Hhead|].
  destruct (Hout eq_refl) as [|Hex]; [discriminate|].
  apply Exists_exists in Hex. destruct Hex as (l & Hl & He).
  rewrite Forall_forall in Hnone. now destruct (Hnone l Hl).
Qed.

(** X24 on a file of one triangle. *)
Lemma load_ply_topology_bounds_witness :
  exists vs fs,
    LoadFrame.load_ply_topology Examples.int_float Examples.triangle_ply = Ok (vs, fs) /\
    (length vs + length fs <= length Examples.triangle_ply)%nat /\
    Forall (fun row => (length row <= 3)%nat) vs /\
    Forall (fun row => (length row <= 3)%nat) fs.
Proof.
  eexists. eexists. split; [vm_compute; reflexivity|].
  apply (load_ply_topology_bounds Examples.int_float Examples.triangle_ply).
  vm_compute; reflexivity.
Defined.
